(** * Vitess cluster configuration synthesis (paasta_tools/vitesscluster_tools.py)

    The module builds the custom-resource tree of a Vitess cluster from a
    compact instance description.  Two embeddings of the same code are given:

    - the value embedding ([Module Value]), in which Python dicts and
      lists are trees and an in-place update is a functional update of the
      tree the variable is bound to;
    - the store embedding ([Module Store]), in which every dict and list is an
      object of a shared store, variables hold references, and [copy.deepcopy],
      [dict.copy], item assignment and [list.append] act on the store.

    The second one is what the template-isolation property is about; it is
    related to the first one by a refinement theorem. *)

From Stdlib Require Import ZArith.
From stdpp Require Import base option strings list gmap.

Local Open Scope string_scope.
Set Warnings "-register-all".

Module Value.

(** ** Python values as trees *)

(** [VFloat m e] is the decimal literal [m * 10^e]; the only float of the
    module is the autoscaling setpoint [0.7]. *)
Inductive value : Type :=
  | VNone
  | VBool (b : bool)
  | VInt (z : Z)
  | VFloat (m e : Z)
  | VStr (s : string)
  | VList (l : list value)
  | VDict (d : list (string * value)).

Coercion VStr : string >-> value.

(** Exceptions the synthesis code can raise. *)
Inductive exn : Type :=
  | KeyError (k : string)
  | TypeError (msg : string)
  | AttributeError (msg : string)
  | RecursionError
  | SystemError (msg : string).

Inductive result (A : Type) : Type :=
  | Ok (a : A)
  | Raise (e : exn).
Arguments Ok {A} a.
Arguments Raise {A} e.

#[export] Instance result_ret : MRet result := @Ok.
#[export] Instance result_bind : MBind result := λ A B f m,
  match m with Ok a => f a | Raise e => Raise e end.
#[export] Instance result_fmap : FMap result := λ A B f m,
  match m with Ok a => Ok (f a) | Raise e => Raise e end.

(** A dict keeps insertion order: assigning to a key that is present
    replaces the value in place, a new key goes to the end. *)
Fixpoint dict_get {A} (d : list (string * A)) (k : string) : option A :=
  match d with
  | [] => None
  | (k', v) :: d' => if String.eqb k' k then Some v else dict_get d' k
  end.

Fixpoint dict_set {A} (d : list (string * A)) (k : string) (v : A)
  : list (string * A) :=
  match d with
  | [] => [(k, v)]
  | (k', v') :: d' =>
      if String.eqb k' k then (k', v) :: d' else (k', v') :: dict_set d' k v
  end.

(** [obj[k]] *)
Definition getitem (o : value) (k : string) : result value :=
  match o with
  | VDict d =>
      match dict_get d k with
      | Some v => Ok v
      | None => Raise (KeyError k)
      end
  | _ => Raise (TypeError "object is not subscriptable")
  end.

(** [obj[k] = v] *)
Definition setitem (o : value) (k : string) (v : value) : result value :=
  match o with
  | VDict d => Ok (VDict (dict_set d k v))
  | _ => Raise (TypeError "object does not support item assignment")
  end.

(** [obj.append(v)] *)
Definition append (o : value) (v : value) : result value :=
  match o with
  | VList l => Ok (VList (l ++ [v]))
  | _ => Raise (AttributeError "append")
  end.

(** [obj.extend(vs)] *)
Definition extend (o : value) (vs : list value) : result value :=
  match o with
  | VList l => Ok (VList (l ++ vs))
  | _ => Raise (AttributeError "extend")
  end.

(** An update of the object reached from [o] through the keys [path], seen
    from the variable bound to [o]. *)
Fixpoint update_at (path : list string) (f : value → result value)
  (o : value) : result value :=
  match path with
  | [] => f o
  | k :: path' =>
      child ← getitem o k;
      child' ← update_at path' f child;
      setitem o k child'
  end.

(** [v == s] for a string literal [s]. *)
Definition str_eq (v : value) (s : string) : bool :=
  match v with
  | VStr s' => String.eqb s' s
  | _ => false
  end.

(** A field read with [dict.get]: absent is [None]. *)
Definition of_opt (o : option string) : value :=
  match o with
  | Some s => VStr s
  | None => VNone
  end.

Definition of_optv (o : option value) : value :=
  match o with
  | Some v => v
  | None => VNone
  end.

(** [f"{x}"] for a field that is a string or [None]. *)
Definition fmt (o : option string) : string :=
  match o with
  | Some s => s
  | None => "None"
  end.

(** ** Module constants *)

Definition KUBERNETES_NAMESPACE := "paasta-vitessclusters".
Definition IMAGE_TAG := "v16.0.3".
Definition VTCTLD_IMAGE := "docker-paasta.yelpcorp.com:443/vitess_base:" +:+ IMAGE_TAG.
Definition VT_GATE_IMAGE := "docker-paasta.yelpcorp.com:443/vitess_base:" +:+ IMAGE_TAG.
Definition VT_TABLET_IMAGE := "docker-paasta.yelpcorp.com:443/vitess_base:" +:+ IMAGE_TAG.
Definition VT_ADMIN_IMAGE := "docker-dev.yelpcorp.com/vtadmin:" +:+ IMAGE_TAG.

Definition TOPO_IMPLEMENTATION := "zk2".
Definition TOPO_GLOBAL_ROOT := "/vitess-paasta/global".
Definition SOURCE_DB_HOST := "169.254.255.254".
Definition TABLET_TYPES : list string := ["primary"; "migration"].
Definition WEB_PORT := "15000".
Definition GRPC_PORT := "15999".

Definition env_value (name : string) (v : value) : value :=
  VDict [("name", VStr name); ("value", v)].

Definition env_secret (name secret key : string) : value :=
  VDict [("name", VStr name);
         ("valueFrom",
          VDict [("secretKeyRef",
                  VDict [("name", VStr secret); ("key", VStr key)])])].

Definition VTCTLD_EXTRA_ENV : value :=
  VList [
    env_value "WEB_PORT" WEB_PORT;
    env_value "GRPC_PORT" GRPC_PORT;
    env_value "TOPOLOGY_FLAGS" ""
  ].

Definition VTTABLET_EXTRA_ENV : value :=
  VList [
    env_value "CELL_TOPOLOGY_SERVERS" "";
    env_value "SHARD" "0";
    env_value "DB" "";
    env_value "EXTERNAL_DB" "1";
    env_value "KEYSPACE" "";
    env_value "ROLE" "rdonly";
    env_value "WEB_PORT" WEB_PORT;
    env_value "GRPC_PORT" GRPC_PORT;
    env_value "TOPOLOGY_FLAGS" "";
    env_value "VAULT_ADDR" "https://vault-dre.uswest1-devc.yelpcorp.com:8200";
    env_secret "VAULT_ROLEID"
      "paasta-vitessclusters-secret-vitess-k8s-vault-vttablet-approle-roleid"
      "vault-vttablet-approle-roleid";
    env_secret "VAULT_SECRETID"
      "paasta-vitessclusters-secret-vitess-k8s-vault-vttablet-approle-secretid"
      "vault-vttablet-approle-secretid";
    env_value "VAULT_CACERT" "/etc/vault/all_cas/acm-privateca-uswest1-devc.crt"
  ].

Definition VTGATE_EXTRA_ENV : value :=
  VList [
    env_value "VAULT_ADDR" "https://vault-dre.uswest1-devc.yelpcorp.com:8200";
    env_secret "VAULT_ROLEID"
      "paasta-vitessclusters-secret-vitess-k8s-vault-vtgate-approle-roleid"
      "vault-vtgate-approle-roleid";
    env_secret "VAULT_SECRETID"
      "paasta-vitessclusters-secret-vitess-k8s-vault-vtgate-approle-secretid"
      "vault-vtgate-approle-secretid";
    env_value "VAULT_CACERT" "/etc/vault/all_cas/acm-privateca-uswest1-devc.crt"
  ].

Definition VTADMIN_EXTRA_FLAGS : value :=
  VDict [("grpc-allow-reflection", VStr "true")].

Definition VTCTLD_EXTRA_FLAGS : value :=
  VDict [
    ("disable_active_reparents", VStr "true");
    ("security_policy", VStr "read-only")
  ].

Definition VTTABLET_EXTRA_FLAGS : value :=
  VDict [
    ("log_err_stacks", VStr "true");
    ("grpc_max_message_size", VStr "134217728");
    ("init_tablet_type", VStr "replica");
    ("queryserver-config-schema-reload-time", VStr "1800");
    ("dba_pool_size", VStr "4");
    ("vreplication_heartbeat_update_interval", VStr "60");
    ("vreplication_tablet_type", VStr "REPLICA");
    ("keep_logs", VStr "72h");
    ("enable-lag-throttler", VStr "true");
    ("throttle_check_as_check_self", VStr "true");
    ("throttle_metrics_query", VStr "");
    ("throttle_metrics_threshold", VStr "");
    ("db_charset", VStr "utf8mb4");
    ("disable_active_reparents", VStr "true")
  ].

(** The f-strings of the module. *)
Definition vault_addr (region : option string) : string :=
  "https://vault-dre." +:+ fmt region +:+ ".yelpcorp.com:8200".

Definition vault_cacert (region : option string) : string :=
  "/etc/vault/all_cas/acm-privateca-" +:+ fmt region +:+ ".crt".

Definition topology_flags (zk_address : option string) : string :=
  "--topo_implementation " +:+ TOPO_IMPLEMENTATION
  +:+ " --topo_global_server_address $" +:+ fmt zk_address
  +:+ " --topo_global_root " +:+ TOPO_GLOBAL_ROOT.

Definition throttle_query (throttle_query_table : string) : string :=
  "select max_replication_delay from max_mysql_replication_delay."
  +:+ throttle_query_table +:+ ";".

Definition acl_config (db_name : string) : string :=
  "/etc/vitess_keyspace_acls/acls_for_" +:+ db_name +:+ ".json".

Definition pool_name (db_name tablet_type : string) : string :=
  db_name +:+ "_" +:+ tablet_type.

(** ** The builders, by value *)

Definition build_affinity_spec (paasta_pool : value) : value :=
  VDict [
    ("nodeAffinity", VDict [
      ("requiredDuringSchedulingIgnoredDuringExecution", VDict [
        ("nodeSelectorTerms", VList [
          VDict [
            ("matchExpressions", VList [
              VDict [
                ("key", VStr "yelp.com/pool");
                ("operator", VStr "In");
                ("values", VList [paasta_pool])
              ]
            ])
          ]
        ])
      ])
    ])
  ].

Definition build_extra_labels (paasta_pool paasta_cluster : value) : value :=
  VDict [
    ("yelp.com/owner", VStr "dre_mysql_working_hours");
    ("paasta.yelp.com/cluster", paasta_cluster);
    ("paasta.yelp.com/pool", paasta_pool)
  ].

Definition build_extra_env (paasta_cluster : value) : value :=
  VList [
    VDict [
      ("name", VStr "PAASTA_POD_IP");
      ("valueFrom", VDict [("fieldRef", VDict [("fieldPath", VStr "status.podIP")])])
    ];
    VDict [("name", VStr "PAASTA_CLUSTER"); ("value", paasta_cluster)]
  ].

(** [if env["name"] == name: env["value"] = v] *)
Definition set_if_named (name : string) (v : value) (env : value)
  : result value :=
  n ← getitem env "name";
  if str_eq n name then setitem env "value" v else mret env.

(** [for x in xs: body], the loop variable [x] ranging over the elements of
    a list and the body updating the variables gathered in [acc]. *)
Fixpoint for_each `{!MBind M, !MRet M} {A B} (xs : list A)
  (body : B → A → M B) (acc : B) : M B :=
  match xs with
  | [] => mret acc
  | x :: xs' => acc' ← body acc x; for_each xs' body acc'
  end.

(** [for x in o] over a value: only lists are iterated by this module. *)
Definition iter (o : value) : result (list value) :=
  match o with
  | VList l => Ok l
  | _ => Raise (TypeError "object is not iterable")
  end.

Definition resources (cpu memory : string) : value :=
  VDict [
    ("requests", VDict [("cpu", VStr cpu); ("memory", VStr memory)]);
    ("limits", VDict [("memory", VStr memory)])
  ].

Definition build_cell_config (cell : value) (paasta_pool paasta_cluster : value)
  (region : option string) : result value :=
  let config := VDict [
    ("name", cell);
    ("gateway", VDict [
      ("extraFlags", VDict [
        ("mysql_auth_server_impl", VStr "vault");
        ("mysql_auth_vault_addr", VStr (vault_addr region));
        ("mysql_auth_vault_path", VStr "secrets/vitess/vt-gate/vttablet_credentials.json");
        ("mysql_auth_vault_tls_ca", VStr (vault_cacert region));
        ("mysql_auth_vault_ttl", VStr "60s")
      ]);
      ("affinity", build_affinity_spec paasta_pool);
      ("extraLabels", build_extra_labels paasta_pool paasta_cluster);
      ("extraEnv", build_extra_env paasta_cluster);
      ("replicas", VInt 1);
      ("resources", resources "100m" "256Mi")
    ])
  ] in
  let vtgate_extra_env := VTGATE_EXTRA_ENV in
  envs ← iter vtgate_extra_env;
  for_each envs (λ config env,
    env ← set_if_named "VAULT_ADDR" (VStr (vault_addr region)) env;
    env ← set_if_named "VAULT_CACERT" (VStr (vault_cacert region)) env;
    update_at ["gateway"; "extraEnv"] (λ l, append l env) config) config.

Definition build_vitess_dashboard_config (cells : value)
  (paasta_pool paasta_cluster : value) (zk_address : option string)
  : result value :=
  let config := VDict [
    ("cells", cells);
    ("affinity", build_affinity_spec paasta_pool);
    ("extraLabels", build_extra_labels paasta_pool paasta_cluster);
    ("extraEnv", build_extra_env paasta_cluster);
    ("extraFlags", VTCTLD_EXTRA_FLAGS);
    ("replicas", VInt 1);
    ("resources", resources "100m" "128Mi")
  ] in
  let vtctld_extra_env := VTCTLD_EXTRA_ENV in
  envs ← iter vtctld_extra_env;
  for_each envs (λ config env,
    env ← set_if_named "TOPOLOGY_FLAGS" (VStr (topology_flags zk_address)) env;
    update_at ["extraEnv"] (λ l, append l env) config) config.

Definition build_vt_admin_config (cells : value)
  (paasta_pool paasta_cluster : value) : value :=
  VDict [
    ("cells", cells);
    ("apiAddresses", VList [VStr "http://localhost:15000"]);
    ("affinity", build_affinity_spec paasta_pool);
    ("extraLabels", build_extra_labels paasta_pool paasta_cluster);
    ("extraFlags", VTADMIN_EXTRA_FLAGS);
    ("extraEnv", build_extra_env paasta_cluster);
    ("replicas", VInt 1);
    ("readOnly", VBool false);
    ("apiResources", resources "100m" "128Mi");
    ("webResources", resources "100m" "128Mi")
  ].

(** [obj.copy()] *)
Definition copy (o : value) : result value :=
  match o with
  | VDict d => Ok (VDict d)
  | VList l => Ok (VList l)
  | _ => Raise (AttributeError "copy")
  end.

Definition host_volume (name path : string) : value :=
  VDict [("name", VStr name); ("hostPath", VDict [("path", VStr path)])].

Definition volume_mount (mountPath name : string) : value :=
  VDict [("mountPath", VStr mountPath); ("name", VStr name); ("readOnly", VBool true)].

Definition build_tablet_pool_config (cell : value) (db_name keyspace : string)
  (port : Z) (paasta_pool paasta_cluster : value) (zk_address : option string)
  (throttle_query_table throttle_metrics_threshold tablet_type : string)
  (region : option string) : result value :=
  vttablet_extra_flags ← copy VTTABLET_EXTRA_FLAGS;
  vttablet_extra_flags ← setitem vttablet_extra_flags
    "throttle_metrics_query" (VStr (throttle_query throttle_query_table));
  vttablet_extra_flags ← setitem vttablet_extra_flags
    "throttle_metrics_threshold" (VStr throttle_metrics_threshold);
  vttablet_extra_flags ← setitem vttablet_extra_flags
    "enforce-tableacl-config" (VStr "true");
  vttablet_extra_flags ← setitem vttablet_extra_flags
    "table-acl-config" (VStr (acl_config db_name));
  vttablet_extra_flags ← setitem vttablet_extra_flags
    "table-acl-config-reload-interval" (VStr "60s");
  vttablet_extra_flags ← setitem vttablet_extra_flags
    "queryserver-config-strict-table-acl" (VStr "true");
  vttablet_extra_flags ← setitem vttablet_extra_flags
    "db-credentials-server" (VStr "vault");
  vttablet_extra_flags ← setitem vttablet_extra_flags
    "db-credentials-vault-addr" (VStr (vault_addr region));
  vttablet_extra_flags ← setitem vttablet_extra_flags
    "db-credentials-vault-path"
    (VStr "secrets/vitess/vt-tablet/vttablet_credentials.json");
  vttablet_extra_flags ← setitem vttablet_extra_flags
    "db-credentials-vault-tls-ca" (VStr (vault_cacert region));
  vttablet_extra_flags ← setitem vttablet_extra_flags
    "db-credentials-vault-ttl" (VStr "60s");
  let type :=
    if String.eqb tablet_type "primary" then "externalmaster"
    else "externalreplica" in
  let config := VDict [
    ("cell", cell);
    ("name", VStr (pool_name db_name tablet_type));
    ("type", VStr type);
    ("affinity", build_affinity_spec paasta_pool);
    ("extraLabels", build_extra_labels paasta_pool paasta_cluster);
    ("extraEnv", build_extra_env paasta_cluster);
    ("extraVolumeMounts", VList [
      volume_mount "/etc/vault/all_cas" "vault-secrets";
      volume_mount "/etc/vitess_keyspace_acls" "acls";
      volume_mount "etc/credentials.yaml" "vttablet-fake-credentials";
      volume_mount "/etc/init_db.sql" "keyspace-fake-init-script"
    ]);
    ("extraVolumes", VList [
      host_volume "vault-secrets" "/nail/etc/vault/all_cas";
      host_volume "acls" "/nail/srv/configs/vitess_keyspace_acls";
      host_volume "vttablet-fake-credentials" "/dev/null";
      host_volume "keyspace-fake-init-script" "/dev/null"
    ]);
    ("replicas", VInt 1);
    ("vttablet", VDict [
      ("extraFlags", vttablet_extra_flags);
      ("resources", resources "100m" "256Mi")
    ]);
    ("externalDatastore", VDict [
      ("database", VStr db_name);
      ("host", VStr SOURCE_DB_HOST);
      ("port", VInt port);
      ("user", VStr "vt_app");
      ("credentialsSecret", VDict [
        ("key", VStr "/etc/credentials.yaml");
        ("volumeName", VStr "vttablet-fake-credentials")
      ])
    ]);
    ("dataVolumeClaimTemplate", VDict [
      ("accessModes", VList [VStr "ReadWriteOnce"]);
      ("resources", VDict [("requests", VDict [("storage", VStr "10Gi")])]);
      ("storageClassName", VStr "ebs-csi-gp3")
    ])
  ] in
  let vttablet_extra_env := VTTABLET_EXTRA_ENV in
  envs ← iter vttablet_extra_env;
  config ← for_each envs (λ config env,
    env ← set_if_named "TOPOLOGY_FLAGS" (VStr (topology_flags zk_address)) env;
    env ← set_if_named "CELL_TOPOLOGY_SERVERS" (of_opt zk_address) env;
    env ← set_if_named "DB" (VStr db_name) env;
    env ← set_if_named "KEYSPACE" (VStr keyspace) env;
    env ← set_if_named "VAULT_ADDR" (VStr (vault_addr region)) env;
    env ← set_if_named "VAULT_CACERT" (VStr (vault_cacert region)) env;
    update_at ["extraEnv"] (λ l, append l env) config) config;
  update_at ["extraLabels"]
    (λ d, setitem d "tablet_type" (VStr (pool_name db_name tablet_type))) config.

(** ** The effects of a synthesis call

    Besides raising, the only effect visible from outside is the query to the
    port-mapping collaborator,
    [load_system_paasta_config().get_mysql_port_mappings()]; the world counts
    these queries. *)

Record world : Type := World { queries : nat }.

Definition M (A : Type) : Type := world → result A * world.

#[export] Instance M_ret : MRet M := λ A a w, (Ok a, w).
#[export] Instance M_bind : MBind M := λ A B f m w,
  match m w with
  | (Ok a, w') => f a w'
  | (Raise e, w') => (Raise e, w')
  end.

Definition lift {A} (r : result A) : M A := λ w, (r, w).

(** [for x in o] for an input field read with [dict.get]. *)
Definition iter_opt {A} (o : option (list A)) : result (list A) :=
  match o with
  | Some l => Ok l
  | None => Raise (TypeError "'NoneType' object is not iterable")
  end.

Definition list_field (o : option (list value)) : value :=
  match o with
  | Some l => VList l
  | None => VNone
  end.

(** ** The input *)

(** An element of [keyspaces]: [{"keyspace": ..., "cluster": ...}]. *)
Record KeyspaceDescriptor : Type := {
  ks_keyspace : string;
  ks_cluster : string
}.

(** The instance description; each field is read with
    [instance_config.get], so an absent key reads as [None]. *)
Record InstanceDescription : Type := {
  cpus : option value;
  mem : option value;
  deploy_group : option value;
  zk_address : option string;
  paasta_pool : option value;
  paasta_cluster : option value;
  cells : option (list value);
  keyspaces : option (list KeyspaceDescriptor);
  region : option string
}.

Section Synthesis.

(** What the port-mapping collaborator answers: cluster name to (tablet
    role to port). *)
Variable mysql_port_mappings : gmap string (gmap string Z).

Definition get_mysql_port_mappings : M (gmap string (gmap string Z)) :=
  λ w, (Ok mysql_port_mappings, World (S (queries w))).

(** [mapping[k]] *)
Definition subscript {V} (m : gmap string V) (k : string) : result V :=
  match m !! k with
  | Some v => Ok v
  | None => Raise (KeyError k)
  end.

(** Lines 481-489: the throttling table and threshold of a tablet type on a
    cluster. *)
Definition throttle_policy (tablet_type cluster : string) : string * string :=
  if String.eqb tablet_type "migration" then
    ("migration_replication_delay", "7200")
  else
    ("read_replication_delay",
     if String.prefix "refresh" cluster || String.prefix "sanitized" cluster
     then "30" else "3").

Definition keyspace_entry (keyspace : string) (tablet_pools : value) : value :=
  VDict [
    ("name", VStr keyspace);
    ("durabilityPolicy", VStr "none");
    ("turndownPolicy", VStr "Immediate");
    ("partitionings", VList [
      VDict [
        ("equal", VDict [
          ("parts", VInt 1);
          ("shardTemplate", VDict [
            ("databaseInitScriptSecret", VDict [
              ("volumeName", VStr "keyspace-fake-init-script");
              ("key", VStr "/etc/init_db.sql")
            ]);
            ("tabletPools", tablet_pools)
          ])
        ])
      ]
    ])
  ].

Definition build_keyspaces_config (cells : option (list value))
  (keyspaces : option (list KeyspaceDescriptor))
  (paasta_pool paasta_cluster : value) (zk_address region : option string)
  : M value :=
  let config := VList [] in
  keyspaces ← lift (iter_opt keyspaces);
  for_each keyspaces (λ config keyspace_config,
    let keyspace := keyspace_config.(ks_keyspace) in
    let db_name := keyspace_config.(ks_keyspace) in
    let cluster := keyspace_config.(ks_cluster) in
    let tablet_pools := VList [] in
    mysql_port_mappings ← get_mysql_port_mappings;
    tablet_pools ← for_each TABLET_TYPES (λ tablet_pools tablet_type,
      ports ← lift (subscript mysql_port_mappings cluster);
      match ports !! tablet_type with
      | None => mret tablet_pools
      | Some port =>
          let '(throttle_query_table, throttle_metrics_threshold) :=
            throttle_policy tablet_type cluster in
          pools ← lift (
            cells ← iter_opt cells;
            mapM (λ cell,
              build_tablet_pool_config cell db_name keyspace port
                paasta_pool paasta_cluster zk_address throttle_query_table
                throttle_metrics_threshold tablet_type region) cells);
          lift (extend tablet_pools pools)
      end) tablet_pools;
    lift (append config (keyspace_entry keyspace tablet_pools))) config.

(** The dict literal bound to [vitess_instance_config]. *)
Definition instance_tree (cpus mem deploy_group : value)
  (zk_address : option string)
  (cell_configs vitessDashboard vtadmin keyspace_configs : value) : value :=
  VDict [
    ("namespace", VStr "paasta-vitessclusters");
    ("cpus", cpus);
    ("mem", mem);
    ("min_instances", VInt 1);
    ("max_instances", VInt 1);
    ("deploy_group", deploy_group);
    ("autoscaling", VDict [("setpoint", VFloat 7 (-1))]);
    ("env", VDict [
      ("OPERATOR_NAME", VStr "vitess-operator");
      ("POD_NAME", VStr "vitess-k8s");
      ("PS_OPERATOR_POD_NAME", VStr "vitess-k8s");
      ("PS_OPERATOR_POD_NAMESPACE", VStr "paasta-vitessclusters");
      ("WATCH_NAMESPACE", VStr "paasta-vitessclusters")
    ]);
    ("healthcheck_grace_period_seconds", VInt 60);
    ("healthcheck_mode", VStr "cmd");
    ("healthcheck_cmd", VStr "true");
    ("images", VDict [
      ("vtctld", VStr VTCTLD_IMAGE);
      ("vtadmin", VStr VT_ADMIN_IMAGE);
      ("vtgate", VStr VT_GATE_IMAGE);
      ("vttablet", VStr VT_TABLET_IMAGE)
    ]);
    ("globalLockserver", VDict [
      ("external", VDict [
        ("implementation", VStr TOPO_IMPLEMENTATION);
        ("address", of_opt zk_address);
        ("rootPath", VStr TOPO_GLOBAL_ROOT)
      ])
    ]);
    ("cells", cell_configs);
    ("vitessDashboard", vitessDashboard);
    ("vtadmin", vtadmin);
    ("keyspaces", keyspace_configs);
    ("updateStrategy", VDict [("type", VStr "Immediate")])
  ].

Definition generate_vitess_instance_config
  (instance_config : InstanceDescription) : M value :=
  let cpus := of_optv instance_config.(cpus) in
  let mem := of_optv instance_config.(mem) in
  let deploy_group := of_optv instance_config.(deploy_group) in
  let zk_address := instance_config.(zk_address) in
  let paasta_pool := of_optv instance_config.(paasta_pool) in
  let paasta_cluster := of_optv instance_config.(paasta_cluster) in
  let cells := instance_config.(cells) in
  let keyspaces := instance_config.(keyspaces) in
  let region := instance_config.(region) in
  cell_configs ← lift (
    cells ← iter_opt cells;
    mapM (λ cell, build_cell_config cell paasta_pool paasta_cluster region)
      cells);
  vitessDashboard ← lift (
    build_vitess_dashboard_config (list_field cells) paasta_pool
      paasta_cluster zk_address);
  let vtadmin :=
    build_vt_admin_config (list_field cells) paasta_pool paasta_cluster in
  keyspace_configs ← build_keyspaces_config cells keyspaces paasta_pool
    paasta_cluster zk_address region;
  mret (instance_tree cpus mem deploy_group zk_address (VList cell_configs)
          vitessDashboard vtadmin keyspace_configs).

End Synthesis.


(** ** Closed forms of the value embedding *)

(** The tablet-pool spec as a function: [build_tablet_pool_config] never
    raises (lemma [build_tablet_pool_config_total]). *)
Definition tablet_pool (cell : value) (db_name keyspace : string)
  (port : Z) (paasta_pool paasta_cluster : value) (zk_address : option string)
  (throttle_query_table throttle_metrics_threshold tablet_type : string)
  (region : option string) : value :=
  match
    build_tablet_pool_config cell db_name keyspace port paasta_pool
      paasta_cluster zk_address throttle_query_table throttle_metrics_threshold
      tablet_type region
  with
  | Ok v => v
  | Raise _ => VNone
  end.

Definition cell_config (cell paasta_pool paasta_cluster : value)
  (region : option string) : value :=
  match build_cell_config cell paasta_pool paasta_cluster region with
  | Ok v => v
  | Raise _ => VNone
  end.

Definition dashboard_config (cells paasta_pool paasta_cluster : value)
  (zk_address : option string) : value :=
  match build_vitess_dashboard_config cells paasta_pool paasta_cluster zk_address with
  | Ok v => v
  | Raise _ => VNone
  end.

(** The body of the loop over [TABLET_TYPES] in [build_keyspaces_config],
    for the keyspace [ks] and the mappings the collaborator answered, and the
    body of the loop over the keyspaces. *)
Abbreviation role_body ocs pool pcluster zk rg mappings ks :=
  (λ (tablet_pools : value) (tablet_type : string),
    ports ← lift (subscript mappings (ks_cluster ks));
    match ports !! tablet_type with
    | None => mret tablet_pools
    | Some port =>
        let '(throttle_query_table, throttle_metrics_threshold) :=
          throttle_policy tablet_type (ks_cluster ks) in
        pools ← lift (
          cs ← iter_opt ocs;
          mapM (λ cell,
            build_tablet_pool_config cell (ks_keyspace ks) (ks_keyspace ks)
              port pool pcluster zk throttle_query_table
              throttle_metrics_threshold tablet_type rg) cs);
        lift (extend tablet_pools pools)
    end).

Abbreviation keyspace_body pm ocs pool pcluster zk rg :=
  (λ (config : value) (keyspace_config : KeyspaceDescriptor),
    mappings ← get_mysql_port_mappings pm;
    tablet_pools ← for_each TABLET_TYPES
      (role_body ocs pool pcluster zk rg mappings keyspace_config) (VList []);
    lift (append config
            (keyspace_entry (ks_keyspace keyspace_config) tablet_pools))).

Section Closed.

Variable ports : gmap string (gmap string Z).
Variables (cs : list value) (paasta_pool paasta_cluster : value).
Variables (zk_address region : option string).

(** The pools of one tablet type of one keyspace: one per cell when the
    cluster maps the type to a port, none otherwise. *)
Definition role_pools (ks : KeyspaceDescriptor) (m : gmap string Z)
  (tablet_type : string) : list value :=
  match m !! tablet_type with
  | None => []
  | Some port =>
      map (λ cell,
        tablet_pool cell (ks_keyspace ks) (ks_keyspace ks) port paasta_pool
          paasta_cluster zk_address
          (throttle_policy tablet_type (ks_cluster ks)).1
          (throttle_policy tablet_type (ks_cluster ks)).2
          tablet_type region) cs
  end.

Definition keyspace_pools (ks : KeyspaceDescriptor) (m : gmap string Z)
  : list value :=
  concat (map (role_pools ks m) TABLET_TYPES).

Definition keyspace_config (ks : KeyspaceDescriptor) : value :=
  keyspace_entry (ks_keyspace ks)
    (VList (keyspace_pools ks (default ∅ (ports !! ks_cluster ks)))).

(** The keyspace's source cluster has an entry in the port mappings. *)
Definition mapped (ks : KeyspaceDescriptor) : Prop :=
  is_Some (ports !! ks_cluster ks).

End Closed.

(** The tree synthesized from a description that has its cells and its
    keyspaces. *)
Definition instance_config_tree (ports : gmap string (gmap string Z))
  (d : InstanceDescription) (cs : list value) (kss : list KeyspaceDescriptor)
  : value :=
  let pool := of_optv (paasta_pool d) in
  let pcluster := of_optv (paasta_cluster d) in
  instance_tree (of_optv (cpus d)) (of_optv (mem d))
    (of_optv (deploy_group d)) (zk_address d)
    (VList (map (λ cell, cell_config cell pool pcluster (region d)) cs))
    (dashboard_config (VList cs) pool pcluster (zk_address d))
    (build_vt_admin_config (VList cs) pool pcluster)
    (VList (map (keyspace_config ports cs pool pcluster (zk_address d)
                   (region d)) kss)).

(** ** Reading a synthesized tree *)

(** [o.get(k)] on a tree. *)
Definition field (o : value) (k : string) : option value :=
  match o with
  | VDict d => dict_get d k
  | _ => None
  end.

Fixpoint get_path (o : value) (path : list string) : option value :=
  match path with
  | [] => Some o
  | k :: path' => o' ← field o k; get_path o' path'
  end.

Definition as_list (o : value) : option (list value) :=
  match o with
  | VList l => Some l
  | _ => None
  end.

(** The tablet pools of a keyspace entry:
    [entry["partitionings"][0]["equal"]["shardTemplate"]["tabletPools"]]. *)
Definition tablet_pools_of (entry : value) : option (list value) :=
  partitionings ← field entry "partitionings" ≫= as_list;
  first ← partitionings !! 0%nat;
  get_path first ["equal"; "shardTemplate"; "tabletPools"] ≫= as_list.

(** The pool is the one generated for database [db_name] and role
    [tablet_type]: its name is [{db_name}_{tablet_type}]. *)
Definition pool_is (db_name tablet_type : string) (pool : value) : bool :=
  match field pool "name" with
  | Some (VStr s) => String.eqb s (pool_name db_name tablet_type)
  | _ => false
  end.

(** The value of the environment entry called [name] in an [extraEnv]
    list. *)
Fixpoint env_lookup (envs : list value) (name : string) : option value :=
  match envs with
  | [] => None
  | env :: envs' =>
      match field env "name" with
      | Some n => if str_eq n name then field env "value"
                  else env_lookup envs' name
      | None => env_lookup envs' name
      end
  end.

(** The order the specification gives to the pools of one keyspace: by
    role in the order of [TABLET_TYPES], roles without a port left out, then
    by cell in input order.  Each pool is identified by its name and cell. *)
Definition spec_pool_order (cs : list value) (db_name : string)
  (m : gmap string Z) : list (option value * option value) :=
  tablet_type ← TABLET_TYPES;
  if decide (is_Some (m !! tablet_type)) then
    cell ← cs;
    [(Some (VStr (pool_name db_name tablet_type)), Some cell)]
  else [].

Definition pool_key (pool : value) : option value * option value :=
  (field pool "name", field pool "cell").

(** [VitessDeploymentConfig.get_instances]: [self.config_dict.get("replicas", 1)]. *)
Definition get_instances (config_dict : value) : result value :=
  match config_dict with
  | VDict d => Ok (default (VInt 1) (dict_get d "replicas"))
  | _ => Raise (AttributeError "get")
  end.

(** The names of the entries of an [extraEnv] list. *)
Definition env_names (envs : list value) : list (option value) :=
  map (λ env, field env "name") envs.

(** The entries of a template list. *)
Definition entries_of (template : value) : list value :=
  default [] (as_list template).

(** The spec of a role carries the pool and the cluster of the call: in its
    labels, in its [PAASTA_CLUSTER] environment entry and in the one node
    selector term of its affinity. *)
Definition carries_contract (paasta_pool paasta_cluster spec : value) : Prop :=
  get_path spec ["extraLabels"; "yelp.com/owner"]
  = Some (VStr "dre_mysql_working_hours")
  ∧ get_path spec ["extraLabels"; "paasta.yelp.com/cluster"]
    = Some paasta_cluster
  ∧ get_path spec ["extraLabels"; "paasta.yelp.com/pool"] = Some paasta_pool
  ∧ (∃ envs, field spec "extraEnv" = Some (VList envs)
       ∧ env_lookup envs "PAASTA_CLUSTER" = Some paasta_cluster)
  ∧ get_path spec ["affinity"; "nodeAffinity";
                   "requiredDuringSchedulingIgnoredDuringExecution";
                   "nodeSelectorTerms"]
    = Some (VList [VDict [("matchExpressions", VList [VDict [
        ("key", VStr "yelp.com/pool"); ("operator", VStr "In");
        ("values", VList [paasta_pool])]])]]).

(** The outcome of [m] does not depend on the world it starts from. *)
Definition steady {A} (m : M A) : Prop :=
  ∀ w w', (m w).1 = (m w').1.

End Value.

Import Value.

(** * The store embedding

    Every dict and list the code creates, copies, updates or hands on is an
    object of the store; a variable bound to one holds a reference to it, so
    two variables can name the same object.  Strings, numbers, booleans and
    [None] are immutable and are held directly.  Loop variables range over
    the items the iterated list has when the loop starts: no loop body of the
    module inserts into or deletes from the list it iterates.  Data that is
    only read and never stored in the result (the keyspace descriptors, the
    list [TABLET_TYPES], the port mappings) stays a Rocq value. *)
Module Store.

Inductive sval : Type :=
  | SNone
  | SBool (b : bool)
  | SInt (z : Z)
  | SFloat (m e : Z)
  | SStr (s : string)
  | SRef (l : nat).

Inductive obj : Type :=
  | OList (items : list sval)
  | ODict (entries : list (string * sval)).

(** The objects, by address, and the world outside (the port-mapping
    collaborator). *)
Record store : Type := { heap : list obj; env : world }.

Definition H (A : Type) : Type := store → result A * store.

#[export] Instance H_ret : MRet H := λ A a s, (Ok a, s).
#[export] Instance H_bind : MBind H := λ A B f m s,
  match m s with
  | (Ok a, s') => f a s'
  | (Raise e, s') => (Raise e, s')
  end.

Definition raise {A} (e : exn) : H A := λ s, (Raise e, s).

Definition lift {A} (r : result A) : H A := λ s, (r, s).

(** A new object gets the next free address. *)
Definition alloc (o : obj) : H sval := λ s,
  (Ok (SRef (length (heap s))), {| heap := heap s ++ [o]; env := env s |}).

Definition update (l : nat) (o : obj) : H unit := λ s,
  (Ok (), {| heap := <[l := o]> (heap s); env := env s |}).

(** The object a value refers to; [msg] is the complaint when the value is
    not a reference. *)
Definition load (v : sval) (msg : string) : H (nat * obj) := λ s,
  match v with
  | SRef l =>
      match heap s !! l with
      | Some o => (Ok (l, o), s)
      | None => (Raise (SystemError "dangling reference"), s)
      end
  | _ => (Raise (TypeError msg), s)
  end.

(** [o[k]] *)
Definition getitem (o : sval) (k : string) : H sval :=
  '(l, ob) ← load o "object is not subscriptable";
  match ob with
  | ODict entries =>
      match dict_get entries k with
      | Some v => mret v
      | None => raise (KeyError k)
      end
  | OList _ => raise (TypeError "list indices must be integers or slices, not str")
  end.

(** [o[k] = v] *)
Definition setitem (o : sval) (k : string) (v : sval) : H unit :=
  '(l, ob) ← load o "object does not support item assignment";
  match ob with
  | ODict entries => update l (ODict (dict_set entries k v))
  | OList _ => raise (TypeError "list indices must be integers or slices, not str")
  end.

(** [o.append(v)] *)
Definition append (o : sval) (v : sval) : H unit :=
  '(l, ob) ← load o "append";
  match ob with
  | OList items => update l (OList (items ++ [v]))
  | ODict _ => raise (AttributeError "append")
  end.

Definition chars (s : string) : list sval :=
  (λ c, SStr (String c EmptyString)) <$> String.list_ascii_of_string s.

(** The items [for x in o] ranges over. *)
Definition iter (o : sval) : H (list sval) :=
  match o with
  | SStr s => mret (chars s)
  | SNone => raise (TypeError "'NoneType' object is not iterable")
  | SRef _ =>
      '(l, ob) ← load o "object is not iterable";
      match ob with
      | OList items => mret items
      | ODict entries => mret ((λ e, SStr e.1) <$> entries)
      end
  | _ => raise (TypeError "object is not iterable")
  end.

(** [o.extend(vs)] *)
Definition extend (o : sval) (vs : sval) : H unit :=
  '(l, ob) ← load o "extend";
  match ob with
  | OList items => more ← iter vs; update l (OList (items ++ more))
  | ODict _ => raise (AttributeError "extend")
  end.

(** [o.copy()], the shallow copy: a new object with the same items. *)
Definition copy (o : sval) : H sval :=
  '(l, ob) ← load o "copy";
  alloc ob.

(** [copy.deepcopy(o)], for objects that form a tree (no memo): a new
    object for every dict and list reached from [o].  The fuel is the depth
    the recursion may reach. *)
Fixpoint deepcopy_rec (fuel : nat) (o : sval) : H sval :=
  match o with
  | SRef _ =>
      match fuel with
      | O => raise RecursionError
      | S fuel' =>
          '(l, ob) ← load o "deepcopy";
          match ob with
          | OList items =>
              items' ← mapM (deepcopy_rec fuel') items;
              alloc (OList items')
          | ODict entries =>
              entries' ← mapM (λ e, v ← deepcopy_rec fuel' e.2; mret (e.1, v))
                            entries;
              alloc (ODict entries')
          end
      end
  | _ => mret o
  end.

Definition recursion_limit : nat := 1000.

Definition deepcopy (o : sval) : H sval := deepcopy_rec recursion_limit o.

Definition str_eq (v : sval) (s : string) : bool :=
  match v with
  | SStr s' => String.eqb s' s
  | _ => false
  end.

Definition of_opt (o : option string) : sval :=
  match o with
  | Some s => SStr s
  | None => SNone
  end.

Fixpoint for_in {A} (xs : list A) (body : A → H unit) : H unit :=
  match xs with
  | [] => mret ()
  | x :: xs' => body x;; for_in xs' body
  end.

(** Display expressions: a value at hand, a call, a list display, a dict
    display.  [build] evaluates one from left to right and allocates the
    object of every display.  (No display of the module repeats a key.) *)
Inductive lit : Type :=
  | LVal (v : sval)
  | LCall (m : H sval)
  | LList (items : list lit)
  | LDict (entries : list (string * lit)).

Fixpoint build (e : lit) : H sval :=
  match e with
  | LVal v => mret v
  | LCall m => m
  | LList items =>
      vs ← mapM build items;
      alloc (OList vs)
  | LDict entries =>
      kvs ← mapM (λ ke, v ← build ke.2; mret (ke.1, v)) entries;
      alloc (ODict kvs)
  end.

Definition LStr (s : string) : lit := LVal (SStr s).

(** A tree written out as a display. *)
Fixpoint quote (t : value) : lit :=
  match t with
  | VNone => LVal SNone
  | VBool b => LVal (SBool b)
  | VInt z => LVal (SInt z)
  | VFloat m e => LVal (SFloat m e)
  | VStr s => LVal (SStr s)
  | VList l => LList (map quote l)
  | VDict d => LDict (map (λ kv, (kv.1, quote kv.2)) d)
  end.

(** ** The module's globals

    Importing the module evaluates the displays of its constants, in source
    order, in an empty store. *)
Record globals : Type := {
  g_VTCTLD_EXTRA_ENV : sval;
  g_VTTABLET_EXTRA_ENV : sval;
  g_VTGATE_EXTRA_ENV : sval;
  g_VTADMIN_EXTRA_FLAGS : sval;
  g_VTCTLD_EXTRA_FLAGS : sval;
  g_VTTABLET_EXTRA_FLAGS : sval
}.

Definition import_module : H globals :=
  vtctld_extra_env ← build (quote Value.VTCTLD_EXTRA_ENV);
  vttablet_extra_env ← build (quote Value.VTTABLET_EXTRA_ENV);
  vtgate_extra_env ← build (quote Value.VTGATE_EXTRA_ENV);
  vtadmin_extra_flags ← build (quote Value.VTADMIN_EXTRA_FLAGS);
  vtctld_extra_flags ← build (quote Value.VTCTLD_EXTRA_FLAGS);
  vttablet_extra_flags ← build (quote Value.VTTABLET_EXTRA_FLAGS);
  mret {|
    g_VTCTLD_EXTRA_ENV := vtctld_extra_env;
    g_VTTABLET_EXTRA_ENV := vttablet_extra_env;
    g_VTGATE_EXTRA_ENV := vtgate_extra_env;
    g_VTADMIN_EXTRA_FLAGS := vtadmin_extra_flags;
    g_VTCTLD_EXTRA_FLAGS := vtctld_extra_flags;
    g_VTTABLET_EXTRA_FLAGS := vttablet_extra_flags
  |}.

Definition empty : store := {| heap := []; env := World 0 |}.

(** The objects of the module's constants. *)
Definition module_heap : list obj :=
  Eval vm_compute in heap (import_module empty).2.

Definition module_globals : globals :=
  Eval vm_compute in
    match (import_module empty).1 with
    | Ok g => g
    | Raise _ =>
        {| g_VTCTLD_EXTRA_ENV := SNone; g_VTTABLET_EXTRA_ENV := SNone;
           g_VTGATE_EXTRA_ENV := SNone; g_VTADMIN_EXTRA_FLAGS := SNone;
           g_VTCTLD_EXTRA_FLAGS := SNone; g_VTTABLET_EXTRA_FLAGS := SNone |}
    end.

Definition VTCTLD_EXTRA_ENV : sval := g_VTCTLD_EXTRA_ENV module_globals.
Definition VTTABLET_EXTRA_ENV : sval := g_VTTABLET_EXTRA_ENV module_globals.
Definition VTGATE_EXTRA_ENV : sval := g_VTGATE_EXTRA_ENV module_globals.
Definition VTADMIN_EXTRA_FLAGS : sval := g_VTADMIN_EXTRA_FLAGS module_globals.
Definition VTCTLD_EXTRA_FLAGS : sval := g_VTCTLD_EXTRA_FLAGS module_globals.
Definition VTTABLET_EXTRA_FLAGS : sval := g_VTTABLET_EXTRA_FLAGS module_globals.

(** ** The builders, on the store *)

Definition build_affinity_spec (paasta_pool : sval) : H sval :=
  build (LDict [
    ("nodeAffinity", LDict [
      ("requiredDuringSchedulingIgnoredDuringExecution", LDict [
        ("nodeSelectorTerms", LList [
          LDict [
            ("matchExpressions", LList [
              LDict [
                ("key", LStr "yelp.com/pool");
                ("operator", LStr "In");
                ("values", LList [LVal paasta_pool])
              ]
            ])
          ]
        ])
      ])
    ])
  ]).

Definition build_extra_labels (paasta_pool paasta_cluster : sval) : H sval :=
  build (LDict [
    ("yelp.com/owner", LStr "dre_mysql_working_hours");
    ("paasta.yelp.com/cluster", LVal paasta_cluster);
    ("paasta.yelp.com/pool", LVal paasta_pool)
  ]).

Definition build_extra_env (paasta_cluster : sval) : H sval :=
  build (LList [
    LDict [
      ("name", LStr "PAASTA_POD_IP");
      ("valueFrom", LDict [("fieldRef", LDict [("fieldPath", LStr "status.podIP")])])
    ];
    LDict [("name", LStr "PAASTA_CLUSTER"); ("value", LVal paasta_cluster)]
  ]).

(** [if env["name"] == name: env["value"] = v] *)
Definition set_if_named (name : string) (v : sval) (env : sval) : H unit :=
  n ← getitem env "name";
  if str_eq n name then setitem env "value" v else mret ().

Definition resources (cpu memory : string) : lit :=
  LDict [
    ("requests", LDict [("cpu", LStr cpu); ("memory", LStr memory)]);
    ("limits", LDict [("memory", LStr memory)])
  ].

Definition build_cell_config (cell : sval) (paasta_pool paasta_cluster : sval)
  (region : option string) : H sval :=
  config ← build (LDict [
    ("name", LVal cell);
    ("gateway", LDict [
      ("extraFlags", LDict [
        ("mysql_auth_server_impl", LStr "vault");
        ("mysql_auth_vault_addr", LStr (vault_addr region));
        ("mysql_auth_vault_path", LStr "secrets/vitess/vt-gate/vttablet_credentials.json");
        ("mysql_auth_vault_tls_ca", LStr (vault_cacert region));
        ("mysql_auth_vault_ttl", LStr "60s")
      ]);
      ("affinity", LCall (build_affinity_spec paasta_pool));
      ("extraLabels", LCall (build_extra_labels paasta_pool paasta_cluster));
      ("extraEnv", LCall (build_extra_env paasta_cluster));
      ("replicas", LVal (SInt 1));
      ("resources", resources "100m" "256Mi")
    ])
  ]);
  vtgate_extra_env ← deepcopy VTGATE_EXTRA_ENV;
  envs ← iter vtgate_extra_env;
  for_in envs (λ env,
    set_if_named "VAULT_ADDR" (SStr (vault_addr region)) env;;
    set_if_named "VAULT_CACERT" (SStr (vault_cacert region)) env;;
    gateway ← getitem config "gateway";
    extraEnv ← getitem gateway "extraEnv";
    append extraEnv env);;
  mret config.

Definition build_vitess_dashboard_config (cells : sval)
  (paasta_pool paasta_cluster : sval) (zk_address : option string) : H sval :=
  config ← build (LDict [
    ("cells", LVal cells);
    ("affinity", LCall (build_affinity_spec paasta_pool));
    ("extraLabels", LCall (build_extra_labels paasta_pool paasta_cluster));
    ("extraEnv", LCall (build_extra_env paasta_cluster));
    ("extraFlags", LVal VTCTLD_EXTRA_FLAGS);
    ("replicas", LVal (SInt 1));
    ("resources", resources "100m" "128Mi")
  ]);
  vtctld_extra_env ← deepcopy VTCTLD_EXTRA_ENV;
  envs ← iter vtctld_extra_env;
  for_in envs (λ env,
    set_if_named "TOPOLOGY_FLAGS" (SStr (topology_flags zk_address)) env;;
    extraEnv ← getitem config "extraEnv";
    append extraEnv env);;
  mret config.

Definition build_vt_admin_config (cells : sval)
  (paasta_pool paasta_cluster : sval) : H sval :=
  build (LDict [
    ("cells", LVal cells);
    ("apiAddresses", LList [LStr "http://localhost:15000"]);
    ("affinity", LCall (build_affinity_spec paasta_pool));
    ("extraLabels", LCall (build_extra_labels paasta_pool paasta_cluster));
    ("extraFlags", LVal VTADMIN_EXTRA_FLAGS);
    ("extraEnv", LCall (build_extra_env paasta_cluster));
    ("replicas", LVal (SInt 1));
    ("readOnly", LVal (SBool false));
    ("apiResources", resources "100m" "128Mi");
    ("webResources", resources "100m" "128Mi")
  ]).

Definition host_volume (name path : string) : lit :=
  LDict [("name", LStr name); ("hostPath", LDict [("path", LStr path)])].

Definition volume_mount (mountPath name : string) : lit :=
  LDict [("mountPath", LStr mountPath); ("name", LStr name);
         ("readOnly", LVal (SBool true))].

Definition build_tablet_pool_config (cell : sval) (db_name keyspace : string)
  (port : Z) (paasta_pool paasta_cluster : sval) (zk_address : option string)
  (throttle_query_table throttle_metrics_threshold tablet_type : string)
  (region : option string) : H sval :=
  vttablet_extra_flags ← copy VTTABLET_EXTRA_FLAGS;
  setitem vttablet_extra_flags
    "throttle_metrics_query" (SStr (throttle_query throttle_query_table));;
  setitem vttablet_extra_flags
    "throttle_metrics_threshold" (SStr throttle_metrics_threshold);;
  setitem vttablet_extra_flags "enforce-tableacl-config" (SStr "true");;
  setitem vttablet_extra_flags "table-acl-config" (SStr (acl_config db_name));;
  setitem vttablet_extra_flags "table-acl-config-reload-interval" (SStr "60s");;
  setitem vttablet_extra_flags "queryserver-config-strict-table-acl" (SStr "true");;
  setitem vttablet_extra_flags "db-credentials-server" (SStr "vault");;
  setitem vttablet_extra_flags
    "db-credentials-vault-addr" (SStr (vault_addr region));;
  setitem vttablet_extra_flags
    "db-credentials-vault-path"
    (SStr "secrets/vitess/vt-tablet/vttablet_credentials.json");;
  setitem vttablet_extra_flags
    "db-credentials-vault-tls-ca" (SStr (vault_cacert region));;
  setitem vttablet_extra_flags "db-credentials-vault-ttl" (SStr "60s");;
  let type :=
    if String.eqb tablet_type "primary" then "externalmaster"
    else "externalreplica" in
  config ← build (LDict [
    ("cell", LVal cell);
    ("name", LStr (pool_name db_name tablet_type));
    ("type", LStr type);
    ("affinity", LCall (build_affinity_spec paasta_pool));
    ("extraLabels", LCall (build_extra_labels paasta_pool paasta_cluster));
    ("extraEnv", LCall (build_extra_env paasta_cluster));
    ("extraVolumeMounts", LList [
      volume_mount "/etc/vault/all_cas" "vault-secrets";
      volume_mount "/etc/vitess_keyspace_acls" "acls";
      volume_mount "etc/credentials.yaml" "vttablet-fake-credentials";
      volume_mount "/etc/init_db.sql" "keyspace-fake-init-script"
    ]);
    ("extraVolumes", LList [
      host_volume "vault-secrets" "/nail/etc/vault/all_cas";
      host_volume "acls" "/nail/srv/configs/vitess_keyspace_acls";
      host_volume "vttablet-fake-credentials" "/dev/null";
      host_volume "keyspace-fake-init-script" "/dev/null"
    ]);
    ("replicas", LVal (SInt 1));
    ("vttablet", LDict [
      ("extraFlags", LVal vttablet_extra_flags);
      ("resources", resources "100m" "256Mi")
    ]);
    ("externalDatastore", LDict [
      ("database", LStr db_name);
      ("host", LStr SOURCE_DB_HOST);
      ("port", LVal (SInt port));
      ("user", LStr "vt_app");
      ("credentialsSecret", LDict [
        ("key", LStr "/etc/credentials.yaml");
        ("volumeName", LStr "vttablet-fake-credentials")
      ])
    ]);
    ("dataVolumeClaimTemplate", LDict [
      ("accessModes", LList [LStr "ReadWriteOnce"]);
      ("resources", LDict [("requests", LDict [("storage", LStr "10Gi")])]);
      ("storageClassName", LStr "ebs-csi-gp3")
    ])
  ]);
  vttablet_extra_env ← deepcopy VTTABLET_EXTRA_ENV;
  envs ← iter vttablet_extra_env;
  for_in envs (λ env,
    set_if_named "TOPOLOGY_FLAGS" (SStr (topology_flags zk_address)) env;;
    set_if_named "CELL_TOPOLOGY_SERVERS" (of_opt zk_address) env;;
    set_if_named "DB" (SStr db_name) env;;
    set_if_named "KEYSPACE" (SStr keyspace) env;;
    set_if_named "VAULT_ADDR" (SStr (vault_addr region)) env;;
    set_if_named "VAULT_CACERT" (SStr (vault_cacert region)) env;;
    extraEnv ← getitem config "extraEnv";
    append extraEnv env);;
  extraLabels ← getitem config "extraLabels";
  setitem extraLabels "tablet_type" (SStr (pool_name db_name tablet_type));;
  mret config.

(** The instance description as the call receives it: the fields read with
    [instance_config.get], [SNone] for an absent one.  The fields that are
    formatted into strings, and the keyspace descriptors, are immutable
    data. *)
Record InstanceObject : Type := {
  cpus : sval;
  mem : sval;
  deploy_group : sval;
  zk_address : option string;
  paasta_pool : sval;
  paasta_cluster : sval;
  cells : sval;
  keyspaces : option (list KeyspaceDescriptor);
  region : option string
}.

Section Synthesis.

Variable mysql_port_mappings : gmap string (gmap string Z).

Definition get_mysql_port_mappings : H (gmap string (gmap string Z)) :=
  λ s, (Ok mysql_port_mappings,
        {| heap := heap s; env := World (S (queries (env s))) |}).

Definition keyspace_entry (keyspace : string) (tablet_pools : sval) : lit :=
  LDict [
    ("name", LStr keyspace);
    ("durabilityPolicy", LStr "none");
    ("turndownPolicy", LStr "Immediate");
    ("partitionings", LList [
      LDict [
        ("equal", LDict [
          ("parts", LVal (SInt 1));
          ("shardTemplate", LDict [
            ("databaseInitScriptSecret", LDict [
              ("volumeName", LStr "keyspace-fake-init-script");
              ("key", LStr "/etc/init_db.sql")
            ]);
            ("tabletPools", LVal tablet_pools)
          ])
        ])
      ]
    ])
  ].

Definition build_keyspaces_config (cells : sval)
  (keyspaces : option (list KeyspaceDescriptor))
  (paasta_pool paasta_cluster : sval) (zk_address region : option string)
  : H sval :=
  config ← build (LList []);
  keyspaces ← lift (iter_opt keyspaces);
  for_in keyspaces (λ keyspace_config,
    let keyspace := keyspace_config.(ks_keyspace) in
    let db_name := keyspace_config.(ks_keyspace) in
    let cluster := keyspace_config.(ks_cluster) in
    tablet_pools ← build (LList []);
    mysql_port_mappings ← get_mysql_port_mappings;
    for_in TABLET_TYPES (λ tablet_type,
      ports ← lift (subscript mysql_port_mappings cluster);
      match ports !! tablet_type with
      | None => mret ()
      | Some port =>
          let '(throttle_query_table, throttle_metrics_threshold) :=
            throttle_policy tablet_type cluster in
          pools ← (
            cells ← iter cells;
            pools ← mapM (λ cell,
              build_tablet_pool_config cell db_name keyspace port
                paasta_pool paasta_cluster zk_address throttle_query_table
                throttle_metrics_threshold tablet_type region) cells;
            alloc (OList pools));
          extend tablet_pools pools
      end);;
    entry ← build (keyspace_entry keyspace tablet_pools);
    append config entry);;
  mret config.

Definition instance_tree (cpus mem deploy_group : sval)
  (zk_address : option string)
  (cell_configs vitessDashboard vtadmin keyspace_configs : H sval) : lit :=
  LDict [
    ("namespace", LStr "paasta-vitessclusters");
    ("cpus", LVal cpus);
    ("mem", LVal mem);
    ("min_instances", LVal (SInt 1));
    ("max_instances", LVal (SInt 1));
    ("deploy_group", LVal deploy_group);
    ("autoscaling", LDict [("setpoint", LVal (SFloat 7 (-1)))]);
    ("env", LDict [
      ("OPERATOR_NAME", LStr "vitess-operator");
      ("POD_NAME", LStr "vitess-k8s");
      ("PS_OPERATOR_POD_NAME", LStr "vitess-k8s");
      ("PS_OPERATOR_POD_NAMESPACE", LStr "paasta-vitessclusters");
      ("WATCH_NAMESPACE", LStr "paasta-vitessclusters")
    ]);
    ("healthcheck_grace_period_seconds", LVal (SInt 60));
    ("healthcheck_mode", LStr "cmd");
    ("healthcheck_cmd", LStr "true");
    ("images", LDict [
      ("vtctld", LStr VTCTLD_IMAGE);
      ("vtadmin", LStr VT_ADMIN_IMAGE);
      ("vtgate", LStr VT_GATE_IMAGE);
      ("vttablet", LStr VT_TABLET_IMAGE)
    ]);
    ("globalLockserver", LDict [
      ("external", LDict [
        ("implementation", LStr TOPO_IMPLEMENTATION);
        ("address", LVal (of_opt zk_address));
        ("rootPath", LStr TOPO_GLOBAL_ROOT)
      ])
    ]);
    ("cells", LCall cell_configs);
    ("vitessDashboard", LCall vitessDashboard);
    ("vtadmin", LCall vtadmin);
    ("keyspaces", LCall keyspace_configs);
    ("updateStrategy", LDict [("type", LStr "Immediate")])
  ].

Definition generate_vitess_instance_config (instance_config : InstanceObject)
  : H sval :=
  let cpus := instance_config.(cpus) in
  let mem := instance_config.(mem) in
  let deploy_group := instance_config.(deploy_group) in
  let zk_address := instance_config.(zk_address) in
  let paasta_pool := instance_config.(paasta_pool) in
  let paasta_cluster := instance_config.(paasta_cluster) in
  let cells := instance_config.(cells) in
  let keyspaces := instance_config.(keyspaces) in
  let region := instance_config.(region) in
  build (instance_tree cpus mem deploy_group zk_address
    (cs ← iter cells;
     configs ← mapM (λ cell,
       build_cell_config cell paasta_pool paasta_cluster region) cs;
     alloc (OList configs))
    (build_vitess_dashboard_config cells paasta_pool paasta_cluster zk_address)
    (build_vt_admin_config cells paasta_pool paasta_cluster)
    (build_keyspaces_config cells keyspaces paasta_pool paasta_cluster
       zk_address region)).

End Synthesis.

(** The bodies of the two loops of [build_keyspaces_config]: over
    [TABLET_TYPES], for the keyspace [ks], the list [tps] bound to
    [tablet_pools] and the mappings the collaborator answered; and over the
    keyspaces, for the list [cfg] bound to [config]. *)
Abbreviation role_body cs pool pcluster zk rg mappings ks tps :=
  (λ tablet_type : string,
    ports ← lift (subscript mappings (ks_cluster ks));
    match ports !! tablet_type with
    | None => mret ()
    | Some port =>
        let '(throttle_query_table, throttle_metrics_threshold) :=
          throttle_policy tablet_type (ks_cluster ks) in
        pools ← (
          cells0 ← iter cs;
          pools ← mapM (λ cell,
            build_tablet_pool_config cell (ks_keyspace ks) (ks_keyspace ks)
              port pool pcluster zk throttle_query_table
              throttle_metrics_threshold tablet_type rg) cells0;
          alloc (OList pools));
        extend tps pools
    end).

Abbreviation keyspace_body pm cs pool pcluster zk rg cfg :=
  (λ keyspace_config : KeyspaceDescriptor,
    tablet_pools ← build (LList []);
    mappings ← get_mysql_port_mappings pm;
    for_in TABLET_TYPES
      (role_body cs pool pcluster zk rg mappings keyspace_config tablet_pools);;
    entry ← build (keyspace_entry (ks_keyspace keyspace_config) tablet_pools);
    append cfg entry).

(** ** Reading the store *)

Local Open Scope list_scope.
Local Open Scope nat_scope.

(** [reads_in P h v t]: in the heap [h], the value [v] stands for the tree
    [t], and every object visited on the way has its address in [P]. *)
Inductive reads_in (P : nat → Prop) (h : list obj) : sval → value → Prop :=
  | reads_none : reads_in P h SNone VNone
  | reads_bool b : reads_in P h (SBool b) (VBool b)
  | reads_int z : reads_in P h (SInt z) (VInt z)
  | reads_float m e : reads_in P h (SFloat m e) (VFloat m e)
  | reads_str s : reads_in P h (SStr s) (VStr s)
  | reads_list l items ts :
      P l →
      h !! l = Some (OList items) →
      Forall2 (reads_in P h) items ts →
      reads_in P h (SRef l) (VList ts)
  | reads_dict l entries d :
      P l →
      h !! l = Some (ODict entries) →
      Forall2 (λ e kt, e.1 = kt.1 ∧ reads_in P h e.2 kt.2) entries d →
      reads_in P h (SRef l) (VDict d).

(** The same by evaluation, down to a depth. *)
Fixpoint reify (fuel : nat) (h : list obj) (v : sval) : option value :=
  match fuel with
  | O => None
  | S fuel' =>
      match v with
      | SNone => Some VNone
      | SBool b => Some (VBool b)
      | SInt z => Some (VInt z)
      | SFloat m e => Some (VFloat m e)
      | SStr s => Some (VStr s)
      | SRef l =>
          match h !! l with
          | Some (OList items) => VList <$> mapM (reify fuel' h) items
          | Some (ODict entries) =>
              VDict <$> mapM (λ e, t ← reify fuel' h e.2; Some (e.1, t)) entries
          | None => None
          end
      end
  end.

(** The objects a copy of the tree [t] allocates, and its root, when the
    first of them gets the address [base + k]. *)
Fixpoint lay (base k : nat) (t : value) : list obj * sval :=
  match t with
  | VNone => ([], SNone)
  | VBool b => ([], SBool b)
  | VInt z => ([], SInt z)
  | VFloat m e => ([], SFloat m e)
  | VStr s => ([], SStr s)
  | VList ts =>
      let '(objs, vs) :=
        (fix go (k : nat) (ts : list value) : list obj * list sval :=
           match ts with
           | [] => ([], [])
           | t :: ts' =>
               let '(o1, v) := lay base k t in
               let '(o2, vs) := go (k + length o1) ts' in
               (o1 ++ o2, v :: vs)
           end) k ts in
      (objs ++ [OList vs], SRef (base + (k + length objs)))
  | VDict d =>
      let '(objs, kvs) :=
        (fix go (k : nat) (d : list (string * value))
           : list obj * list (string * sval) :=
           match d with
           | [] => ([], [])
           | (key, t) :: d' =>
               let '(o1, v) := lay base k t in
               let '(o2, kvs) := go (k + length o1) d' in
               (o1 ++ o2, (key, v) :: kvs)
           end) k d in
      (objs ++ [ODict kvs], SRef (base + (k + length objs)))
  end.

(** The same for the items of a list and the entries of a dict. *)
Definition lay_items (base : nat) :=
  fix go (k : nat) (ts : list value) : list obj * list sval :=
    match ts with
    | [] => ([], [])
    | t :: ts' =>
        let '(o1, v) := lay base k t in
        let '(o2, vs) := go (k + length o1) ts' in
        (o1 ++ o2, v :: vs)
    end.

Definition lay_entries (base : nat) :=
  fix go (k : nat) (d : list (string * value))
    : list obj * list (string * sval) :=
    match d with
    | [] => ([], [])
    | (key, t) :: d' =>
        let '(o1, v) := lay base k t in
        let '(o2, kvs) := go (k + length o1) d' in
        (o1 ++ o2, (key, v) :: kvs)
    end.

(** The nesting depth of the displays of a tree. *)
Fixpoint depth (t : value) : nat :=
  match t with
  | VList ts => S (foldr (λ t n, max (depth t) n) 0 ts)
  | VDict d => S (foldr (λ kv n, max (depth kv.2) n) 0 d)
  | _ => 0
  end.

(** The store [b ++ F]: the objects [b] a call found, and the objects [F]
    allocated since. *)
Definition fr (b F : list obj) (w : world) : store :=
  {| heap := b ++ F; env := w |}.

(** A run that only allocates: from [b ++ F] it returns [res.2] and leaves
    [b ++ F ++ res.1]. *)
Definition lays {A} (m : H A) (b F : list obj) (w : world)
  (res : list obj * A) : Prop :=
  m (fr b F w) = (Ok res.2, fr b (F ++ res.1) w).

(** [m] returns from [s], with a result and a final store in [Q]. *)
Definition wp {A} (m : H A) (s : store) (Q : A → store → Prop) : Prop :=
  ∃ a s', m s = (Ok a, s') ∧ Q a s'.

(** [m] does on the store what [p] does by value: from [b ++ F] and the
    world [w], either both return, [m] having only added objects and the
    results being related by [R] in the final heap; or both raise the same
    exception.  The world they leave is the same. *)
Definition simulates {A B} (R : list obj → A → B → Prop) (m : H A) (p : M B)
  (b F : list obj) (w : world) : Prop :=
  match p w with
  | (Ok t, w') =>
      ∃ v F1, m (fr b F w) = (Ok v, fr b (F ++ F1) w') ∧ R (b ++ F ++ F1) v t
  | (Raise e, w') =>
      ∃ F1, m (fr b F w) = (Raise e, fr b (F ++ F1) w')
  end.

(** The result of [m] stands for the tree [p] returns, read through
    addresses in [P]. *)
Definition refines (P : nat → Prop) (m : H sval) (p : M value)
  (b F : list obj) (w : world) : Prop :=
  simulates (reads_in P) m p b F w.

(** Relations on results: item by item, entry by entry. *)
Definition items_rel {A B} (R : list obj → A → B → Prop) (h : list obj)
  : list A → list B → Prop :=
  Forall2 (R h).

Definition entry_rel {A B} (R : list obj → A → B → Prop) (h : list obj)
  (e : string * A) (kt : string * B) : Prop :=
  e.1 = kt.1 ∧ R h e.2 kt.2.

(** Addresses below the heap a call found, or made by it. *)
Definition old_or_new (Pold : nat → Prop) (b : list obj) (l : nat) : Prop :=
  Pold l ∨ length b ≤ l.

(** Addresses of the module's constants. *)
Definition imported (l : nat) : Prop := l < length module_heap.

(** The objects of the module's constants are in the store as the import
    left them. *)
Definition intact (h : list obj) : Prop :=
  ∃ rest : list obj, h = (module_heap ++ rest)%list.

(** The addresses of the two flag maps the builders hand on as they are,
    [VTADMIN_EXTRA_FLAGS] and [VTCTLD_EXTRA_FLAGS]. *)
Definition flag_maps (l : nat) : Prop :=
  SRef l = VTADMIN_EXTRA_FLAGS ∨ SRef l = VTCTLD_EXTRA_FLAGS.

(** Addresses of objects made after the import, up to [n]. *)
Definition since_import (n : nat) (l : nat) : Prop :=
  length module_heap ≤ l ∧ l < n.

(** The instance object [i] stands for the description [d] in the heap [h]:
    each field read with [get] is the description's field, and the objects
    behind them have their addresses in [P]. *)
Record input_reads (P : nat → Prop) (h : list obj) (i : InstanceObject)
  (d : InstanceDescription) : Prop := {
  in_cpus : reads_in P h (cpus i) (of_optv (Value.cpus d));
  in_mem : reads_in P h (mem i) (of_optv (Value.mem d));
  in_deploy_group :
    reads_in P h (deploy_group i) (of_optv (Value.deploy_group d));
  in_zk_address : zk_address i = Value.zk_address d;
  in_paasta_pool :
    reads_in P h (paasta_pool i) (of_optv (Value.paasta_pool d));
  in_paasta_cluster :
    reads_in P h (paasta_cluster i) (of_optv (Value.paasta_cluster d));
  in_cells : reads_in P h (cells i) (list_field (Value.cells d));
  in_keyspaces : keyspaces i = Value.keyspaces d;
  in_region : region i = Value.region d
}.

(** What a returned tree may reach: objects made after the import, and of
    the module's constants the two flag maps only. *)
Definition reachable (l : nat) : Prop :=
  flag_maps l ∨ length module_heap ≤ l.

(** What a call may read of the heap [b] it found: the two flag maps and the
    objects made after the import. *)
Definition found (b : list obj) (l : nat) : Prop :=
  flag_maps l ∨ since_import (length b) l.

(** The six template constants read, in the heap [h], as the trees the module
    defines, through the objects of the import only. *)
Definition templates_unchanged (h : list obj) : Prop :=
  reads_in imported h VTCTLD_EXTRA_ENV Value.VTCTLD_EXTRA_ENV
  ∧ reads_in imported h VTTABLET_EXTRA_ENV Value.VTTABLET_EXTRA_ENV
  ∧ reads_in imported h VTGATE_EXTRA_ENV Value.VTGATE_EXTRA_ENV
  ∧ reads_in imported h VTADMIN_EXTRA_FLAGS Value.VTADMIN_EXTRA_FLAGS
  ∧ reads_in imported h VTCTLD_EXTRA_FLAGS Value.VTCTLD_EXTRA_FLAGS
  ∧ reads_in imported h VTTABLET_EXTRA_FLAGS Value.VTTABLET_EXTRA_FLAGS.

(** A relation that allocation keeps. *)
Definition stable {A B} (R : list obj → A → B → Prop) : Prop :=
  ∀ h F v t, R h v t → R (h ++ F) v t.

(** [F'] continues [F]: it has its objects, but for the one at [k]. *)
Definition continues (F F' : list obj) (k : nat) : Prop :=
  length F ≤ length F'
  ∧ ∀ j, j < length F → j ≠ k → F' !! j = F !! j.

(** Addresses a list made at [b ++ F], index [k], may hold: old ones, and
    those made after it. *)
Definition above (Pold : nat → Prop) (b : list obj) (k : nat) (l : nat) : Prop :=
  Pold l ∨ length b + k < l.

(** The same, up to the [n]-th object after [b]. *)
Definition within (Pold : nat → Prop) (b : list obj) (k n : nat) (l : nat)
  : Prop :=
  Pold l ∨ (length b + k < l ∧ l < length b + n).

(** Two calls from one store: the port mappings, the store after the import
    with the list of cells of the descriptions, and the instance with the
    region [rg], as an object and as a description. *)
Definition two_calls_ports : gmap string (gmap string Z) :=
  {[ "main1"%string := {[ "primary"%string := 3306%Z ]} ]}.

Definition two_calls_store : store :=
  {| heap := module_heap ++ [OList [SStr "cellA"]]; env := World 0 |}.

Definition two_calls_instance (rg : string) : InstanceObject :=
  {| cpus := SFloat 1 (-1); mem := SInt 256;
     deploy_group := SStr "prod.everything";
     zk_address := Some "zk:2181"%string; paasta_pool := SStr "default";
     paasta_cluster := SStr "norcal-devc";
     cells := SRef (length module_heap);
     keyspaces :=
       Some [{| ks_keyspace := "orders"; ks_cluster := "main1" |}];
     region := Some rg |}.

Definition two_calls_description (rg : string) : InstanceDescription :=
  {| Value.cpus := Some (VFloat 1 (-1)); Value.mem := Some (VInt 256);
     Value.deploy_group := Some (VStr "prod.everything");
     Value.zk_address := Some "zk:2181"%string;
     Value.paasta_pool := Some (VStr "default");
     Value.paasta_cluster := Some (VStr "norcal-devc");
     Value.cells := Some [VStr "cellA"];
     Value.keyspaces :=
       Some [{| ks_keyspace := "orders"; ks_cluster := "main1" |}];
     Value.region := Some rg |}.

(** The tree the second description determines. *)
Definition two_calls_tree (rg : string) : value :=
  instance_config_tree two_calls_ports (two_calls_description rg)
    [VStr "cellA"] [{| ks_keyspace := "orders"; ks_cluster := "main1" |}].

End Store.
(** ** Lemmas on the value embedding *)


Lemma build_tablet_pool_config_total cell db_name keyspace port paasta_pool
    paasta_cluster zk_address table threshold tablet_type region :
  build_tablet_pool_config cell db_name keyspace port paasta_pool
    paasta_cluster zk_address table threshold tablet_type region
  = Ok (tablet_pool cell db_name keyspace port paasta_pool paasta_cluster
          zk_address table threshold tablet_type region).
Proof. reflexivity. Qed.


Lemma build_cell_config_total cell paasta_pool paasta_cluster region :
  build_cell_config cell paasta_pool paasta_cluster region
  = Ok (cell_config cell paasta_pool paasta_cluster region).
Proof. reflexivity. Qed.


Lemma build_vitess_dashboard_config_total cells paasta_pool paasta_cluster zk :
  build_vitess_dashboard_config cells paasta_pool paasta_cluster zk
  = Ok (dashboard_config cells paasta_pool paasta_cluster zk).
Proof. reflexivity. Qed.

Section ClosedLemmas.

Variable ports : gmap string (gmap string Z).
Variables (cs : list value) (paasta_pool paasta_cluster : value).
Variables (zk_address region : option string).

Lemma mapM_tablet_pool db keyspace port table threshold tablet_type (l : list value) :
  mapM (λ cell,
    build_tablet_pool_config cell db keyspace port paasta_pool paasta_cluster
      zk_address table threshold tablet_type region) l
  = Ok (map (λ cell,
      tablet_pool cell db keyspace port paasta_pool paasta_cluster
        zk_address table threshold tablet_type region) l).
Proof.
  induction l as [|c l IH]; [reflexivity|].
  cbn [mapM map]. rewrite IH, build_tablet_pool_config_total. reflexivity.
Qed.

Local Abbreviation role_round mappings ks :=
  (role_body (Some cs) paasta_pool paasta_cluster zk_address region mappings ks).

Local Abbreviation keyspace_round :=
  (keyspace_body ports (Some cs) paasta_pool paasta_cluster zk_address region).

Lemma role_step ks m acc tablet_type w :
  ports !! ks_cluster ks = Some m →
  role_round ports ks (VList acc) tablet_type w
  = (Ok (VList (acc ++ role_pools cs paasta_pool paasta_cluster zk_address
                         region ks m tablet_type)), w).
Proof.
  intros Hm. unfold role_pools, subscript, mbind, M_bind, lift.
  rewrite Hm. destruct (m !! tablet_type) as [port|].
  - destruct (throttle_policy tablet_type (ks_cluster ks)) as [t th].
    cbn [iter_opt mbind result_bind]. rewrite mapM_tablet_pool. reflexivity.
  - cbn. rewrite app_nil_r. reflexivity.
Qed.

Lemma keyspace_step ks acc w :
  mapped ports ks →
  keyspace_round (VList acc) ks w
  = (Ok (VList (acc ++ [keyspace_config ports cs paasta_pool paasta_cluster
                         zk_address region ks])), World (S (queries w))).
Proof.
  intros [m Hm]. unfold keyspace_config, keyspace_pools, TABLET_TYPES.
  rewrite Hm. cbn [default map concat for_each].
  unfold get_mysql_port_mappings.
  unfold mbind at 1. unfold M_bind at 1.
  unfold mbind at 1. unfold M_bind at 1.
  unfold mbind at 1. unfold M_bind at 1.
  rewrite (role_step ks m [] "primary" _ Hm).
  unfold mbind at 1. unfold M_bind at 1.
  rewrite (role_step ks m _ "migration" _ Hm).
  cbn. rewrite app_nil_r. reflexivity.
Qed.

(** A keyspace whose cluster has no entry in the mappings: the subscript
    [mysql_port_mappings[cluster]] raises, after the query. *)
Lemma keyspace_step_unmapped ks config w :
  ports !! ks_cluster ks = None →
  keyspace_round config ks w
  = (Raise (KeyError (ks_cluster ks)), World (S (queries w))).
Proof.
  intros Hm. unfold TABLET_TYPES, get_mysql_port_mappings, subscript.
  cbn [for_each]. unfold mbind, M_bind, lift. rewrite Hm. reflexivity.
Qed.

Lemma build_keyspaces_config_loop kss acc w :
  Forall (mapped ports) kss →
  for_each kss keyspace_round (VList acc) w
  = (Ok (VList (acc ++ map (keyspace_config ports cs paasta_pool paasta_cluster
                             zk_address region) kss)),
     World (queries w + length kss)).
Proof.
  intros Hall. revert acc w.
  induction Hall as [|ks kss Hks _ IH]; intros acc w.
  - cbn. rewrite app_nil_r, Nat.add_0_r. by destruct w.
  - cbn [for_each]. unfold mbind at 1. unfold M_bind at 1.
    rewrite (keyspace_step ks acc w Hks).
    rewrite IH. cbn [queries map length].
    rewrite <- app_assoc. cbn [app]. do 2 f_equal. lia.
Qed.

(** The loop returns only when every keyspace is mapped. *)
Lemma build_keyspaces_config_loop_inv kss acc w r w' :
  for_each kss keyspace_round (VList acc) w = (Ok r, w') →
  Forall (mapped ports) kss.
Proof.
  revert acc w. induction kss as [|ks kss IH]; intros acc w H; [constructor|].
  cbn [for_each] in H. unfold mbind at 1 in H. unfold M_bind at 1 in H.
  destruct (ports !! ks_cluster ks) as [m|] eqn:Hm.
  - assert (mapped ports ks) as Hks by (by exists m).
    rewrite (keyspace_step ks acc w Hks) in H.
    constructor; [done|]. by eapply IH.
  - rewrite (keyspace_step_unmapped ks (VList acc) w Hm) in H. discriminate.
Qed.

Lemma build_keyspaces_config_ok kss w :
  Forall (mapped ports) kss →
  build_keyspaces_config ports (Some cs) (Some kss) paasta_pool paasta_cluster
    zk_address region w
  = (Ok (VList (map (keyspace_config ports cs paasta_pool paasta_cluster
                       zk_address region) kss)),
     World (queries w + length kss)).
Proof.
  intros Hall. unfold build_keyspaces_config.
  cbn [iter_opt]. unfold mbind at 1. unfold M_bind at 1. cbn [lift].
  apply (build_keyspaces_config_loop kss [] w Hall).
Qed.

Lemma build_keyspaces_config_inv kss w r w' :
  build_keyspaces_config ports (Some cs) (Some kss) paasta_pool paasta_cluster
    zk_address region w = (Ok r, w') →
  Forall (mapped ports) kss.
Proof.
  unfold build_keyspaces_config.
  cbn [iter_opt]. unfold mbind at 1. unfold M_bind at 1. cbn [lift].
  apply build_keyspaces_config_loop_inv.
Qed.

End ClosedLemmas.

Section ClosedInstance.

Variable ports : gmap string (gmap string Z).

Lemma mapM_cell_config paasta_pool paasta_cluster region (l : list value) :
  mapM (λ cell, build_cell_config cell paasta_pool paasta_cluster region) l
  = Ok (map (λ cell, cell_config cell paasta_pool paasta_cluster region) l).
Proof.
  induction l as [|c l IH]; [reflexivity|].
  cbn [mapM map]. rewrite IH, build_cell_config_total. reflexivity.
Qed.


Lemma generate_vitess_instance_config_ok d cs kss w :
  cells d = Some cs →
  keyspaces d = Some kss →
  Forall (mapped ports) kss →
  generate_vitess_instance_config ports d w
  = (Ok (instance_config_tree ports d cs kss), World (queries w + length kss)).
Proof.
  intros Hc Hk Hall. unfold generate_vitess_instance_config.
  rewrite Hc, Hk. cbn [iter_opt list_field].
  unfold mbind at 1. unfold M_bind at 1. unfold lift at 1.
  unfold mbind at 1. unfold result_bind at 1.
  rewrite mapM_cell_config.
  unfold mbind at 1. unfold M_bind at 1. unfold lift at 1.
  rewrite build_vitess_dashboard_config_total.
  unfold mbind at 1. unfold M_bind at 1.
  rewrite (build_keyspaces_config_ok ports cs _ _ _ _ kss w Hall).
  reflexivity.
Qed.

End ClosedInstance.

(** ** Fields of the generated trees *)

Lemma tablet_pool_name cell db keyspace port pool pcluster zk table threshold
    tablet_type region :
  field (tablet_pool cell db keyspace port pool pcluster zk table threshold
           tablet_type region) "name"
  = Some (VStr (pool_name db tablet_type)).
Proof. reflexivity. Qed.

Lemma tablet_pool_cell cell db keyspace port pool pcluster zk table threshold
    tablet_type region :
  field (tablet_pool cell db keyspace port pool pcluster zk table threshold
           tablet_type region) "cell"
  = Some cell.
Proof. reflexivity. Qed.

Lemma tablet_pool_type cell db keyspace port pool pcluster zk table threshold
    tablet_type region :
  field (tablet_pool cell db keyspace port pool pcluster zk table threshold
           tablet_type region) "type"
  = Some (VStr (if String.eqb tablet_type "primary" then "externalmaster"
                else "externalreplica")).
Proof. reflexivity. Qed.

(** The throttling flags of a pool are the table and threshold it was
    called with. *)
Lemma tablet_pool_throttle_flags cell db keyspace port pool pcluster zk table
    threshold tablet_type region :
  let p := tablet_pool cell db keyspace port pool pcluster zk table threshold
             tablet_type region in
  get_path p ["vttablet"; "extraFlags"; "throttle_metrics_query"]
  = Some (VStr (throttle_query table))
  ∧ get_path p ["vttablet"; "extraFlags"; "throttle_metrics_threshold"]
  = Some (VStr threshold).
Proof. split; reflexivity. Qed.

Lemma tablet_pools_of_keyspace_config ports cs pool pcluster zk region ks :
  tablet_pools_of (keyspace_config ports cs pool pcluster zk region ks)
  = Some (keyspace_pools cs pool pcluster zk region ks
            (default ∅ (ports !! ks_cluster ks))).
Proof. reflexivity. Qed.

Lemma append_inj_l (p x y : string) : p +:+ x = p +:+ y → x = y.
Proof.
  induction p as [|c p IH]; cbn; [done|]. intros H. injection H as H. auto.
Qed.

Lemma pool_name_inj db r r' : pool_name db r = pool_name db r' → r = r'.
Proof.
  unfold pool_name. intros H. apply append_inj_l in H.
  cbn in H. by injection H.
Qed.

Lemma pool_is_tablet_pool db r cell keyspace port pool pcluster zk table
    threshold r' region :
  pool_is db r (tablet_pool cell db keyspace port pool pcluster zk table
                  threshold r' region)
  = String.eqb r' r.
Proof.
  unfold pool_is. rewrite tablet_pool_name.
  destruct (String.eqb_spec r' r) as [->|Hne].
  - apply String.eqb_refl.
  - apply String.eqb_neq. intros H. by apply pool_name_inj in H.
Qed.

Lemma filter_role_pools cs pool pcluster zk region ks m r r' :
  List.filter (pool_is (ks_keyspace ks) r)
    (role_pools cs pool pcluster zk region ks m r')
  = if String.eqb r' r then role_pools cs pool pcluster zk region ks m r'
    else [].
Proof.
  unfold role_pools. destruct (m !! r') as [port|]; [|by destruct (String.eqb r' r)].
  induction cs as [|c l IH]; cbn [map List.filter].
  - by destruct (String.eqb r' r).
  - rewrite pool_is_tablet_pool, IH. by destruct (String.eqb r' r).
Qed.

Lemma length_role_pools cs pool pcluster zk region ks m r :
  length (role_pools cs pool pcluster zk region ks m r)
  = if decide (is_Some (m !! r)) then length cs else 0%nat.
Proof.
  unfold role_pools. destruct (m !! r) as [port|].
  - rewrite decide_True by eauto. apply length_map.
  - rewrite decide_False; [done|]. by intros [? ?].
Qed.

Lemma pool_key_role_pools cs pool pcluster zk region ks m r :
  map pool_key (role_pools cs pool pcluster zk region ks m r)
  = if decide (is_Some (m !! r)) then
      cell ← cs; [(Some (VStr (pool_name (ks_keyspace ks) r)), Some cell)]
    else [].
Proof.
  unfold role_pools. destruct (m !! r) as [port|].
  - rewrite decide_True by eauto.
    induction cs as [|c l IH]; [done|]. cbn [map]. rewrite IH. reflexivity.
  - rewrite decide_False; [done|]. by intros [? ?].
Qed.


(** A synthesis call that returns had its cells, its keyspaces, and a port
    mapping for the cluster of every keyspace. *)
Lemma generate_vitess_instance_config_inv ports d w tree w' :
  generate_vitess_instance_config ports d w = (Ok tree, w') →
  ∃ cs kss,
    cells d = Some cs ∧ keyspaces d = Some kss ∧ Forall (mapped ports) kss.
Proof.
  unfold generate_vitess_instance_config.
  destruct (cells d) as [cs|] eqn:Hc; [|discriminate].
  cbn [iter_opt list_field].
  unfold mbind at 1. unfold M_bind at 1. unfold lift at 1.
  unfold mbind at 1. unfold result_bind at 1.
  rewrite mapM_cell_config.
  unfold mbind at 1. unfold M_bind at 1. unfold lift at 1.
  rewrite build_vitess_dashboard_config_total.
  unfold mbind at 1. unfold M_bind at 1.
  destruct (keyspaces d) as [kss|] eqn:Hk; [|discriminate].
  destruct (build_keyspaces_config _ _ _ _ _ _ _ w) as [[r|e] w1] eqn:Hb;
    [|discriminate].
  intros _. exists cs, kss. split; [done|]. split; [done|].
  by eapply build_keyspaces_config_inv.
Qed.

Lemma cell_config_vault_addr cell pool pcluster region :
  get_path (cell_config cell pool pcluster region)
    ["gateway"; "extraFlags"; "mysql_auth_vault_addr"]
  = Some (VStr (vault_addr region)).
Proof. reflexivity. Qed.

(** ** The outcome of the synthesis and the world *)

Lemma steady_ret {A} (a : A) : steady (mret a).
Proof. by intros w w'. Qed.

Lemma steady_lift {A} (r : result A) : steady (lift r).
Proof. by intros w w'. Qed.

Lemma steady_bind {A B} (m : M A) (k : A → M B) :
  steady m → (∀ a, steady (k a)) → steady (m ≫= k).
Proof.
  intros Hm Hk w w'. unfold mbind, M_bind. specialize (Hm w w').
  destruct (m w) as [[a|e] w1], (m w') as [[a'|e'] w1'];
    cbn [fst] in Hm; try discriminate.
  - injection Hm as <-. apply Hk.
  - injection Hm as <-. reflexivity.
Qed.

Lemma steady_for_each {A} (xs : list A) (body : value → A → M value) :
  (∀ acc x, steady (body acc x)) → ∀ acc, steady (for_each xs body acc).
Proof.
  intros Hbody. induction xs as [|x xs IH]; intros acc; cbn [for_each].
  - apply steady_ret.
  - apply steady_bind; [apply Hbody|apply IH].
Qed.

Lemma steady_get_mysql_port_mappings ports :
  steady (get_mysql_port_mappings ports).
Proof. by intros w w'. Qed.

Lemma steady_build_keyspaces_config ports ocs okss pool pcluster zk rg :
  steady (build_keyspaces_config ports ocs okss pool pcluster zk rg).
Proof.
  unfold build_keyspaces_config.
  apply steady_bind; [apply steady_lift|]. intros kss.
  apply steady_for_each. intros config ks.
  apply steady_bind; [apply steady_get_mysql_port_mappings|]. intros mappings.
  apply steady_bind; [|intros ?; apply steady_lift].
  apply steady_for_each. intros tps tablet_type.
  apply steady_bind; [apply steady_lift|]. intros m.
  destruct (m !! tablet_type); [|apply steady_ret].
  destruct (throttle_policy tablet_type (ks_cluster ks)).
  apply steady_bind; [apply steady_lift|]. intros ?. apply steady_lift.
Qed.

Lemma steady_generate_vitess_instance_config ports d :
  steady (generate_vitess_instance_config ports d).
Proof.
  unfold generate_vitess_instance_config.
  apply steady_bind; [apply steady_lift|]. intros ?.
  apply steady_bind; [apply steady_lift|]. intros ?.
  apply steady_bind; [apply steady_build_keyspaces_config|]. intros ?.
  apply steady_ret.
Qed.

(** ** Keyspaces whose cluster is not mapped *)

Section Unmapped.

Variable ports : gmap string (gmap string Z).
Variables (cs : list value) (paasta_pool paasta_cluster : value).
Variables (zk_address region : option string).

Lemma build_keyspaces_config_loop_unmapped pre ks post acc w :
  Forall (mapped ports) pre →
  ports !! ks_cluster ks = None →
  for_each (pre ++ ks :: post)%list
    (keyspace_body ports (Some cs) paasta_pool paasta_cluster zk_address
       region) (VList acc) w
  = (Raise (KeyError (ks_cluster ks)), World (queries w + length pre + 1)%nat).
Proof.
  intros Hpre Hks. revert acc w.
  induction Hpre as [|k pre Hk _ IH]; intros acc w.
  - cbn [app for_each]. unfold mbind at 1. unfold M_bind at 1.
    rewrite (keyspace_step_unmapped ports cs _ _ _ _ ks (VList acc) w Hks).
    cbn [length]. do 2 f_equal. lia.
  - cbn [app for_each]. unfold mbind at 1. unfold M_bind at 1.
    rewrite (keyspace_step ports cs _ _ _ _ k acc w Hk).
    rewrite IH. cbn [queries length]. do 2 f_equal. lia.
Qed.

Lemma build_keyspaces_config_unmapped pre ks post w :
  Forall (mapped ports) pre →
  ports !! ks_cluster ks = None →
  build_keyspaces_config ports (Some cs) (Some (pre ++ ks :: post)%list)
    paasta_pool paasta_cluster zk_address region w
  = (Raise (KeyError (ks_cluster ks)), World (queries w + length pre + 1)%nat).
Proof.
  intros Hpre Hks. unfold build_keyspaces_config.
  cbn [iter_opt]. unfold mbind at 1. unfold M_bind at 1. cbn [lift].
  apply (build_keyspaces_config_loop_unmapped pre ks post [] w Hpre Hks).
Qed.

End Unmapped.

(** The cells of the pools of one tablet type: the cells of the call, in
    their order. *)
Lemma cells_role_pools cs pool pcluster zk region ks m r :
  map (λ p, field p "cell") (role_pools cs pool pcluster zk region ks m r)
  = if decide (is_Some (m !! r)) then map Some cs else [].
Proof.
  unfold role_pools. destruct (m !! r) as [port|].
  - rewrite decide_True by eauto. rewrite map_map. reflexivity.
  - rewrite decide_False; [done|]. by intros [? ?].
Qed.

(** ** Facts on the store embedding *)
Module StoreFacts.

Import Store.
Local Open Scope list_scope.
Local Open Scope nat_scope.

(** Induction on trees, with the hypothesis for the items of a list and the
    values of a dict. *)
Lemma value_ind' (P : value → Prop) :
  P VNone →
  (∀ b, P (VBool b)) →
  (∀ z, P (VInt z)) →
  (∀ m e, P (VFloat m e)) →
  (∀ s, P (VStr s)) →
  (∀ l, Forall P l → P (VList l)) →
  (∀ d, Forall (λ kv, P kv.2) d → P (VDict d)) →
  ∀ t, P t.
Proof.
  intros HN HB HI HF HS HL HD. fix IH 1.
  intros [|b|z|m e|s|l|d];
    [exact HN|apply HB|apply HI|apply HF|apply HS| |].
  - apply HL. induction l as [|t l IHl]; constructor; [apply IH|apply IHl].
  - apply HD. induction d as [|[k t] d IHd]; constructor; [apply IH|apply IHd].
Qed.

Lemma Forall2_Forall_r {A B} (R R' : A → B → Prop) (xs : list A) (ys : list B) :
  Forall2 R xs ys →
  Forall (λ y, ∀ x, R x y → R' x y) ys →
  Forall2 R' xs ys.
Proof.
  induction 1 as [|x y xs ys Hxy _ IH]; intros Hall; constructor;
    inversion Hall; subst; auto.
Qed.

(** Reading is kept when the addresses allowed grow and the objects at the
    addresses visited stay. *)
Lemma reads_in_mono (P P' : nat → Prop) (h h' : list obj) :
  (∀ l, P l → P' l) →
  (∀ l o, P l → h !! l = Some o → h' !! l = Some o) →
  ∀ t v, reads_in P h v t → reads_in P' h' v t.
Proof.
  intros HP Hh. induction t as [| | | | |ts IH|d IH] using value_ind';
    intros v Hr; inversion Hr; subst; try constructor.
  - eapply reads_list; eauto. eapply Forall2_Forall_r; eauto.
  - eapply reads_dict; eauto. eapply Forall2_Forall_r; [eassumption|].
    eapply Forall_impl; [exact IH|]. cbn. intros kt Hkt e [? ?]. auto.
Qed.

Lemma reads_in_weaken (P P' : nat → Prop) h v t :
  (∀ l, P l → P' l) → reads_in P h v t → reads_in P' h v t.
Proof. intros HP. apply reads_in_mono; auto. Qed.

(** Allocation keeps what was read. *)
Lemma reads_in_app (P : nat → Prop) h F v t :
  reads_in P h v t → reads_in P (h ++ F) v t.
Proof.
  apply reads_in_mono; [auto|]. intros l o _ Hl. by apply lookup_app_l_Some.
Qed.

(** An update outside the addresses visited keeps what was read. *)
Lemma reads_in_insert (P : nat → Prop) h l o v t :
  ¬ P l → reads_in P h v t → reads_in P (<[l := o]> h) v t.
Proof.
  intros Hl. apply reads_in_mono; [auto|]. intros l' o' Hl' Hlook.
  rewrite list_lookup_insert_ne; [done|]. intros ->. done.
Qed.



(** *** Steps of a run *)

Lemma fr_nil (s : store) : s = fr (heap s) [] (env s).
Proof. destruct s as [h w]. unfold fr. cbn. by rewrite app_nil_r. Qed.

Lemma wp_ret {A} (a : A) s (Q : A → store → Prop) : Q a s → wp (mret a) s Q.
Proof. intros HQ. by exists a, s. Qed.

Lemma wp_bind {A B} (m : H A) (k : A → H B) s (Q : B → store → Prop) :
  wp m s (λ a s', wp (k a) s' Q) → wp (m ≫= k) s Q.
Proof.
  intros (a & s' & Hm & b & s'' & Hk & HQ). exists b, s''. split; [|done].
  unfold mbind, H_bind. by rewrite Hm.
Qed.

Lemma wp_mono {A} (m : H A) s (Q Q' : A → store → Prop) :
  (∀ a s', Q a s' → Q' a s') → wp m s Q → wp m s Q'.
Proof. intros HQ (a & s' & Hm & Ha). exists a, s'. auto. Qed.

Lemma alloc_fr b F w o :
  alloc o (fr b F w) = (Ok (SRef (length b + length F)), fr b (F ++ [o]) w).
Proof. unfold alloc, fr. cbn. by rewrite length_app, app_assoc. Qed.

Lemma wp_alloc b F w o n F' (Q : sval → store → Prop) :
  length F = n →
  F ++ [o] = F' →
  Q (SRef (length b + n)) (fr b F' w) →
  wp (alloc o) (fr b F w) Q.
Proof. intros <- <- HQ. eexists _, _. split; [apply alloc_fr|done]. Qed.

Lemma lookup_new (b F : list obj) k : (b ++ F) !! (length b + k) = F !! k.
Proof. by rewrite lookup_app_r, Nat.add_comm, Nat.add_sub by lia. Qed.

Lemma insert_new (b F : list obj) k o :
  <[length b + k := o]> (b ++ F) = b ++ <[k := o]> F.
Proof. by rewrite insert_app_r. Qed.

Lemma load_new b F w k o msg :
  F !! k = Some o →
  load (SRef (length b + k)) msg (fr b F w) = (Ok (length b + k, o), fr b F w).
Proof. intros Hk. unfold load, fr. cbn. by rewrite lookup_new, Hk. Qed.

Lemma load_old b F w l o msg :
  b !! l = Some o →
  load (SRef l) msg (fr b F w) = (Ok (l, o), fr b F w).
Proof.
  intros Hl. unfold load, fr. cbn. by rewrite (lookup_app_l_Some _ _ _ _ Hl).
Qed.

Lemma update_new b F w k o :
  update (length b + k) o (fr b F w) = (Ok (), fr b (<[k := o]> F) w).
Proof. unfold update, fr. cbn. by rewrite insert_new. Qed.

Lemma wp_getitem b F w k key entries v (Q : sval → store → Prop) :
  F !! k = Some (ODict entries) →
  dict_get entries key = Some v →
  Q v (fr b F w) →
  wp (getitem (SRef (length b + k)) key) (fr b F w) Q.
Proof.
  intros Hk Hget HQ. exists v, (fr b F w). split; [|done].
  unfold getitem, mbind, H_bind. rewrite (load_new _ _ _ _ _ _ Hk).
  by rewrite Hget.
Qed.

Lemma wp_setitem b F w k key entries v F' (Q : unit → store → Prop) :
  F !! k = Some (ODict entries) →
  <[k := ODict (dict_set entries key v)]> F = F' →
  Q () (fr b F' w) →
  wp (setitem (SRef (length b + k)) key v) (fr b F w) Q.
Proof.
  intros Hk <- HQ. eexists _, _. split; [|exact HQ].
  unfold setitem, mbind, H_bind. rewrite (load_new _ _ _ _ _ _ Hk).
  apply update_new.
Qed.

Lemma wp_append b F w k items v F' (Q : unit → store → Prop) :
  F !! k = Some (OList items) →
  <[k := OList (items ++ [v])]> F = F' →
  Q () (fr b F' w) →
  wp (append (SRef (length b + k)) v) (fr b F w) Q.
Proof.
  intros Hk <- HQ. eexists _, _. split; [|exact HQ].
  unfold append, mbind, H_bind. rewrite (load_new _ _ _ _ _ _ Hk).
  apply update_new.
Qed.

Lemma wp_iter b F w k items (Q : list sval → store → Prop) :
  F !! k = Some (OList items) →
  Q items (fr b F w) →
  wp (iter (SRef (length b + k))) (fr b F w) Q.
Proof.
  intros Hk HQ. eexists _, _. split; [|exact HQ].
  unfold iter, mbind, H_bind. by rewrite (load_new _ _ _ _ _ _ Hk).
Qed.

Lemma wp_set_if_named b F w k name v entries n F' (Q : unit → store → Prop) :
  F !! k = Some (ODict entries) →
  dict_get entries "name" = Some n →
  (if str_eq n name then <[k := ODict (dict_set entries "value" v)]> F else F)
  = F' →
  Q () (fr b F' w) →
  wp (set_if_named name v (SRef (length b + k))) (fr b F w) Q.
Proof.
  intros Hk Hn <- HQ. unfold set_if_named. apply wp_bind.
  eapply wp_getitem; [done..|]. destruct (str_eq n name).
  - by eapply wp_setitem.
  - by apply wp_ret.
Qed.

Lemma wp_copy_old b F w l o n F' (Q : sval → store → Prop) :
  b !! l = Some o →
  length F = n →
  F ++ [o] = F' →
  Q (SRef (length b + n)) (fr b F' w) →
  wp (copy (SRef l)) (fr b F w) Q.
Proof.
  intros Hl <- <- HQ. eexists _, _. split; [|exact HQ].
  unfold copy, mbind, H_bind. rewrite (load_old _ _ _ _ _ _ Hl).
  apply alloc_fr.
Qed.



(** *** Copies of a tree *)

Lemma lay_list base k ts :
  lay base k (VList ts)
  = ((lay_items base k ts).1 ++ [OList (lay_items base k ts).2],
     SRef (base + (k + length (lay_items base k ts).1))).
Proof.
  change (lay base k (VList ts)) with
    (let '(objs, vs) := lay_items base k ts in
     (objs ++ [OList vs], SRef (base + (k + length objs)))).
  by destruct (lay_items base k ts).
Qed.

Lemma lay_dict base k d :
  lay base k (VDict d)
  = ((lay_entries base k d).1 ++ [ODict (lay_entries base k d).2],
     SRef (base + (k + length (lay_entries base k d).1))).
Proof.
  change (lay base k (VDict d)) with
    (let '(objs, kvs) := lay_entries base k d in
     (objs ++ [ODict kvs], SRef (base + (k + length objs)))).
  by destruct (lay_entries base k d).
Qed.

Lemma lays_items {A} (f : A → H sval) b w (xs : list A) (ts : list value) :
  Forall2 (λ x t, ∀ F, lays (f x) b F w (lay (length b) (length F) t)) xs ts →
  ∀ F, lays (mapM f xs) b F w (lay_items (length b) (length F) ts).
Proof.
  induction 1 as [|x t xs ts Hx _ IH]; intros F.
  - unfold lays. cbn. by rewrite app_nil_r.
  - unfold lays in *. cbn [mapM lay_items].
    unfold mbind at 1. unfold H_bind at 1. rewrite Hx.
    destruct (lay (length b) (length F) t) as [o1 v] eqn:Hlay. cbn [fst snd].
    unfold mbind at 1. unfold H_bind at 1. rewrite IH.
    rewrite length_app.
    destruct (lay_items (length b) (length F + length o1) ts) as [o2 vs].
    cbn. by rewrite app_assoc.
Qed.

Lemma lays_entries {A} (f : A → H (string * sval)) b w (xs : list A)
    (d : list (string * value)) (key : A → string) (g : A → H sval) :
  (∀ x, f x = (v ← g x; mret (key x, v))) →
  Forall2 (λ x kt, key x = kt.1
                   ∧ ∀ F, lays (g x) b F w (lay (length b) (length F) kt.2)) xs d →
  ∀ F, lays (mapM f xs) b F w (lay_entries (length b) (length F) d).
Proof.
  intros Hf. induction 1 as [|x [k t] xs d [Hk Hx] _ IH]; intros F.
  - unfold lays. cbn. by rewrite app_nil_r.
  - unfold lays in *. cbn [mapM lay_entries]. cbn [fst snd] in *.
    unfold mbind at 1. unfold H_bind at 1. rewrite Hf.
    unfold mbind at 1. unfold H_bind at 1. rewrite Hx.
    destruct (lay (length b) (length F) t) as [o1 v] eqn:Hlay. cbn [fst snd].
    unfold mret at 1. unfold H_ret at 1.
    unfold mbind at 1. unfold H_bind at 1. rewrite IH.
    rewrite length_app.
    destruct (lay_entries (length b) (length F + length o1) d) as [o2 kvs].
    cbn. by rewrite app_assoc, Hk.
Qed.

Lemma lays_alloc {A} (m : H A) (mk : A → obj) b F w (res : list obj * A) :
  lays m b F w res →
  lays (x ← m; alloc (mk x)) b F w
    (res.1 ++ [mk res.2], SRef (length b + (length F + length res.1))).
Proof.
  unfold lays. intros Hm. unfold mbind, H_bind. rewrite Hm.
  rewrite alloc_fr, length_app. cbn [fst snd]. by rewrite app_assoc.
Qed.



Lemma lays_leaf b F w (v : sval) :
  lays (mret v) b F w ([], v).
Proof. unfold lays. cbn. by rewrite app_nil_r. Qed.

(** Evaluating the display of a tree lays the tree out. *)
Lemma build_quote_lays b w t :
  ∀ F, lays (build (quote t)) b F w (lay (length b) (length F) t).
Proof.
  induction t as [| | | | |ts IH|d IH] using value_ind'; intros F;
    try apply lays_leaf.
  - rewrite lay_list. cbn [quote build].
    apply (lays_alloc (mapM build (map quote ts)) OList).
    apply lays_items. induction IH; constructor; auto.
  - rewrite lay_dict. cbn [quote build].
    apply (lays_alloc (mapM _ (map _ d)) ODict).
    eapply (lays_entries _ _ _ _ _ fst (λ ke, build ke.2)); [done|].
    induction IH as [|[k t] d Ht _ IHd]; constructor; auto.
Qed.

Lemma depth_list_le ts n :
  depth (VList ts) ≤ S n → Forall (λ t, depth t ≤ n) ts.
Proof.
  cbn. intros H. apply le_S_n in H. induction ts as [|t ts IH]; constructor.
  - cbn in H. lia.
  - apply IH. cbn in H. lia.
Qed.

Lemma depth_dict_le d n :
  depth (VDict d) ≤ S n → Forall (λ kv, depth kv.2 ≤ n) d.
Proof.
  cbn. intros H. apply le_S_n in H. induction d as [|t ts IH]; constructor.
  - cbn in H. lia.
  - apply IH. cbn in H. lia.
Qed.

(** A deep copy of objects the call found lays out the tree they stand
    for. *)
Lemma deepcopy_lays (P : nat → Prop) b w t :
  ∀ fuel v, reads_in P b v t → depth t ≤ fuel →
  ∀ F, lays (deepcopy_rec fuel v) b F w (lay (length b) (length F) t).
Proof.
  induction t as [| | | | |ts IH|d IH] using value_ind'; intros fuel v Hr Hd F;
    inversion Hr; subst; try (destruct fuel; apply lays_leaf).
  - destruct fuel as [|fuel]; [cbn in Hd; lia|].
    rewrite lay_list. cbn [deepcopy_rec].
    unfold lays. unfold mbind at 1. unfold H_bind at 1.
    erewrite load_old by eassumption.
    apply (lays_alloc (mapM (deepcopy_rec fuel) items) OList).
    apply lays_items. apply depth_list_le in Hd.
    eapply Forall2_Forall_r; [eassumption|].
    rewrite Forall_forall in IH, Hd. apply Forall_forall.
    intros t Ht x Hx F'. eapply IH; eauto.
  - destruct fuel as [|fuel]; [cbn in Hd; lia|].
    rewrite lay_dict. cbn [deepcopy_rec].
    unfold lays. unfold mbind at 1. unfold H_bind at 1.
    erewrite load_old by eassumption.
    apply (lays_alloc (mapM _ entries) ODict).
    eapply (lays_entries _ _ _ _ _ fst (λ e, deepcopy_rec fuel e.2)); [done|].
    apply depth_dict_le in Hd.
    eapply Forall2_Forall_r; [eassumption|].
    rewrite Forall_forall in IH, Hd. apply Forall_forall.
    intros kt Hkt e [Hk He]. split; [done|]. intros F'. eapply IH; eauto.
Qed.



Lemma wp_lays {A} (m : H A) b F w res F' (Q : A → store → Prop) :
  lays m b F w res →
  F ++ res.1 = F' →
  Q res.2 (fr b F' w) →
  wp m (fr b F w) Q.
Proof. intros Hm <- HQ. eexists _, _. split; [exact Hm|exact HQ]. Qed.

Lemma wp_lays_eq {A} (m : H A) b F w res objs (a : A) F' (Q : A → store → Prop) :
  lays m b F w res →
  res = (objs, a) →
  F ++ objs = F' →
  Q a (fr b F' w) →
  wp m (fr b F w) Q.
Proof. intros Hm -> <- HQ. eexists _, _. split; [exact Hm|exact HQ]. Qed.

(** *** The module's constants in the store *)

Lemma mapM_reify_Forall2 {A B} (f : A → option B) (xs : list A) (ys : list B) :
  mapM f xs = Some ys → Forall2 (λ x y, f x = Some y) xs ys.
Proof. apply mapM_Some. Qed.

Lemma reify_sound fuel h :
  ∀ v t, reify fuel h v = Some t → reads_in (λ l, l < length h) h v t.
Proof.
  induction fuel as [|fuel IH]; intros v t Hv; [discriminate|].
  destruct v as [| | | | |l]; cbn in Hv; try (injection Hv as <-; constructor).
  destruct (h !! l) as [[items|entries]|] eqn:Hl; [| |discriminate].
  - destruct (mapM (reify fuel h) items) as [ts|] eqn:Hm; [|discriminate].
    injection Hv as <-. eapply reads_list; [|exact Hl|].
    + by eapply lookup_lt_Some.
    + apply mapM_Some in Hm. eapply Forall2_impl; [exact Hm|]. auto.
  - destruct (mapM _ entries) as [d|] eqn:Hm; [|discriminate].
    injection Hv as <-. eapply reads_dict; [|exact Hl|].
    + by eapply lookup_lt_Some.
    + apply mapM_Some in Hm. eapply Forall2_impl; [exact Hm|].
      intros e kt He. cbn in He.
      destruct (reify fuel h e.2) as [t|] eqn:Ht; [|discriminate].
      injection He as <-. auto.
Qed.


Lemma module_VTCTLD_EXTRA_ENV :
  reads_in imported module_heap VTCTLD_EXTRA_ENV Value.VTCTLD_EXTRA_ENV.
Proof. apply (reify_sound 5). vm_compute. reflexivity. Qed.

Lemma module_VTTABLET_EXTRA_ENV :
  reads_in imported module_heap VTTABLET_EXTRA_ENV Value.VTTABLET_EXTRA_ENV.
Proof. apply (reify_sound 5). vm_compute. reflexivity. Qed.

Lemma module_VTGATE_EXTRA_ENV :
  reads_in imported module_heap VTGATE_EXTRA_ENV Value.VTGATE_EXTRA_ENV.
Proof. apply (reify_sound 5). vm_compute. reflexivity. Qed.

Lemma module_VTADMIN_EXTRA_FLAGS :
  reads_in flag_maps module_heap VTADMIN_EXTRA_FLAGS Value.VTADMIN_EXTRA_FLAGS.
Proof.
  eapply reads_dict; [by left|reflexivity|]. repeat constructor.
Qed.

Lemma module_VTCTLD_EXTRA_FLAGS :
  reads_in flag_maps module_heap VTCTLD_EXTRA_FLAGS Value.VTCTLD_EXTRA_FLAGS.
Proof.
  eapply reads_dict; [by right|reflexivity|]. repeat constructor.
Qed.

Lemma flag_maps_imported l : flag_maps l → imported l.
Proof. intros [H|H]; injection H as ->; unfold imported; cbn; lia. Qed.

Lemma intact_reads (P : nat → Prop) b v t :
  intact b → reads_in P module_heap v t → reads_in P b v t.
Proof. intros [rest ->]. apply reads_in_app. Qed.

Lemma intact_lookup b l o :
  intact b → module_heap !! l = Some o → b !! l = Some o.
Proof. intros [rest ->]. apply lookup_app_l_Some. Qed.

Lemma intact_length b : intact b → length module_heap ≤ length b.
Proof. intros [rest ->]. rewrite length_app. lia. Qed.

Lemma intact_app b F : intact b → intact (b ++ F).
Proof. intros [rest ->]. exists (rest ++ F). by rewrite app_assoc. Qed.

(** *** Running a builder on [b ++ F] *)

Ltac side_list :=
  cbn [length app insert list_insert dict_set String.eqb Ascii.eqb Bool.eqb andb];
  reflexivity.

Ltac side_lay :=
  cbn [length];
  lazymatch goal with
  | |- ?lhs = _ =>
      let r := eval cbn [lay fst snd app length Nat.add env_value env_secret
                         Value.VTCTLD_EXTRA_ENV Value.VTTABLET_EXTRA_ENV
                         Value.VTGATE_EXTRA_ENV] in lhs in
      change lhs with r; reflexivity
  end.

Ltac side_if :=
  lazymatch goal with
  | |- (if ?c then _ else _) = _ =>
      let r := eval vm_compute in c in
      change c with r; cbv iota; side_list
  end.

Ltac side_vm :=
  lazymatch goal with
  | |- ?lhs = _ => let r := eval vm_compute in lhs in change lhs with r; reflexivity
  end.

Ltac side_depth :=
  unfold recursion_limit;
  lazymatch goal with
  | |- depth ?t ≤ _ => let d := eval vm_compute in (depth t) in change (depth t) with d; lia
  end.

Ltac wp_step :=
  lazymatch goal with
  | Hb : intact ?b |- wp (deepcopy ?v) (fr ?b _ _) _ =>
      eapply wp_lays_eq;
      [eapply (deepcopy_lays imported);
       [apply (intact_reads _ _ _ _ Hb);
        first [apply module_VTCTLD_EXTRA_ENV|apply module_VTTABLET_EXTRA_ENV
              |apply module_VTGATE_EXTRA_ENV]
       |side_depth]
      |side_lay|side_list|]
  | Hb : intact ?b |- wp (copy _) (fr ?b _ _) _ =>
      eapply wp_copy_old;
      [apply (intact_lookup _ _ _ Hb); reflexivity|side_list|side_list|]
  | |- wp (mret _) _ _ => apply wp_ret
  | |- wp (_ ≫= _) _ _ => apply wp_bind
  | |- wp (alloc _) _ _ => eapply wp_alloc; [side_list|side_list|]
  | |- wp (getitem _ _) _ _ => eapply wp_getitem; [reflexivity|reflexivity|]
  | |- wp (setitem _ _ _) _ _ => eapply wp_setitem; [reflexivity|side_list|]
  | |- wp (append _ _) _ _ => eapply wp_append; [reflexivity|side_list|]
  | |- wp (iter _) _ _ => eapply wp_iter; [reflexivity|]
  | |- wp (set_if_named _ _ _) _ _ =>
      eapply wp_set_if_named; [reflexivity|reflexivity|side_if|]
  | |- wp (build _) _ _ => cbn [build mapM fst snd resources LStr volume_mount host_volume]
  | |- wp (for_in _ _) _ _ => cbn [for_in]
  | |- wp (build_affinity_spec _) _ _ => unfold build_affinity_spec
  | |- wp (build_extra_labels _ _) _ _ => unfold build_extra_labels
  | |- wp (build_extra_env _) _ _ => unfold build_extra_env
  | |- wp (?f _) _ _ => fail "stuck"
  end.

Lemma reads_of_opt (P : nat → Prop) h o :
  reads_in P h (of_opt o) (Value.of_opt o).
Proof. destruct o; constructor. Qed.

Lemma reads_old (Pold : nat → Prop) b F v t :
  (∀ l, Pold l → l < length b) →
  reads_in Pold b v t →
  reads_in (old_or_new Pold b) (b ++ F) v t.
Proof.
  intros Hold Hr. apply reads_in_app.
  eapply reads_in_weaken; [|exact Hr]. by left.
Qed.

Lemma reads_dict_new (Pold : nat → Prop) b F k entries d :
  F !! k = Some (ODict entries) →
  Forall2 (λ e kt, e.1 = kt.1
     ∧ reads_in (old_or_new Pold b) (b ++ F) e.2 kt.2) entries d →
  reads_in (old_or_new Pold b) (b ++ F) (SRef (length b + k)) (VDict d).
Proof.
  intros Hk Hall. eapply reads_dict; [right; lia| |exact Hall].
  by rewrite lookup_new.
Qed.

Lemma reads_list_new (Pold : nat → Prop) b F k items ts :
  F !! k = Some (OList items) →
  Forall2 (reads_in (old_or_new Pold b) (b ++ F)) items ts →
  reads_in (old_or_new Pold b) (b ++ F) (SRef (length b + k)) (VList ts).
Proof.
  intros Hk Hall. eapply reads_list; [right; lia| |exact Hall].
  by rewrite lookup_new.
Qed.

Ltac reads_go :=
  lazymatch goal with
  | |- Forall2 _ [] [] => constructor
  | |- Forall2 (reads_in _ _) (_ :: _) (_ :: _) =>
      constructor; [reads_go|reads_go]
  | |- Forall2 _ (_ :: _) (_ :: _) =>
      constructor; [split; [reflexivity|cbn [fst snd]; reads_go]|reads_go]
  | |- reads_in _ _ (SRef (length _ + _)) (VDict _) =>
      eapply reads_dict_new; [reflexivity|reads_go]
  | |- reads_in _ _ (SRef (length _ + _)) (VList _) =>
      eapply reads_list_new; [reflexivity|reads_go]
  | |- reads_in _ _ (of_opt _) _ => apply reads_of_opt
  | |- reads_in _ _ _ _ =>
      first [constructor|apply reads_old; assumption]
  end.

Lemma build_vitess_dashboard_config_runs (Pold : nat → Prop) b w
    cells pool pcluster zk tcells tpool tpcluster :
  intact b →
  (∀ l, Pold l → l < length b) →
  (∀ l, flag_maps l → Pold l) →
  reads_in Pold b cells tcells →
  reads_in Pold b pool tpool →
  reads_in Pold b pcluster tpcluster →
  wp (build_vitess_dashboard_config cells pool pcluster zk) (fr b [] w)
    (λ v s', ∃ F, s' = fr b F w
       ∧ reads_in (old_or_new Pold b) (b ++ F) v
           (dashboard_config tcells tpool tpcluster zk)).
Proof.
  intros Hb Hold Hflags Hcells Hpool Hpc.
  unfold build_vitess_dashboard_config.
  repeat wp_step.
  eexists. split; [reflexivity|].
  let t := eval lazy -[topology_flags vault_addr vault_cacert throttle_query
                        acl_config pool_name String.append]
             in (dashboard_config tcells tpool tpcluster zk) in
  change (dashboard_config tcells tpool tpcluster zk) with t.
  assert (reads_in Pold b VTCTLD_EXTRA_FLAGS Value.VTCTLD_EXTRA_FLAGS).
  { apply (intact_reads _ _ _ _ Hb).
    eapply reads_in_weaken; [exact Hflags|apply module_VTCTLD_EXTRA_FLAGS]. }
  reads_go.
Qed.

Lemma build_cell_config_runs (Pold : nat → Prop) b w
    cell pool pcluster region tcell tpool tpcluster :
  intact b →
  (∀ l, Pold l → l < length b) →
  reads_in Pold b cell tcell →
  reads_in Pold b pool tpool →
  reads_in Pold b pcluster tpcluster →
  wp (build_cell_config cell pool pcluster region) (fr b [] w)
    (λ v s', ∃ F, s' = fr b F w
       ∧ reads_in (old_or_new Pold b) (b ++ F) v
           (cell_config tcell tpool tpcluster region)).
Proof.
  intros Hb Hold Hcell Hpool Hpc.
  unfold build_cell_config.
  repeat wp_step.
  eexists. split; [reflexivity|].
  let t := eval lazy -[topology_flags vault_addr vault_cacert throttle_query
                        acl_config pool_name String.append]
             in (cell_config tcell tpool tpcluster region) in
  change (cell_config tcell tpool tpcluster region) with t.
  reads_go.
Qed.

Lemma build_tablet_pool_config_runs (Pold : nat → Prop) b w
    cell db keyspace port pool pcluster zk table threshold tablet_type region
    tcell tpool tpcluster :
  intact b →
  (∀ l, Pold l → l < length b) →
  reads_in Pold b cell tcell →
  reads_in Pold b pool tpool →
  reads_in Pold b pcluster tpcluster →
  wp (build_tablet_pool_config cell db keyspace port pool pcluster zk table
        threshold tablet_type region) (fr b [] w)
    (λ v s', ∃ F, s' = fr b F w
       ∧ reads_in (old_or_new Pold b) (b ++ F) v
           (tablet_pool tcell db keyspace port tpool tpcluster zk table
              threshold tablet_type region)).
Proof.
  intros Hb Hold Hcell Hpool Hpc.
  unfold build_tablet_pool_config.
  repeat wp_step.
  eexists. split; [reflexivity|].
  let t := eval lazy -[topology_flags vault_addr vault_cacert throttle_query
                        acl_config pool_name String.append]
             in (tablet_pool tcell db keyspace port tpool tpcluster zk table
              threshold tablet_type region) in
  change (tablet_pool tcell db keyspace port tpool tpcluster zk table
              threshold tablet_type region) with t.
  reads_go.
Qed.


(** *** Composing simulations *)

Lemma fr_rebase b F F1 w : fr b (F ++ F1) w = fr (b ++ F) F1 w.
Proof. unfold fr. by rewrite app_assoc. Qed.

Lemma fr_base_nil b F w : fr (b ++ F) [] w = fr b F w.
Proof. unfold fr. by rewrite app_nil_r. Qed.

Section Simulation.

Context {A B : Type} (R : list obj → A → B → Prop).

Lemma simulates_ret b F w (v : A) (t : B) :
  R (b ++ F) v t → simulates R (mret v) (mret t) b F w.
Proof.
  intros Hr. unfold simulates. cbn. exists v, [].
  by rewrite !app_nil_r.
Qed.

Lemma simulates_ext (m : H A) (p p' : M B) b F w :
  p' w = p w → simulates R m p b F w → simulates R m p' b F w.
Proof. unfold simulates. by intros ->. Qed.

Lemma simulates_bind {A' B'} (R' : list obj → A' → B' → Prop)
    (m : H A') (k : A' → H A) (p : M B') (q : B' → M B) b F w :
  simulates R' m p b F w →
  (∀ v t F1 w', R' (b ++ F ++ F1) v t →
     simulates R (k v) (q t) b (F ++ F1) w') →
  simulates R (m ≫= k) (p ≫= q) b F w.
Proof.
  unfold simulates. intros Hm Hk.
  unfold mbind at 1, M_bind. destruct (p w) as [[t|e] w'].
  - destruct Hm as (v & F1 & Hm & Hr). specialize (Hk v t F1 w' Hr).
    destruct (q t w') as [[t'|e] w''].
    + destruct Hk as (v' & F2 & Hk & Hr'). exists v', (F1 ++ F2).
      unfold mbind, H_bind. rewrite Hm, Hk, !app_assoc. split; [done|].
      by rewrite !app_assoc in Hr'.
    + destruct Hk as (F2 & Hk). exists (F1 ++ F2).
      unfold mbind, H_bind. by rewrite Hm, Hk, !app_assoc.
  - destruct Hm as (F1 & Hm). exists F1. unfold mbind, H_bind. by rewrite Hm.
Qed.

End Simulation.

Lemma simulates_weaken {A B} (R R' : list obj → A → B → Prop) m p b F w :
  (∀ h v t, R h v t → R' h v t) →
  simulates R m p b F w → simulates R' m p b F w.
Proof.
  unfold simulates. intros HR. destruct (p w) as [[t|e] w']; [|done].
  intros (v & F1 & Hm & Hr). exists v, F1. auto.
Qed.


Lemma stable_reads P : stable (reads_in P).
Proof. intros h F v t. apply reads_in_app. Qed.

Lemma stable_entry {A B} (R : list obj → A → B → Prop) :
  stable R → stable (entry_rel R).
Proof. intros HR h F e kt [? ?]. split; [done|]. by apply HR. Qed.

(** [mapM] of simulating calls simulates. *)
Lemma simulates_mapM {A B A' B'} (R : list obj → A → B → Prop)
    (f : A' → H A) (g : B' → M B) b (xs : list A') (ys : list B') :
  stable R →
  Forall2 (λ x y, ∀ F w, simulates R (f x) (g y) b F w) xs ys →
  ∀ F w, simulates (items_rel R) (mapM f xs) (mapM g ys) b F w.
Proof.
  intros HR. induction 1 as [|x y xs ys Hxy _ IH]; intros F w.
  - apply simulates_ret. constructor.
  - cbn [mapM]. eapply simulates_bind; [apply Hxy|].
    intros v t F1 w1 Hvt. eapply simulates_bind; [apply IH|].
    intros vs ts F2 w2 Hvs. apply simulates_ret. constructor; [|done].
    rewrite !app_assoc in *. by apply HR.
Qed.

Lemma lookup_new_end (b F : list obj) o :
  (b ++ F ++ [o]) !! (length b + length F) = Some o.
Proof.
  rewrite lookup_new. rewrite lookup_app_r by lia.
  by rewrite Nat.sub_diag.
Qed.

(** *** Displays *)

Lemma refines_val P b F w v t :
  reads_in P (b ++ F) v t → refines P (build (LVal v)) (mret t) b F w.
Proof. intros Hr. by apply simulates_ret. Qed.

Lemma simulates_alloc_list P (m : H (list sval)) (p : M (list value)) b F w :
  (∀ l, length b ≤ l → P l) →
  simulates (items_rel (reads_in P)) m p b F w →
  refines P (vs ← m; alloc (OList vs)) (ts ← p; mret (VList ts)) b F w.
Proof.
  intros HP Hm. eapply simulates_bind; [exact Hm|].
  intros vs ts F1 w' Hr. unfold simulates. cbn.
  exists (SRef (length b + length (F ++ F1))), [OList vs].
  split; [apply alloc_fr|].
  eapply reads_list.
  - apply HP. lia.
  - apply lookup_new_end.
  - eapply Forall2_impl; [exact Hr|]. intros v t Hvt.
    rewrite !app_assoc in *. by apply reads_in_app.
Qed.

Lemma simulates_alloc_dict P (m : H (list (string * sval)))
    (p : M (list (string * value))) b F w :
  (∀ l, length b ≤ l → P l) →
  simulates (items_rel (entry_rel (reads_in P))) m p b F w →
  refines P (kvs ← m; alloc (ODict kvs)) (d ← p; mret (VDict d)) b F w.
Proof.
  intros HP Hm. eapply simulates_bind; [exact Hm|].
  intros kvs d F1 w' Hr. unfold simulates. cbn.
  exists (SRef (length b + length (F ++ F1))), [ODict kvs].
  split; [apply alloc_fr|].
  eapply reads_dict.
  - apply HP. lia.
  - apply lookup_new_end.
  - eapply Forall2_impl; [exact Hr|]. intros e kt [Hk Hvt]. split; [done|].
    rewrite !app_assoc in *. by apply reads_in_app.
Qed.

(** A list display of simulating items. *)
Lemma refines_list_lit P b (items : list lit) (ps : list (M value)) :
  (∀ l, length b ≤ l → P l) →
  Forall2 (λ e p, ∀ F w, refines P (build e) p b F w) items ps →
  ∀ F w, refines P (build (LList items))
           (ts ← mapM id ps; mret (VList ts)) b F w.
Proof.
  intros HP Hall F w. cbn [build]. apply simulates_alloc_list; [done|].
  apply simulates_mapM; [apply stable_reads|]. exact Hall.
Qed.

(** A dict display of simulating entries. *)
Lemma refines_dict_lit P b (entries : list (string * lit))
    (ps : list (string * M value)) :
  (∀ l, length b ≤ l → P l) →
  Forall2 (λ ke kp, ke.1 = kp.1 ∧ ∀ F w, refines P (build ke.2) kp.2 b F w)
    entries ps →
  ∀ F w, refines P (build (LDict entries))
           (d ← mapM (λ kp, t ← kp.2; mret (kp.1, t)) ps; mret (VDict d))
           b F w.
Proof.
  intros HP Hall F w. cbn [build]. apply simulates_alloc_dict; [done|].
  apply simulates_mapM; [apply stable_entry, stable_reads|].
  eapply Forall2_impl; [exact Hall|]. intros [k e] [k' p] [Hk He] F' w'.
  cbn [fst snd] in *. subst k'.
  eapply simulates_bind; [apply He|].
  intros v t F1 w1 Hvt. apply simulates_ret. by split.
Qed.

(** *** The builders as simulations *)

Lemma old_or_new_app Pold b F l :
  old_or_new Pold (b ++ F) l → old_or_new Pold b l.
Proof. intros [?|Hl]; [by left|right]. rewrite length_app in Hl. lia. Qed.

Lemma refines_of_wp Pold (m : H sval) (t : value) b F w :
  wp m (fr (b ++ F) [] w)
    (λ v s', ∃ F1, s' = fr (b ++ F) F1 w
       ∧ reads_in (old_or_new Pold (b ++ F)) ((b ++ F) ++ F1) v t) →
  refines (old_or_new Pold b) m (mret t) b F w.
Proof.
  intros (v & s' & Hm & F1 & -> & Hr). unfold refines, simulates. cbn.
  exists v, F1. rewrite fr_base_nil in Hm. rewrite fr_rebase. split; [done|].
  rewrite app_assoc. eapply reads_in_weaken; [|exact Hr].
  apply old_or_new_app.
Qed.

Section Builders.

Context (Pold : nat → Prop) (b : list obj).
Context (pool pcluster : sval) (tpool tpcluster : value).
Hypothesis Hb : intact b.
Hypothesis Hold : ∀ l, Pold l → l < length b.
Hypothesis Hpool : reads_in Pold b pool tpool.
Hypothesis Hpc : reads_in Pold b pcluster tpcluster.

Lemma old_app F l : Pold l → l < length (b ++ F).
Proof. intros Hl. apply Hold in Hl. rewrite length_app. lia. Qed.

Lemma build_cell_config_refines cell tcell region :
  reads_in Pold b cell tcell →
  ∀ F w, refines (old_or_new Pold b)
           (build_cell_config cell pool pcluster region)
           (Value.lift (Value.build_cell_config tcell tpool tpcluster region))
           b F w.
Proof.
  intros Hcell F w.
  apply (simulates_ext _ _ (mret (cell_config tcell tpool tpcluster region)));
    [reflexivity|].
  apply refines_of_wp. apply build_cell_config_runs;
    auto using intact_app, old_app, reads_in_app.
Qed.

Lemma build_tablet_pool_config_refines cell tcell db keyspace port zk table
    threshold tablet_type region :
  reads_in Pold b cell tcell →
  ∀ F w, refines (old_or_new Pold b)
           (build_tablet_pool_config cell db keyspace port pool pcluster zk
              table threshold tablet_type region)
           (Value.lift (Value.build_tablet_pool_config tcell db keyspace port
              tpool tpcluster zk table threshold tablet_type region))
           b F w.
Proof.
  intros Hcell F w.
  apply (simulates_ext _ _ (mret (tablet_pool tcell db keyspace port tpool
           tpcluster zk table threshold tablet_type region)));
    [reflexivity|].
  apply refines_of_wp. apply build_tablet_pool_config_runs;
    auto using intact_app, old_app, reads_in_app.
Qed.

Lemma build_vitess_dashboard_config_refines cells tcells zk :
  (∀ l, flag_maps l → Pold l) →
  reads_in Pold b cells tcells →
  ∀ F w, refines (old_or_new Pold b)
           (build_vitess_dashboard_config cells pool pcluster zk)
           (Value.lift (Value.build_vitess_dashboard_config tcells tpool
              tpcluster zk))
           b F w.
Proof.
  intros Hflags Hcells F w.
  apply (simulates_ext _ _ (mret (dashboard_config tcells tpool tpcluster zk)));
    [reflexivity|].
  apply refines_of_wp. apply build_vitess_dashboard_config_runs;
    auto using intact_app, old_app, reads_in_app.
Qed.

End Builders.



(** *** Displays without updates *)

Lemma entry_intro P b (k : string) (e : lit) (p : M value) :
  (∀ F w, refines P (build e) p b F w) →
  (λ (ke : string * lit) (kp : string * M value),
     ke.1 = kp.1 ∧ ∀ F w, refines P (build ke.2) kp.2 b F w) (k, e) (k, p).
Proof. by split. Qed.

Lemma new_old_or_new Pold (b : list obj) l : length b ≤ l → old_or_new Pold b l.
Proof. by right. Qed.

Ltac leaf_reads :=
  first [solve [constructor]|apply reads_of_opt|eapply reads_old; eassumption
        |lazymatch goal with |- ?g => fail 1000 "leaf" g end].

Ltac refines_go :=
  lazymatch goal with
  | |- Forall2 _ [] _ => constructor
  | |- Forall2 _ ((_, _) :: _) _ =>
      constructor; [apply entry_intro; refines_go|refines_go]
  | |- Forall2 _ (_ :: _) _ =>
      constructor; [refines_go|refines_go]
  | |- ∀ _, _ => intros ? ?; refines_go
  | |- refines _ (build (LVal _)) _ _ _ _ =>
      apply refines_val; leaf_reads
  | |- refines _ (build (LStr _)) _ _ _ _ =>
      apply refines_val; leaf_reads
  | |- refines _ (build (LDict _)) _ _ _ _ =>
      apply refines_dict_lit; [apply new_old_or_new|refines_go]
  | |- refines _ (build (LList _)) _ _ _ _ =>
      apply refines_list_lit; [apply new_old_or_new|refines_go]
  | |- refines _ (build (LCall (build_affinity_spec ?p))) _ _ _ _ =>
      change (build (LCall (build_affinity_spec p)))
        with (build_affinity_spec p);
      unfold build_affinity_spec; refines_go
  | |- refines _ (build (LCall (build_extra_labels ?p ?c))) _ _ _ _ =>
      change (build (LCall (build_extra_labels p c)))
        with (build_extra_labels p c);
      unfold build_extra_labels; refines_go
  | |- refines _ (build (LCall (build_extra_env ?c))) _ _ _ _ =>
      change (build (LCall (build_extra_env c))) with (build_extra_env c);
      unfold build_extra_env; refines_go
  | |- refines _ (build (resources _ _)) _ _ _ _ =>
      unfold resources; refines_go
  | |- refines _ (build (LCall ?m)) _ _ _ _ =>
      change (build (LCall m)) with m; eauto
  | |- simulates (reads_in ?P) ?m ?p ?b ?F ?w =>
      change (refines P m p b F w); refines_go
  | |- ?g => fail 1000 "stuck on" g
  end.

Section Admin.

Context (Pold : nat → Prop) (b : list obj).
Context (cells pool pcluster : sval) (tcells tpool tpcluster : value).
Hypothesis Hb : intact b.
Hypothesis Hold : ∀ l, Pold l → l < length b.
Hypothesis Hflags : ∀ l, flag_maps l → Pold l.
Hypothesis Hcells : reads_in Pold b cells tcells.
Hypothesis Hpool : reads_in Pold b pool tpool.
Hypothesis Hpc : reads_in Pold b pcluster tpcluster.

Lemma flags_admin_old :
  reads_in Pold b VTADMIN_EXTRA_FLAGS Value.VTADMIN_EXTRA_FLAGS.
Proof.
  apply (intact_reads _ _ _ _ Hb).
  eapply reads_in_weaken; [exact Hflags|apply module_VTADMIN_EXTRA_FLAGS].
Qed.

Lemma build_vt_admin_config_refines F w :
  refines (old_or_new Pold b) (build_vt_admin_config cells pool pcluster)
    (mret (Value.build_vt_admin_config tcells tpool tpcluster)) b F w.
Proof.
  pose proof flags_admin_old as Hadmin.
  eapply simulates_ext; cycle 1.
  - unfold build_vt_admin_config. refines_go.
  - reflexivity.
Qed.

End Admin.

(** *** Steps on a store of unknown size *)

Lemma iter_old b F w l items :
  b !! l = Some (OList items) →
  iter (SRef l) (fr b F w) = (Ok items, fr b F w).
Proof.
  intros Hl. unfold iter, mbind, H_bind. by rewrite (load_old _ _ _ _ _ _ Hl).
Qed.

Lemma iter_new b F w k items :
  F !! k = Some (OList items) →
  iter (SRef (length b + k)) (fr b F w) = (Ok items, fr b F w).
Proof.
  intros Hk. unfold iter, mbind, H_bind. by rewrite (load_new _ _ _ _ _ _ Hk).
Qed.

Lemma extend_new b F w kL kt pitems vs :
  F !! kL = Some (OList pitems) →
  F !! kt = Some (OList vs) →
  extend (SRef (length b + kL)) (SRef (length b + kt)) (fr b F w)
  = (Ok (), fr b (<[kL := OList (pitems ++ vs)]> F) w).
Proof.
  intros HL Ht. unfold extend, mbind, H_bind.
  rewrite (load_new _ _ _ _ _ _ HL). unfold mbind, H_bind.
  rewrite (iter_new _ _ _ _ _ Ht). apply update_new.
Qed.

Lemma append_new b F w k items v :
  F !! k = Some (OList items) →
  append (SRef (length b + k)) v (fr b F w)
  = (Ok (), fr b (<[k := OList (items ++ [v])]> F) w).
Proof.
  intros Hk. unfold append, mbind, H_bind.
  rewrite (load_new _ _ _ _ _ _ Hk). apply update_new.
Qed.

(** A step of the store alone. *)
Lemma simulates_step {A B C} (R : list obj → A → B → Prop)
    (m : H C) (k : C → H A) (p : M B) b F w (c : C) :
  m (fr b F w) = (Ok c, fr b F w) →
  simulates R (k c) p b F w →
  simulates R (m ≫= k) p b F w.
Proof.
  unfold simulates. intros Hm Hk. unfold mbind, H_bind. by rewrite Hm.
Qed.

Lemma reads_list_inv P h v ts :
  reads_in P h v (VList ts) →
  ∃ l items, v = SRef l ∧ P l ∧ h !! l = Some (OList items)
             ∧ Forall2 (reads_in P h) items ts.
Proof. inversion 1; subst. eauto 10. Qed.

Lemma reads_none_inv P h v : reads_in P h v VNone → v = SNone.
Proof. by inversion 1. Qed.

(** Reading visits addresses of the heap only. *)
Lemma reads_in_bound (P : nat → Prop) h v t :
  reads_in P h v t → reads_in (λ l, P l ∧ l < length h) h v t.
Proof.
  revert v. induction t as [| | | | |ts IH|d IH] using value_ind';
    intros v Hr; inversion Hr; subst; try constructor.
  - eapply reads_list; [split; [done|by eapply lookup_lt_Some]|done|].
    eapply Forall2_Forall_r; eauto.
  - eapply reads_dict; [split; [done|by eapply lookup_lt_Some]|done|].
    eapply Forall2_Forall_r; [eassumption|].
    eapply Forall_impl; [exact IH|]. cbn. intros kt Hkt e [? ?]. auto.
Qed.


Lemma continues_refl F k : continues F F k.
Proof. by split. Qed.

Lemma continues_trans F F' F'' k :
  continues F F' k → continues F' F'' k → continues F F'' k.
Proof.
  intros [Hl1 H1] [Hl2 H2]. split; [lia|]. intros j Hj Hne.
  rewrite H2 by lia. by apply H1.
Qed.

Lemma continues_app F F1 k : continues F (F ++ F1) k.
Proof.
  split; [rewrite length_app; lia|]. intros j Hj _.
  by rewrite lookup_app_l.
Qed.

Lemma continues_insert F k o : continues F (<[k := o]> F) k.
Proof.
  split; [by rewrite length_insert|]. intros j Hj Hne.
  by rewrite list_lookup_insert_ne.
Qed.

Lemma continues_other F F' k k' :
  continues F F' k → length F ≤ k → continues F F' k'.
Proof.
  intros [Hl H1] Hk. split; [done|]. intros j Hj _. apply H1; lia.
Qed.

Lemma continues_lookup F F' k j o :
  continues F F' k → j ≠ k → F !! j = Some o → F' !! j = Some o.
Proof.
  intros [_ H1] Hne Hj. rewrite H1; [done| |done]. by eapply lookup_lt_Some.
Qed.

Lemma continues_prefix F X F' k :
  continues (F ++ X) F' k → length F ≤ k → F' = F ++ drop (length F) F'.
Proof.
  intros [Hlen Hc] Hk. rewrite length_app in Hlen.
  rewrite <- (take_drop (length F) F') at 1. f_equal.
  apply list_eq. intros j. destruct (decide (j < length F)) as [Hj|Hj].
  - rewrite lookup_take_lt by done. rewrite Hc; [|rewrite length_app; lia|lia].
    by rewrite lookup_app_l.
  - rewrite lookup_take_ge by lia. symmetry. apply lookup_ge_None. lia.
Qed.

(** Reading through addresses of [b ++ F] other than that of [k] is kept
    by what continues [F]. *)
Lemma reads_continues (P : nat → Prop) b F F' k v t :
  continues F F' k →
  (∀ l, P l → l ≠ length b + k) →
  reads_in P (b ++ F) v t →
  reads_in P (b ++ F') v t.
Proof.
  intros [Hlen Hc] HP Hr. apply reads_in_bound in Hr.
  eapply reads_in_mono; [| |exact Hr]; [by intros l [? ?]|].
  intros l o [Hl Hb] Hlook. rewrite length_app in Hb.
  destruct (decide (l < length b)) as [Hlt|Hge].
  - rewrite lookup_app_l in * by done. done.
  - rewrite lookup_app_r in * by lia. rewrite Hc; [done|lia|].
    intros Heq. apply (HP l Hl). lia.
Qed.

Lemma mapM_lift_total {A} (f : A → result value) (g : A → value)
    (xs : list A) w :
  (∀ x, f x = Ok (g x)) →
  mapM (λ x, Value.lift (f x)) xs w = (Ok (map g xs), w).
Proof.
  intros Hf. induction xs as [|x xs IH]; [done|].
  cbn [mapM map]. unfold mbind at 1. unfold M_bind at 1.
  unfold Value.lift at 1. rewrite Hf.
  unfold mbind at 1. unfold M_bind at 1. by rewrite IH.
Qed.

(** The dict of a keyspace, around the list bound to [tablet_pools]. *)
Lemma keyspace_entry_run (Pold : nat → Prop) b name tps tpools w :
  (∀ l, Pold l → l < length b) →
  reads_in Pold b tps tpools →
  ∃ v F1,
    build (keyspace_entry name tps) (fr b [] w) = (Ok v, fr b F1 w)
    ∧ reads_in (old_or_new Pold b) (b ++ F1) v
        (Value.keyspace_entry name tpools).
Proof.
  intros Hold Htps.
  assert (refines (old_or_new Pold b) (build (keyspace_entry name tps))
            (mret (Value.keyspace_entry name tpools)) b [] w) as Hsim.
  { eapply simulates_ext; cycle 1.
    - unfold keyspace_entry. refines_go.
    - reflexivity. }
  unfold refines, simulates in Hsim. cbn in Hsim.
  destruct Hsim as (v & F1 & Hrun & Hr). by exists v, F1.
Qed.


Section Keyspaces.

Context (ports : gmap string (gmap string Z)).
Context (Pold : nat → Prop) (b : list obj).
Context (pool pcluster : sval) (tpool tpcluster : value).
Context (zk region : option string).
Context (lc : nat) (cs : list sval) (tcs : list value).
Hypothesis Hb : intact b.
Hypothesis Hold : ∀ l, Pold l → l < length b.
Hypothesis Hpool : reads_in Pold b pool tpool.
Hypothesis Hpc : reads_in Pold b pcluster tpcluster.
Hypothesis Hlc : b !! lc = Some (OList cs).
Hypothesis Hcs : Forall2 (reads_in Pold b) cs tcs.

(** The pools of one tablet type, for every cell. *)
Lemma pools_run db keyspace port table threshold tablet_type F w :
  ∃ vs F1,
    mapM (λ cell,
      build_tablet_pool_config cell db keyspace port pool pcluster zk table
        threshold tablet_type region) cs (fr b F w)
    = (Ok vs, fr b (F ++ F1) w)
    ∧ Forall2 (reads_in (old_or_new Pold (b ++ F)) (b ++ F ++ F1)) vs
        (map (λ cell,
           tablet_pool cell db keyspace port tpool tpcluster zk table
             threshold tablet_type region) tcs).
Proof.
  assert (∀ F' w', simulates (items_rel (reads_in (old_or_new Pold (b ++ F))))
    (mapM (λ cell,
      build_tablet_pool_config cell db keyspace port pool pcluster zk table
        threshold tablet_type region) cs)
    (mapM (λ cell, Value.lift
      (Value.build_tablet_pool_config cell db keyspace port tpool tpcluster zk
         table threshold tablet_type region)) tcs) (b ++ F) F' w') as Hsim.
  { apply simulates_mapM; [apply stable_reads|].
    eapply Forall2_impl; [exact Hcs|]. intros cell tcell Hcell F' w'.
    apply build_tablet_pool_config_refines;
      auto using intact_app, reads_in_app.
    intros l Hl. apply Hold in Hl. rewrite length_app. lia. }
  specialize (Hsim [] w). unfold simulates in Hsim.
  rewrite (mapM_lift_total _ (λ cell,
    tablet_pool cell db keyspace port tpool tpcluster zk table threshold
      tablet_type region)) in Hsim by done.
  destruct Hsim as (vs & F1 & Hrun & Hr). exists vs, F1.
  rewrite fr_base_nil in Hrun. cbn [app] in Hrun, Hr.
  rewrite <- fr_rebase in Hrun. split; [done|].
  by rewrite <- app_assoc in Hr.
Qed.

Lemma above_not_self k : ∀ l, above Pold b k l → l ≠ length b + k.
Proof. intros l [Hl|Hl]; [apply Hold in Hl|]; lia. Qed.

(** One round of the loop over [TABLET_TYPES]: the list bound to
    [tablet_pools], at index [kL], gets the pools of the tablet type. *)
Lemma role_step_store ks m tablet_type F w kL pitems pacc :
  ports !! ks_cluster ks = Some m →
  F !! kL = Some (OList pitems) →
  Forall2 (reads_in (above Pold b kL) (b ++ F)) pitems pacc →
  ∃ F' pitems',
    Store.role_body (SRef lc) pool pcluster zk region ports ks
      (SRef (length b + kL)) tablet_type (fr b F w) = (Ok (), fr b F' w)
    ∧ continues F F' kL
    ∧ F' !! kL = Some (OList pitems')
    ∧ Forall2 (reads_in (above Pold b kL) (b ++ F')) pitems'
        (pacc ++ role_pools tcs tpool tpcluster zk region ks m tablet_type).
Proof.
  intros Hm HL Hitems. unfold role_pools.
  unfold mbind at 1. unfold H_bind at 1. unfold lift at 1. unfold subscript.
  rewrite Hm. destruct (m !! tablet_type) as [port|].
  2:{ exists F, pitems. split; [done|]. split; [apply continues_refl|].
      split; [done|]. by rewrite app_nil_r. }
  destruct (throttle_policy tablet_type (ks_cluster ks)) as [table threshold].
  cbn [fst snd].
  destruct (pools_run (ks_keyspace ks) (ks_keyspace ks) port table threshold
              tablet_type F w) as (vs & F1 & Hrun & Hvs).
  assert (kL < length F) as HkL by (by eapply lookup_lt_Some).
  exists (<[kL := OList (pitems ++ vs)]> (F ++ F1 ++ [OList vs])),
    (pitems ++ vs).
  split; [|split; [|split]].
  - unfold mbind at 1. unfold H_bind at 1.
    unfold mbind at 1. unfold H_bind at 1.
    rewrite (iter_old _ _ _ _ _ Hlc).
    unfold mbind at 1. unfold H_bind at 1. rewrite Hrun.
    rewrite alloc_fr. rewrite <- app_assoc.
    apply extend_new.
    + rewrite lookup_app_l by done. done.
    + rewrite app_assoc. rewrite lookup_app_r by done.
      by rewrite Nat.sub_diag.
  - eapply continues_trans; [apply continues_app|apply continues_insert].
  - apply list_lookup_insert_eq. rewrite length_app. lia.
  - apply Forall2_app.
    + eapply Forall2_impl; [exact Hitems|]. intros v t Hvt.
      eapply reads_continues; [|apply above_not_self|exact Hvt].
      eapply continues_trans; [apply continues_app|apply continues_insert].
    + eapply Forall2_impl; [exact Hvs|]. intros v t Hvt.
      eapply (reads_continues _ _ (F ++ F1)); [|apply above_not_self|].
      * rewrite (app_assoc F).
        eapply continues_trans; [apply continues_app|apply continues_insert].
      * eapply reads_in_weaken; [|exact Hvt].
        intros l [Hl|Hl]; [by left|right]. rewrite length_app in Hl. lia.
Qed.

Lemma within_not_self k n : ∀ l, within Pold b k n l → l ≠ length b + k.
Proof. intros l [Hl|Hl]; [apply Hold in Hl|]; lia. Qed.

Lemma within_not_end k n : ∀ l, within Pold b k n l → l ≠ length b + n.
Proof. intros l [Hl|Hl]; [apply Hold in Hl|]; lia. Qed.

(** One round of the loop over the keyspaces, for a keyspace whose cluster
    is mapped: the list bound to [config], at index [kC], gets the dict of
    the keyspace. *)
Lemma keyspace_step_store ks F w kC items acc :
  mapped ports ks →
  F !! kC = Some (OList items) →
  Forall2 (reads_in (within Pold b kC (length F)) (b ++ F)) items acc →
  ∃ F' items',
    Store.keyspace_body ports (SRef lc) pool pcluster zk region
      (SRef (length b + kC)) ks (fr b F w)
    = (Ok (), fr b F' (World (S (queries w))))
    ∧ continues F F' kC
    ∧ F' !! kC = Some (OList items')
    ∧ Forall2 (reads_in (within Pold b kC (length F')) (b ++ F')) items'
        (acc ++ [keyspace_config ports tcs tpool tpcluster zk region ks]).
Proof.
  intros [m Hm] HC Hitems.
  assert (kC < length F) as HkC by (by eapply lookup_lt_Some).
  set (kL := length F).
  set (F1 := F ++ [OList []]).
  assert (F1 !! kL = Some (OList [])) as HL1.
  { unfold F1, kL. rewrite lookup_app_r by done. by rewrite Nat.sub_diag. }
  destruct (role_step_store ks m "primary" F1 (World (S (queries w))) kL [] []
              Hm HL1 ltac:(constructor))
    as (F2 & pitems2 & Hrun2 & Hc2 & HL2 & Hp2).
  destruct (role_step_store ks m "migration" F2 (World (S (queries w))) kL
              pitems2 _ Hm HL2 Hp2)
    as (F3 & pitems3 & Hrun3 & Hc3 & HL3 & Hp3).
  set (pools := ([] ++ role_pools tcs tpool tpcluster zk region ks m "primary")
                ++ role_pools tcs tpool tpcluster zk region ks m "migration")
    in *.
  set (Pold3 := λ l, (Pold l ∨ length b + kL ≤ l) ∧ l < length (b ++ F3)).
  assert (∀ l, Pold3 l → l < length (b ++ F3)) as Hold3 by (by intros l [_ ?]).
  assert (kL < length F3) as HkL3 by (by eapply lookup_lt_Some).
  assert (reads_in Pold3 (b ++ F3) (SRef (length b + kL)) (VList pools)) as HL.
  { eapply reads_list; [| |].
    - split; [right; lia|]. rewrite length_app. lia.
    - by rewrite lookup_new.
    - eapply Forall2_impl; [exact Hp3|]. intros v t Hvt.
      apply reads_in_bound in Hvt. eapply reads_in_weaken; [|exact Hvt].
      intros l [[Hl|Hl] Hlt]; (split; [|done]); [by left|right; lia]. }
  destruct (keyspace_entry_run Pold3 (b ++ F3) (ks_keyspace ks) _ _
              (World (S (queries w))) Hold3 HL) as (v & F4 & Hrun4 & Hv).
  assert (continues F F3 kL) as HcF3.
  { eapply continues_trans; [apply (continues_app _ [OList []])|].
    eapply continues_trans; [exact Hc2|exact Hc3]. }
  assert (F3 !! kC = Some (OList items)) as HC3.
  { eapply continues_lookup; [exact HcF3|unfold kL; lia|exact HC]. }
  assert (continues F3 (<[kC := OList (items ++ [v])]> (F3 ++ F4)) kC)
    as Hc4.
  { eapply continues_trans; [apply continues_app|apply continues_insert]. }
  exists (<[kC := OList (items ++ [v])]> (F3 ++ F4)), (items ++ [v]).
  split; [|split; [|split]]; cycle 1.
  { eapply continues_trans; [|exact Hc4].
    eapply continues_other; [exact HcF3|done]. }
  3:{ cbn [build mapM]. unfold mbind at 1. unfold H_bind at 1.
    unfold mbind at 1. unfold H_bind at 1. unfold mret at 1. unfold H_ret at 1.
    rewrite alloc_fr. fold F1. fold kL.
    unfold mbind at 1. unfold H_bind at 1.
    unfold get_mysql_port_mappings at 1. cbn [heap env fr].
    change {| heap := b ++ F1; env := World (S (queries w)) |}
      with (fr b F1 (World (S (queries w)))).
    unfold mbind at 1. unfold H_bind at 1.
    unfold TABLET_TYPES. cbn [for_in].
    unfold mbind at 1. unfold H_bind at 1. rewrite Hrun2.
    unfold mbind at 1. unfold H_bind at 1. rewrite Hrun3.
    unfold mret at 1. unfold H_ret at 1.
    unfold mbind at 1. unfold H_bind at 1.
    rewrite <- (fr_base_nil b F3), Hrun4, <- fr_rebase.
    apply append_new. by rewrite lookup_app_l by (by eapply lookup_lt_Some). }
  - apply list_lookup_insert_eq. rewrite length_app.
    apply lookup_lt_Some in HC3. lia.
  - assert (length F ≤ length F3) as HlenF3 by apply HcF3.
    apply Forall2_app.
    + eapply Forall2_impl; [exact Hitems|]. intros x t Hxt.
      eapply reads_in_weaken; cycle 1.
      * eapply reads_continues; [exact Hc4|apply within_not_self|].
        eapply reads_continues; [exact HcF3|apply within_not_end|exact Hxt].
      * intros l [Hl|[Hl1 Hl2]]; [by left|right].
        rewrite length_insert, length_app. lia.
    + constructor; [|constructor].
      assert (keyspace_config ports tcs tpool tpcluster zk region ks
              = Value.keyspace_entry (ks_keyspace ks) (VList pools)) as ->.
      { unfold keyspace_config, keyspace_pools, TABLET_TYPES. rewrite Hm.
        unfold pools. cbn [default from_option id map concat app].
        by rewrite app_nil_r. }
      rewrite <- app_assoc in Hv.
      eapply reads_in_weaken; cycle 1.
      * eapply reads_in_bound.
        eapply (reads_continues _ _ (F3 ++ F4)); [apply continues_insert| |].
        2: exact Hv.
        intros l [[[Hl|Hl] _]|Hl]; [apply Hold in Hl; lia|unfold kL in Hl; lia|].
        rewrite length_app in Hl. lia.
      * cbn. intros l [[[[Hl|Hl] _]|Hl] Hlt].
        -- by left.
        -- right. rewrite length_app in Hlt. unfold kL in Hl. lia.
        -- right. rewrite !length_app in *. lia.
Qed.

(** The same for a keyspace whose cluster is not mapped: the subscript
    raises, after the list for the pools was made and the collaborator
    queried. *)
Lemma keyspace_step_store_unmapped ks F w cfg :
  ports !! ks_cluster ks = None →
  Store.keyspace_body ports (SRef lc) pool pcluster zk region cfg ks (fr b F w)
  = (Raise (KeyError (ks_cluster ks)),
     fr b (F ++ [OList []]) (World (S (queries w)))).
Proof.
  intros Hm. cbn [build mapM]. unfold mbind at 1. unfold H_bind at 1.
  unfold mbind at 1. unfold H_bind at 1. unfold mret at 1. unfold H_ret at 1.
  rewrite alloc_fr.
  unfold mbind at 1. unfold H_bind at 1.
  unfold get_mysql_port_mappings at 1. cbn [heap env fr].
  unfold TABLET_TYPES. cbn [for_in].
  unfold mbind at 1. unfold H_bind at 1.
  unfold mbind at 1. unfold H_bind at 1.
  unfold mbind at 1. unfold H_bind at 1.
  unfold lift, subscript. by rewrite Hm.
Qed.

(** The loop over the keyspaces. *)
Lemma keyspaces_loop_store kss : ∀ F acc w kC items,
  F !! kC = Some (OList items) →
  Forall2 (reads_in (within Pold b kC (length F)) (b ++ F)) items acc →
  match
    for_each kss (Value.keyspace_body ports (Some tcs) tpool tpcluster zk
                    region) (VList acc) w
  with
  | (Ok r, w') =>
      ∃ F' items' acc',
        r = VList acc'
        ∧ for_in kss (Store.keyspace_body ports (SRef lc) pool pcluster zk
                        region (SRef (length b + kC))) (fr b F w)
          = (Ok (), fr b F' w')
        ∧ continues F F' kC
        ∧ F' !! kC = Some (OList items')
        ∧ Forall2 (reads_in (within Pold b kC (length F')) (b ++ F')) items'
            acc'
  | (Raise e, w') =>
      ∃ F',
        for_in kss (Store.keyspace_body ports (SRef lc) pool pcluster zk
                      region (SRef (length b + kC))) (fr b F w)
        = (Raise e, fr b F' w')
        ∧ continues F F' kC
  end.
Proof.
  induction kss as [|ks kss IH]; intros F acc w kC items HC Hitems.
  - cbn. exists F, items, acc. eauto using continues_refl.
  - cbn [for_each for_in]. unfold mbind at 1. unfold M_bind at 1.
    destruct (ports !! ks_cluster ks) as [m|] eqn:Hm.
    + assert (mapped ports ks) as Hks by (by exists m).
      rewrite (keyspace_step _ _ _ _ _ _ ks acc w Hks).
      destruct (keyspace_step_store ks F w kC items acc Hks HC Hitems)
        as (F1 & items1 & Hrun1 & Hc1 & HC1 & Hitems1).
      specialize (IH F1 _ (World (S (queries w))) kC items1 HC1 Hitems1).
      match type of IH with
      | match ?x with _ => _ end => destruct x as [[r|e] w']
      end.
      * destruct IH as (F' & items' & acc' & -> & Hrun & Hc & HC' & Hitems').
        exists F', items', acc'. split; [done|]. split.
        { unfold mbind at 1. unfold H_bind at 1. cbv beta in Hrun1 |- *.
          by rewrite Hrun1. }
        eauto using continues_trans.
      * destruct IH as (F' & Hrun & Hc). exists F'. split.
        { unfold mbind at 1. unfold H_bind at 1. cbv beta in Hrun1 |- *.
          by rewrite Hrun1. }
        eauto using continues_trans.
    + rewrite (keyspace_step_unmapped _ _ _ _ _ _ ks (VList acc) w Hm).
      exists (F ++ [OList []]). split; [|apply continues_app].
      pose proof (keyspace_step_store_unmapped ks F w
                    (SRef (length b + kC)) Hm) as Hrun1.
      unfold mbind at 1. unfold H_bind at 1. cbv beta in Hrun1 |- *.
      by rewrite Hrun1.
Qed.

Lemma build_keyspaces_config_refines okss F w :
  refines (old_or_new Pold b)
    (Store.build_keyspaces_config ports (SRef lc) okss pool pcluster zk region)
    (Value.build_keyspaces_config ports (Some tcs) okss tpool tpcluster zk
       region) b F w.
Proof.
  unfold refines, simulates.
  destruct okss as [kss|].
  - change (Value.build_keyspaces_config ports (Some tcs) (Some kss) tpool
              tpcluster zk region w)
      with (for_each kss (Value.keyspace_body ports (Some tcs) tpool tpcluster
                            zk region) (VList []) w).
    unfold Store.build_keyspaces_config. cbn [build mapM].
    assert ((F ++ [OList []]) !! length F = Some (OList [])) as HC.
    { rewrite lookup_app_r by done. by rewrite Nat.sub_diag. }
    pose proof (keyspaces_loop_store kss (F ++ [OList []]) [] w (length F) []
                  HC ltac:(constructor)) as Hloop.
    match type of Hloop with
    | match ?x with _ => _ end => destruct x as [[r|e] w']
    end.
    + destruct Hloop as (F' & items' & acc' & -> & Hrun & Hc & HC' & Hitems').
      apply continues_prefix in Hc as HF'; [|done].
      exists (SRef (length b + length F)), (drop (length F) F').
      rewrite <- HF'. split.
      * unfold mbind at 1. unfold H_bind at 1.
        unfold mbind at 1. unfold H_bind at 1. unfold mret at 1.
        unfold H_ret at 1. rewrite alloc_fr.
        unfold mbind at 1. unfold H_bind at 1. unfold lift at 1.
        cbn [iter_opt].
        unfold mbind at 1. unfold H_bind at 1. cbv beta in Hrun |- *.
        match goal with
        | |- context [for_in kss ?f ?s] => change (for_in kss f s) with
            (for_in kss (keyspace_body ports (SRef lc) pool pcluster zk region
                           (SRef (length b + length F))) s)
        end.
        by rewrite Hrun.
      * eapply reads_list; [by right; lia|by rewrite lookup_new|].
        eapply Forall2_impl; [exact Hitems'|]. intros v t Hvt.
        eapply reads_in_weaken; [|exact Hvt].
        intros l [Hl|Hl]; [by left|right; lia].
    + destruct Hloop as (F' & Hrun & Hc).
      apply continues_prefix in Hc as HF'; [|done].
      exists (drop (length F) F'). rewrite <- HF'.
      unfold mbind at 1. unfold H_bind at 1.
      unfold mbind at 1. unfold H_bind at 1. unfold mret at 1.
      unfold H_ret at 1. rewrite alloc_fr.
      unfold mbind at 1. unfold H_bind at 1. unfold lift at 1.
      cbn [iter_opt].
      unfold mbind at 1. unfold H_bind at 1. cbv beta in Hrun |- *.
      match goal with
      | |- context [for_in kss ?f ?s] => change (for_in kss f s) with
          (for_in kss (keyspace_body ports (SRef lc) pool pcluster zk region
                         (SRef (length b + length F))) s)
      end.
      by rewrite Hrun.
  - change (Value.build_keyspaces_config ports (Some tcs) None tpool
              tpcluster zk region w)
      with (@Raise value (TypeError "'NoneType' object is not iterable"), w).
    unfold Store.build_keyspaces_config. cbn [build mapM iter_opt].
    exists [OList []].
    unfold mbind at 1. unfold H_bind at 1.
    unfold mbind at 1. unfold H_bind at 1. unfold mret at 1.
    unfold H_ret at 1. by rewrite alloc_fr.
Qed.

(** The list of the cell configs. *)
Lemma cell_configs_refines F w :
  refines (old_or_new Pold b)
    (cs0 ← iter (SRef lc);
     configs ← mapM (λ cell, build_cell_config cell pool pcluster region) cs0;
     alloc (OList configs))
    (mret (VList (map (λ cell, cell_config cell tpool tpcluster region) tcs)))
    b F w.
Proof.
  eapply simulates_step; [by apply iter_old|].
  apply (simulates_ext _ _
    (ts ← mapM (λ cell, Value.lift
                  (Value.build_cell_config cell tpool tpcluster region)) tcs;
     mret (VList ts))).
  { unfold mbind, M_bind.
    by rewrite (mapM_lift_total _
      (λ cell, cell_config cell tpool tpcluster region)). }
  apply simulates_alloc_list; [by right|].
  apply simulates_mapM; [apply stable_reads|].
  eapply Forall2_impl; [exact Hcs|]. intros cell tcell Hcell F' w'.
  by apply build_cell_config_refines.
Qed.

End Keyspaces.


(** *** The synthesis as a simulation *)


Lemma found_bound b : intact b → ∀ l, found b l → l < length b.
Proof.
  intros Hb l [Hl|[_ Hl]]; [|done].
  apply flag_maps_imported in Hl. apply intact_length in Hb.
  unfold imported in Hl. lia.
Qed.

Lemma found_reachable b b' l :
  intact b' → old_or_new (found b) b' l → reachable l.
Proof.
  intros Hb [[Hl|[Hl _]]|Hl]; [by left|by right|right].
  apply intact_length in Hb. lia.
Qed.

Lemma input_reads_weaken (P Q : nat → Prop) h i d :
  (∀ l, P l → Q l) → input_reads P h i d → input_reads Q h i d.
Proof.
  intros HPQ [? ? ? ? ? ? ? ? ?].
  split; try done; by eapply reads_in_weaken.
Qed.

Lemma input_reads_app P h F i d :
  input_reads P h i d → input_reads P (h ++ F) i d.
Proof. intros [? ? ? ? ? ? ? ? ?]. split; try done; by apply reads_in_app. Qed.

Lemma module_VTTABLET_EXTRA_FLAGS :
  reads_in imported module_heap VTTABLET_EXTRA_FLAGS Value.VTTABLET_EXTRA_FLAGS.
Proof. apply (reify_sound 5). vm_compute. reflexivity. Qed.

Lemma intact_templates h : intact h → templates_unchanged h.
Proof.
  intros Hh. unfold templates_unchanged.
  pose proof flag_maps_imported as Hf.
  repeat split; apply (intact_reads _ _ _ _ Hh);
    eauto using module_VTCTLD_EXTRA_ENV, module_VTTABLET_EXTRA_ENV,
      module_VTGATE_EXTRA_ENV, module_VTTABLET_EXTRA_FLAGS, reads_in_weaken,
      module_VTADMIN_EXTRA_FLAGS, module_VTCTLD_EXTRA_FLAGS.
Qed.

Section Generate.

Context (ports : gmap string (gmap string Z)).
Context (Pold : nat → Prop) (b : list obj).
Context (i : InstanceObject) (d : InstanceDescription).
Hypothesis Hb : intact b.
Hypothesis Hold : ∀ l, Pold l → l < length b.
Hypothesis Hflags : ∀ l, flag_maps l → Pold l.
Hypothesis Hin : input_reads Pold b i d.

Lemma generate_no_cells F w :
  Value.cells d = None →
  refines (old_or_new Pold b)
    (Store.generate_vitess_instance_config ports i)
    (Value.generate_vitess_instance_config ports d) b F w.
Proof.
  intros Hc. unfold refines, simulates.
  unfold Value.generate_vitess_instance_config. rewrite Hc.
  cbn [iter_opt].
  pose proof (in_cells _ _ _ _ Hin) as Hcells. rewrite Hc in Hcells.
  apply reads_none_inv in Hcells.
  unfold Store.generate_vitess_instance_config. rewrite Hcells.
  change (∃ F1, build (instance_tree (cpus i) (mem i) (deploy_group i)
            (zk_address i)
            (cs ← iter SNone;
             configs ← mapM (λ cell, build_cell_config cell (paasta_pool i)
                                       (paasta_cluster i) (region i)) cs;
             alloc (OList configs))
            (build_vitess_dashboard_config SNone (paasta_pool i)
               (paasta_cluster i) (zk_address i))
            (build_vt_admin_config SNone (paasta_pool i) (paasta_cluster i))
            (build_keyspaces_config ports SNone (keyspaces i) (paasta_pool i)
               (paasta_cluster i) (zk_address i) (region i)))
          (fr b F w)
        = (Raise (TypeError "'NoneType' object is not iterable"),
           fr b (F ++ F1) w)).
  unfold fr. eexists.
  lazy -[app length build_vitess_dashboard_config build_vt_admin_config
         build_keyspaces_config].
  rewrite <- !app_assoc. reflexivity.
Qed.

Lemma generate_cells F w tcs :
  Value.cells d = Some tcs →
  refines (old_or_new Pold b)
    (Store.generate_vitess_instance_config ports i)
    (Value.generate_vitess_instance_config ports d) b F w.
Proof.
  intros Hc.
  destruct Hin as [Hcpus Hmem Hdg Hzk Hpool Hpc Hcells Hks Hrg].
  rewrite Hc in Hcells. cbn [list_field] in Hcells.
  destruct (reads_list_inv _ _ _ _ Hcells) as (lc & cs & Hlcv & Hlc & Hlook & Hcs).
  pose proof (cell_configs_refines Pold b _ _ _ _ (region i) lc cs tcs
                Hb Hold Hpool Hpc Hlook Hcs) as Hcc.
  pose proof (build_vitess_dashboard_config_refines Pold b _ _ _ _
                Hb Hold Hpool Hpc _ _ (zk_address i) Hflags Hcells) as Hdash.
  pose proof (build_vt_admin_config_refines Pold b _ _ _ _ _ _
                Hb Hold Hflags Hcells Hpool Hpc) as Hadm.
  pose proof (λ F w, build_keyspaces_config_refines ports Pold b _ _ _ _
                (zk_address i) (region i) lc cs tcs Hb Hold Hpool Hpc Hlook
                Hcs (keyspaces i) F w) as Hkc.
  rewrite <- Hlcv in Hcc, Hkc.
  eapply simulates_ext; cycle 1.
  - unfold Store.generate_vitess_instance_config, instance_tree. refines_go.
  - rewrite Hzk, Hks, Hrg.
    unfold Value.generate_vitess_instance_config.
    rewrite Hc. cbn [iter_opt list_field].
    unfold mbind at 1. unfold M_bind at 1. unfold Value.lift at 1.
    unfold mbind at 1. unfold result_bind at 1.
    rewrite mapM_cell_config.
    unfold mbind at 1. unfold M_bind at 1. unfold Value.lift at 1.
    rewrite build_vitess_dashboard_config_total.
    unfold mbind at 1. unfold M_bind at 1.
    set (K := Value.build_keyspaces_config _ _ _ _ _ _ _). clearbody K.
    lazy -[cell_config map Value.build_vt_admin_config of_optv Value.of_opt].
    destruct (K w) as [[ks|e] w']; reflexivity.
Qed.

(** The synthesis on the store does what the synthesis by value does: the
    same exception, or a result that stands for the same tree, and every
    object of the heap it found is left as it was. *)
Lemma generate_vitess_instance_config_refines F w :
  refines (old_or_new Pold b)
    (Store.generate_vitess_instance_config ports i)
    (Value.generate_vitess_instance_config ports d) b F w.
Proof.
  destruct (Value.cells d) as [tcs|] eqn:Hc.
  - by eapply generate_cells.
  - by apply generate_no_cells.
Qed.

End Generate.


End StoreFacts.

(** * The claims of the specification *)

(** C1 (as amended) -- Fan-out completeness.  When every keyspace's source
    cluster has an entry in the port mappings, [build_keyspaces_config]
    returns one entry per keyspace, and for each keyspace and each role of
    [TABLET_TYPES] the entry holds, named for that (keyspace, role) pair,
    exactly one pool per cell, in the order of the cells, when the cluster's
    mapping contains the role, and none when it does not.  When the cluster
    of some keyspace has no entry in the port mappings, the call raises
    [KeyError] for the first such cluster and produces no pool at all. *)
Theorem C1_fan_out_complete (ports : gmap string (gmap string Z))
    (cs : list value) (kss : list KeyspaceDescriptor)
    (pool pcluster : value) (zk region : option string) (w : world) :
  (Forall (mapped ports) kss →
   ∃ configs w',
     build_keyspaces_config ports (Some cs) (Some kss) pool pcluster zk region w
     = (Ok (VList configs), w')
     ∧ length configs = length kss
     ∧ ∀ (i : nat) ks m tablet_type,
         kss !! i = Some ks →
         ports !! ks_cluster ks = Some m →
         tablet_type ∈ TABLET_TYPES →
         ∃ entry pools,
           configs !! i = Some entry
           ∧ tablet_pools_of entry = Some pools
           ∧ length (List.filter (pool_is (ks_keyspace ks) tablet_type) pools)
             = (if decide (is_Some (m !! tablet_type)) then length cs
                else 0%nat)
           ∧ map (λ p, field p "cell")
               (List.filter (pool_is (ks_keyspace ks) tablet_type) pools)
             = (if decide (is_Some (m !! tablet_type)) then map Some cs
                else []))
  ∧ (∀ pre ks post,
       kss = (pre ++ ks :: post)%list →
       Forall (mapped ports) pre →
       ports !! ks_cluster ks = None →
       build_keyspaces_config ports (Some cs) (Some kss) pool pcluster zk
         region w
       = (Raise (KeyError (ks_cluster ks)),
          World (queries w + length pre + 1)%nat)).
Proof.
  split.
  - intros Hall. eexists _, _. split; [by apply build_keyspaces_config_ok|].
    split; [by rewrite length_map|].
    intros i ks m tablet_type Hi Hm Hin.
    eexists _, _. split; [by rewrite list_lookup_fmap, Hi|].
    split; [apply tablet_pools_of_keyspace_config|].
    rewrite Hm. cbn [default from_option id].
    assert (List.filter (pool_is (ks_keyspace ks) tablet_type)
              (keyspace_pools cs pool pcluster zk region ks m)
            = role_pools cs pool pcluster zk region ks m tablet_type) as ->.
    { unfold keyspace_pools, TABLET_TYPES. cbn [map concat].
      rewrite !List.filter_app, !filter_role_pools. rewrite app_nil_r.
      unfold TABLET_TYPES in Hin.
      apply elem_of_cons in Hin as [->|Hin];
        [|apply elem_of_cons in Hin as [->|Hin]; [|by apply elem_of_nil in Hin]].
      - cbn [String.eqb Ascii.eqb Bool.eqb]. cbn. by rewrite app_nil_r.
      - cbn. reflexivity. }
    split; [apply length_role_pools|apply cells_role_pools].
  - intros pre ks post -> Hpre Hks.
    by apply build_keyspaces_config_unmapped.
Qed.

Lemma C1_fan_out_complete_witness :
  ∃ configs w',
    build_keyspaces_config {[ "main1" := {[ "primary" := 3306%Z ]} ]}
      (Some [VStr "cellA"; VStr "cellB"])
      (Some [{| ks_keyspace := "orders"; ks_cluster := "main1" |}])
      (VStr "default") (VStr "norcal-devc") (Some "zk:2181")
      (Some "uswest1-devc") (World 0)
    = (Ok (VList configs), w')
    ∧ length configs = 1%nat.
Proof.
  destruct (C1_fan_out_complete
    {[ "main1" := {[ "primary" := 3306%Z ]} ]}
    [VStr "cellA"; VStr "cellB"]
    [{| ks_keyspace := "orders"; ks_cluster := "main1" |}]
    (VStr "default") (VStr "norcal-devc") (Some "zk:2181")
    (Some "uswest1-devc") (World 0)) as [Hmapped _].
  destruct Hmapped as (configs & w' & H1 & H2 & _).
  - repeat constructor. unfold mapped. cbn. by eexists.
  - by exists configs, w'.
Defined.

(** C1, as stated, fails: the mapping of the cluster [main1] of the keyspace
    [orders] contains the role [primary], yet no pool is produced for that
    pair, because the cluster [main2] of the next keyspace has no entry in
    the port mappings and the call raises. *)
Lemma C1_counterexample :
  (({[ "main1" := {[ "primary" := 3306%Z ]} ]} : gmap string (gmap string Z))
     !! "main1" ≫= (.!! "primary")) = Some 3306%Z
  ∧ build_keyspaces_config {[ "main1" := {[ "primary" := 3306%Z ]} ]}
      (Some [VStr "cellA"])
      (Some [{| ks_keyspace := "orders"; ks_cluster := "main1" |};
             {| ks_keyspace := "billing"; ks_cluster := "main2" |}])
      (VStr "default") (VStr "norcal-devc") (Some "zk:2181")
      (Some "uswest1-devc") (World 0)
    = (Raise (KeyError "main2"), World 2).
Proof. split; vm_compute; reflexivity. Qed.

(** C2 -- Threshold correctness.  For every cluster name, the role
    [migration] gets the throttle source [migration_replication_delay] and
    the threshold 7200; the role [primary] gets the source
    [read_replication_delay], and the threshold 30 when the cluster name
    starts with [refresh] or [sanitized], 3 for any other cluster name.  The
    code names the sources by the identifiers of their tables and writes the
    thresholds as decimal strings. *)
Theorem C2_throttle_policy (cluster : string) :
  throttle_policy "migration" cluster = ("migration_replication_delay", "7200")
  ∧ throttle_policy "primary" cluster
    = ("read_replication_delay",
       if String.prefix "refresh" cluster || String.prefix "sanitized" cluster
       then "30" else "3").
Proof. split; reflexivity. Qed.

(** C3 -- Naming rule.  For every database name and tablet type,
    [build_tablet_pool_config] returns a spec whose [name] is
    [{db_name}_{tablet_type}] and whose [type] is [externalmaster] when the
    tablet type is [primary] and [externalreplica] for any other one. *)
Theorem C3_naming_rule (cell : value) (db_name keyspace : string) (port : Z)
    (pool pcluster : value) (zk : option string)
    (table threshold tablet_type : string) (region : option string) :
  ∃ config,
    build_tablet_pool_config cell db_name keyspace port pool pcluster zk table
      threshold tablet_type region = Ok config
    ∧ field config "name" = Some (VStr (db_name +:+ "_" +:+ tablet_type))
    ∧ field config "type"
      = Some (VStr (if String.eqb tablet_type "primary" then "externalmaster"
                    else "externalreplica")).
Proof. eexists. split; [apply build_tablet_pool_config_total|]. split; reflexivity. Qed.

(** C10 -- Pod label.  The [extraLabels] of every spec returned by
    [build_tablet_pool_config] has the key [tablet_type], and its value is
    the spec's own [name], [{db_name}_{tablet_type}]. *)
Theorem C10_tablet_type_label (cell : value) (db_name keyspace : string)
    (port : Z) (pool pcluster : value) (zk : option string)
    (table threshold tablet_type : string) (region : option string) :
  ∃ config,
    build_tablet_pool_config cell db_name keyspace port pool pcluster zk table
      threshold tablet_type region = Ok config
    ∧ get_path config ["extraLabels"; "tablet_type"] = field config "name"
    ∧ field config "name" = Some (VStr (db_name +:+ "_" +:+ tablet_type)).
Proof. eexists. split; [apply build_tablet_pool_config_total|]. split; reflexivity. Qed.

(** C5, as stated, fails: for the role [reporting], outside
    [TABLET_TYPES], [build_tablet_pool_config] raises nothing and returns a
    spec (of type [externalreplica]). *)
Lemma C5_counterexample :
  ("reporting" ∉ TABLET_TYPES)
  ∧ ∃ config,
      build_tablet_pool_config (VStr "cellA") "orders" "orders" 3306
        (VStr "default") (VStr "norcal-devc") (Some "zk:2181")
        "read_replication_delay" "3" "reporting" (Some "uswest1-devc")
      = Ok config
      ∧ field config "name" = Some (VStr "orders_reporting")
      ∧ field config "type" = Some (VStr "externalreplica").
Proof.
  split.
  - unfold TABLET_TYPES. intros H. repeat (apply elem_of_cons in H as [H|H]; [discriminate|]).
    by apply elem_of_nil in H.
  - eexists. split; [apply build_tablet_pool_config_total|]. split; reflexivity.
Qed.

(** C5 (as amended) -- Unrecognized role.  No error is raised for a role
    outside [TABLET_TYPES]: [build_tablet_pool_config] returns for it a spec
    named [{db_name}_{tablet_type}] of type [externalreplica]; and
    [build_keyspaces_config] only ever builds pools for the roles of
    [TABLET_TYPES], whatever other roles the port mappings list. *)
Theorem C5_unrecognized_role (ports : gmap string (gmap string Z))
    (cs : list value) (kss : list KeyspaceDescriptor) (cell : value)
    (db_name keyspace : string) (port : Z) (pool pcluster : value)
    (zk : option string) (table threshold tablet_type : string)
    (region : option string) (w : world) :
  tablet_type ∉ TABLET_TYPES →
  Forall (mapped ports) kss →
  (∃ config,
     build_tablet_pool_config cell db_name keyspace port pool pcluster zk
       table threshold tablet_type region = Ok config
     ∧ field config "name" = Some (VStr (db_name +:+ "_" +:+ tablet_type))
     ∧ field config "type" = Some (VStr "externalreplica"))
  ∧ ∃ configs w',
      build_keyspaces_config ports (Some cs) (Some kss) pool pcluster zk
        region w = (Ok (VList configs), w')
      ∧ ∀ (i : nat) ks, kss !! i = Some ks →
          ∃ entry pools,
            configs !! i = Some entry
            ∧ tablet_pools_of entry = Some pools
            ∧ List.filter (pool_is (ks_keyspace ks) tablet_type) pools = [].
Proof.
  intros Hout Hall. split.
  - eexists. split; [apply build_tablet_pool_config_total|].
    split; [reflexivity|]. rewrite tablet_pool_type.
    destruct (String.eqb_spec tablet_type "primary") as [->|]; [|done].
    exfalso. apply Hout. unfold TABLET_TYPES. apply elem_of_cons. by left.
  - eexists _, _. split; [by apply build_keyspaces_config_ok|].
    intros i ks Hi. eexists _, _.
    split; [by rewrite list_lookup_fmap, Hi|].
    split; [apply tablet_pools_of_keyspace_config|].
    unfold keyspace_pools, TABLET_TYPES. cbn [map concat].
    rewrite !List.filter_app, !filter_role_pools.
    assert (String.eqb "primary" tablet_type = false) as ->.
    { apply String.eqb_neq. intros <-. apply Hout.
      unfold TABLET_TYPES. apply elem_of_cons. by left. }
    assert (String.eqb "migration" tablet_type = false) as ->.
    { apply String.eqb_neq. intros <-. apply Hout.
      unfold TABLET_TYPES. apply elem_of_cons. right. apply elem_of_cons. by left. }
    reflexivity.
Qed.

Lemma C5_unrecognized_role_witness :
  ∃ config,
    build_tablet_pool_config (VStr "cellA") "orders" "orders" 3306
      (VStr "default") (VStr "norcal-devc") (Some "zk:2181")
      "read_replication_delay" "3" "reporting" (Some "uswest1-devc")
    = Ok config
    ∧ field config "type" = Some (VStr "externalreplica").
Proof.
  destruct (C5_unrecognized_role
    {[ "main1" := {[ "primary" := 3306%Z; "reporting" := 3307%Z ]} ]}
    [VStr "cellA"]
    [{| ks_keyspace := "orders"; ks_cluster := "main1" |}]
    (VStr "cellA") "orders" "orders" 3306
    (VStr "default") (VStr "norcal-devc") (Some "zk:2181")
    "read_replication_delay" "3" "reporting" (Some "uswest1-devc") (World 0))
    as [(config & H1 & _ & H3) _].
  - unfold TABLET_TYPES. intros H.
    repeat (apply elem_of_cons in H as [H|H]; [discriminate|]).
    by apply elem_of_nil in H.
  - repeat constructor. unfold mapped. cbn. by eexists.
  - by exists config.
Defined.

(** C6 -- Result ordering.  [build_keyspaces_config] returns the keyspace
    entries in the input order of the keyspaces, and inside each entry the
    pools come by role in the order of [TABLET_TYPES] (primary, then
    migration), and for one role by cell in the input order of the cells;
    nothing is sorted.  The result is a function of the input. *)
Theorem C6_result_ordering (ports : gmap string (gmap string Z))
    (cs : list value) (kss : list KeyspaceDescriptor)
    (pool pcluster : value) (zk region : option string) (w : world) :
  Forall (mapped ports) kss →
  ∃ configs w',
    build_keyspaces_config ports (Some cs) (Some kss) pool pcluster zk region w
    = (Ok (VList configs), w')
    ∧ map (λ entry, field entry "name") configs
      = map (λ ks, Some (VStr (ks_keyspace ks))) kss
    ∧ ∀ (i : nat) ks m,
        kss !! i = Some ks →
        ports !! ks_cluster ks = Some m →
        ∃ entry pools,
          configs !! i = Some entry
          ∧ tablet_pools_of entry = Some pools
          ∧ map pool_key pools = spec_pool_order cs (ks_keyspace ks) m.
Proof.
  intros Hall. eexists _, _. split; [by apply build_keyspaces_config_ok|].
  split.
  - rewrite map_map. reflexivity.
  - intros i ks m Hi Hm. eexists _, _.
    split; [by rewrite list_lookup_fmap, Hi|].
    split; [apply tablet_pools_of_keyspace_config|].
    rewrite Hm. cbn [default]. unfold keyspace_pools, spec_pool_order, TABLET_TYPES.
    cbn [map concat mbind list_bind]. rewrite !map_app, !pool_key_role_pools.
    reflexivity.
Qed.

Lemma C6_result_ordering_witness :
  ∃ configs w',
    build_keyspaces_config
      {[ "main1" := {[ "primary" := 3306%Z; "migration" := 3307%Z ]} ]}
      (Some [VStr "cellB"; VStr "cellA"])
      (Some [{| ks_keyspace := "orders"; ks_cluster := "main1" |};
             {| ks_keyspace := "billing"; ks_cluster := "main1" |}])
      (VStr "default") (VStr "norcal-devc") (Some "zk:2181")
      (Some "uswest1-devc") (World 0)
    = (Ok (VList configs), w')
    ∧ map (λ entry, field entry "name") configs
      = [Some (VStr "orders"); Some (VStr "billing")].
Proof.
  destruct (C6_result_ordering
    {[ "main1" := {[ "primary" := 3306%Z; "migration" := 3307%Z ]} ]}
    [VStr "cellB"; VStr "cellA"]
    [{| ks_keyspace := "orders"; ks_cluster := "main1" |};
     {| ks_keyspace := "billing"; ks_cluster := "main1" |}]
    (VStr "default") (VStr "norcal-devc") (Some "zk:2181")
    (Some "uswest1-devc") (World 0)) as (configs & w' & H1 & H2 & _).
  - repeat constructor; unfold mapped; cbn; by eexists.
  - by exists configs, w'.
Defined.

(** C7 -- End-to-end scenario.  For [cells = ["cellA"]], the single keyspace
    [orders] on cluster [main1], region [uswest1-devc] and port mappings that
    give [main1] a port for [primary] and none for [migration], the
    synthesized tree has one keyspace entry, [orders], with exactly one tablet
    pool: the one of cell [cellA] and role [primary], with throttle threshold
    [3] and the [VAULT_ADDR] entry
    [https://vault-dre.uswest1-devc.yelpcorp.com:8200]. *)
Theorem C7_end_to_end (ports : gmap string (gmap string Z))
    (m : gmap string Z) (port : Z) (d : InstanceDescription) (w : world) :
  cells d = Some [VStr "cellA"] →
  keyspaces d = Some [{| ks_keyspace := "orders"; ks_cluster := "main1" |}] →
  region d = Some "uswest1-devc" →
  ports !! "main1" = Some m →
  m !! "primary" = Some port →
  m !! "migration" = None →
  ∃ tree w' entry pool envs,
    generate_vitess_instance_config ports d w = (Ok tree, w')
    ∧ field tree "keyspaces" = Some (VList [entry])
    ∧ field entry "name" = Some (VStr "orders")
    ∧ tablet_pools_of entry = Some [pool]
    ∧ field pool "cell" = Some (VStr "cellA")
    ∧ field pool "name" = Some (VStr "orders_primary")
    ∧ field pool "type" = Some (VStr "externalmaster")
    ∧ get_path pool ["vttablet"; "extraFlags"; "throttle_metrics_threshold"]
      = Some (VStr "3")
    ∧ field pool "extraEnv" = Some (VList envs)
    ∧ env_lookup envs "VAULT_ADDR"
      = Some (VStr "https://vault-dre.uswest1-devc.yelpcorp.com:8200").
Proof.
  intros Hc Hk Hr Hm Hp Hmig.
  eexists _, _, _, _, _. split.
  { apply generate_vitess_instance_config_ok; [exact Hc|exact Hk|].
    repeat constructor. unfold mapped. cbn. rewrite Hm. by eexists. }
  unfold instance_config_tree. cbn [map].
  split; [reflexivity|]. split; [reflexivity|].
  split.
  { rewrite tablet_pools_of_keyspace_config. cbn [ks_cluster].
    rewrite Hm. cbn [default from_option id]. unfold keyspace_pools, TABLET_TYPES.
    cbn [map concat]. unfold role_pools. rewrite Hp, Hmig. cbn [map app]. reflexivity. }
  rewrite Hr.
  split; [reflexivity|]. split; [reflexivity|]. split; [reflexivity|].
  split; [reflexivity|]. split; reflexivity.
Qed.

Lemma C7_end_to_end_witness :
  ∃ tree w',
    generate_vitess_instance_config
      {[ "main1" := {[ "primary" := 3306%Z ]} ]}
      {| cpus := Some (VFloat 1 (-1)); mem := Some (VInt 256);
         deploy_group := Some (VStr "prod.everything");
         zk_address := Some "zk:2181"; paasta_pool := Some (VStr "default");
         paasta_cluster := Some (VStr "norcal-devc");
         cells := Some [VStr "cellA"];
         keyspaces := Some [{| ks_keyspace := "orders"; ks_cluster := "main1" |}];
         region := Some "uswest1-devc" |} (World 0)
    = (Ok tree, w').
Proof.
  destruct (C7_end_to_end
    {[ "main1" := {[ "primary" := 3306%Z ]} ]} {[ "primary" := 3306%Z ]} 3306
    {| cpus := Some (VFloat 1 (-1)); mem := Some (VInt 256);
       deploy_group := Some (VStr "prod.everything");
       zk_address := Some "zk:2181"; paasta_pool := Some (VStr "default");
       paasta_cluster := Some (VStr "norcal-devc");
       cells := Some [VStr "cellA"];
       keyspaces := Some [{| ks_keyspace := "orders"; ks_cluster := "main1" |}];
       region := Some "uswest1-devc" |} (World 0))
    as (tree & w' & _ & _ & _ & H & _); try reflexivity.
  by exists tree, w'.
Defined.

(** C9, as stated, fails: with two keyspaces the port-mapping collaborator
    is queried twice in one synthesis call, and with none it is not queried
    at all. *)
Lemma C9_counterexample :
  queries (generate_vitess_instance_config
    {[ "main1" := {[ "primary" := 3306%Z ]} ]}
    {| cpus := Some (VFloat 1 (-1)); mem := Some (VInt 256);
       deploy_group := Some (VStr "prod.everything");
       zk_address := Some "zk:2181"; paasta_pool := Some (VStr "default");
       paasta_cluster := Some (VStr "norcal-devc");
       cells := Some [VStr "cellA"];
       keyspaces := Some [{| ks_keyspace := "orders"; ks_cluster := "main1" |};
                          {| ks_keyspace := "billing"; ks_cluster := "main1" |}];
       region := Some "uswest1-devc" |} (World 0)).2 = 2%nat
  ∧ queries (generate_vitess_instance_config
    {[ "main1" := {[ "primary" := 3306%Z ]} ]}
    {| cpus := Some (VFloat 1 (-1)); mem := Some (VInt 256);
       deploy_group := Some (VStr "prod.everything");
       zk_address := Some "zk:2181"; paasta_pool := Some (VStr "default");
       paasta_cluster := Some (VStr "norcal-devc");
       cells := Some [VStr "cellA"];
       keyspaces := Some [];
       region := Some "uswest1-devc" |} (World 0)).2 = 0%nat.
Proof. split; vm_compute; reflexivity. Qed.

(** C9 (as amended) -- Port-mapping queries.  A synthesis call that returns
    queries the port-mapping collaborator once per keyspace of the instance
    description: [length keyspaces] times. *)
Theorem C9_queries_per_keyspace (ports : gmap string (gmap string Z))
    (d : InstanceDescription) (kss : list KeyspaceDescriptor)
    (w w' : world) (tree : value) :
  keyspaces d = Some kss →
  generate_vitess_instance_config ports d w = (Ok tree, w') →
  queries w' = (queries w + length kss)%nat.
Proof.
  intros Hk H.
  destruct (generate_vitess_instance_config_inv _ _ _ _ _ H)
    as (cs & kss' & Hc & Hk' & Hall).
  rewrite (generate_vitess_instance_config_ok _ _ _ _ _ Hc Hk' Hall) in H.
  injection H as _ <-. cbn. congruence.
Qed.

Lemma C9_queries_per_keyspace_witness :
  ∃ tree,
    generate_vitess_instance_config
      {[ "main1" := {[ "primary" := 3306%Z ]} ]}
      {| cpus := Some (VFloat 1 (-1)); mem := Some (VInt 256);
         deploy_group := Some (VStr "prod.everything");
         zk_address := Some "zk:2181"; paasta_pool := Some (VStr "default");
         paasta_cluster := Some (VStr "norcal-devc");
         cells := Some [VStr "cellA"];
         keyspaces := Some [{| ks_keyspace := "orders"; ks_cluster := "main1" |};
                            {| ks_keyspace := "billing"; ks_cluster := "main1" |}];
         region := Some "uswest1-devc" |} (World 5)
    = (Ok tree, World 7)
    ∧ queries (World 7) = (queries (World 5) + 2)%nat.
Proof.
  eexists. split; [vm_compute; reflexivity|].
  eapply (C9_queries_per_keyspace
    {[ "main1" := {[ "primary" := 3306%Z ]} ]}
    {| cpus := Some (VFloat 1 (-1)); mem := Some (VInt 256);
       deploy_group := Some (VStr "prod.everything");
       zk_address := Some "zk:2181"; paasta_pool := Some (VStr "default");
       paasta_cluster := Some (VStr "norcal-devc");
       cells := Some [VStr "cellA"];
       keyspaces := Some [{| ks_keyspace := "orders"; ks_cluster := "main1" |};
                          {| ks_keyspace := "billing"; ks_cluster := "main1" |}];
       region := Some "uswest1-devc" |}
    [{| ks_keyspace := "orders"; ks_cluster := "main1" |};
     {| ks_keyspace := "billing"; ks_cluster := "main1" |}]
    (World 5) (World 7)); [reflexivity|vm_compute; reflexivity].
Defined.


(** C4, as stated, fails for [cells] and for [keyspaces]: when one of them is
    absent the field reads as [None], and iterating over it raises
    [TypeError]; no tree is returned. *)
Lemma C4_counterexample :
  generate_vitess_instance_config
    {[ "main1" := {[ "primary" := 3306%Z ]} ]}
    {| cpus := Some (VFloat 1 (-1)); mem := Some (VInt 256);
       deploy_group := Some (VStr "prod.everything");
       zk_address := Some "zk:2181"; paasta_pool := Some (VStr "default");
       paasta_cluster := Some (VStr "norcal-devc");
       cells := None;
       keyspaces := Some [{| ks_keyspace := "orders"; ks_cluster := "main1" |}];
       region := Some "uswest1-devc" |} (World 0)
  = (Raise (TypeError "'NoneType' object is not iterable"), World 0)
  ∧ generate_vitess_instance_config
    {[ "main1" := {[ "primary" := 3306%Z ]} ]}
    {| cpus := Some (VFloat 1 (-1)); mem := Some (VInt 256);
       deploy_group := Some (VStr "prod.everything");
       zk_address := Some "zk:2181"; paasta_pool := Some (VStr "default");
       paasta_cluster := Some (VStr "norcal-devc");
       cells := Some [VStr "cellA"];
       keyspaces := None;
       region := Some "uswest1-devc" |} (World 0)
  = (Raise (TypeError "'NoneType' object is not iterable"), World 0).
Proof. split; vm_compute; reflexivity. Qed.

(** C4 (as amended) -- Missing input fields.  When the description has its
    [cells] and its [keyspaces] (and the clusters of the keyspaces are
    mapped), [generate_vitess_instance_config] returns a tree whatever of
    [cpus], [mem], [deploy_group], [zk_address], [paasta_pool],
    [paasta_cluster] and [region] is absent; an absent field is [None] where
    the tree holds its value, and the text [None] where it is formatted into
    a string. *)
Theorem C4_missing_scalar_fields (ports : gmap string (gmap string Z))
    (d : InstanceDescription) (cs : list value)
    (kss : list KeyspaceDescriptor) (w : world) :
  cells d = Some cs →
  keyspaces d = Some kss →
  Forall (mapped ports) kss →
  ∃ tree w' cell_configs,
    generate_vitess_instance_config ports d w = (Ok tree, w')
    ∧ field tree "cpus" = Some (of_optv (cpus d))
    ∧ field tree "mem" = Some (of_optv (mem d))
    ∧ field tree "deploy_group" = Some (of_optv (deploy_group d))
    ∧ get_path tree ["globalLockserver"; "external"; "address"]
      = Some (of_opt (zk_address d))
    ∧ get_path tree ["vtadmin"; "extraLabels"; "paasta.yelp.com/pool"]
      = Some (of_optv (paasta_pool d))
    ∧ get_path tree ["vtadmin"; "extraLabels"; "paasta.yelp.com/cluster"]
      = Some (of_optv (paasta_cluster d))
    ∧ field tree "cells" = Some (VList cell_configs)
    ∧ length cell_configs = length cs
    ∧ Forall (λ c,
        get_path c ["gateway"; "extraFlags"; "mysql_auth_vault_addr"]
        = Some (VStr ("https://vault-dre." +:+ fmt (region d)
                      +:+ ".yelpcorp.com:8200"))) cell_configs.
Proof.
  intros Hc Hk Hall. eexists _, _, _.
  split; [by apply generate_vitess_instance_config_ok|].
  repeat (split; [reflexivity|]).
  split; [by rewrite length_map|].
  apply Forall_forall. intros c Hin. apply list_elem_of_fmap in Hin as (cell & -> & _).
  apply cell_config_vault_addr.
Qed.

Lemma C4_missing_scalar_fields_witness :
  ∃ tree w',
    generate_vitess_instance_config ∅
      {| cpus := None; mem := None; deploy_group := None; zk_address := None;
         paasta_pool := None; paasta_cluster := None;
         cells := Some [VStr "cellA"]; keyspaces := Some [];
         region := None |} (World 0)
    = (Ok tree, w')
    ∧ field tree "cpus" = Some VNone
    ∧ get_path tree ["globalLockserver"; "external"; "address"] = Some VNone.
Proof.
  destruct (C4_missing_scalar_fields ∅
    {| cpus := None; mem := None; deploy_group := None; zk_address := None;
       paasta_pool := None; paasta_cluster := None;
       cells := Some [VStr "cellA"]; keyspaces := Some [];
       region := None |} [VStr "cellA"] [] (World 0))
    as (tree & w' & ccs & H1 & H2 & _ & _ & H5 & _);
    [reflexivity|reflexivity|constructor|].
  by exists tree, w'.
Defined.

(** * Further properties of the synthesis *)

(** ** On the store *)

(** X1 -- Two calls of [generate_vitess_instance_config] on one store.  The first
    one leaves every object it found as it was, so the six template constants
    still read as the module defines them.  The second one then returns, or
    raises, what its own description determines by value; the tree it
    returns is made of objects it allocated itself, of the objects of its
    input and of the two flag maps handed on as they are, and of no object
    of the template environment lists nor of the first call's result. *)
Theorem template_isolation (ports : gmap string (gmap string Z))
    (s : Store.store) (i1 i2 : Store.InstanceObject)
    (d1 d2 : InstanceDescription) :
  Store.intact (Store.heap s) →
  Store.input_reads (Store.since_import (length (Store.heap s)))
    (Store.heap s) i1 d1 →
  Store.input_reads (Store.since_import (length (Store.heap s)))
    (Store.heap s) i2 d2 →
  ∃ r1 F1 w1,
    Store.generate_vitess_instance_config ports i1 s
    = (r1, Store.fr (Store.heap s) F1 w1)
    ∧ Store.templates_unchanged (Store.heap s ++ F1)
    ∧ match (generate_vitess_instance_config ports d2 (Store.env s)).1 with
      | Ok t =>
          ∃ v F2 w2,
            Store.generate_vitess_instance_config ports i2
              (Store.fr (Store.heap s) F1 w1)
            = (Ok v, Store.fr (Store.heap s) (F1 ++ F2) w2)
            ∧ Store.reads_in
                (Store.old_or_new (Store.found (Store.heap s))
                   (Store.heap s ++ F1))
                (Store.heap s ++ F1 ++ F2) v t
            ∧ Store.reads_in Store.reachable (Store.heap s ++ F1 ++ F2) v t
            ∧ Store.templates_unchanged (Store.heap s ++ F1 ++ F2)
      | Raise e =>
          ∃ F2 w2,
            Store.generate_vitess_instance_config ports i2
              (Store.fr (Store.heap s) F1 w1)
            = (Raise e, Store.fr (Store.heap s) (F1 ++ F2) w2)
            ∧ Store.templates_unchanged (Store.heap s ++ F1 ++ F2)
      end.
Proof.
  destruct s as [b w]. cbn [Store.heap Store.env].
  intros Hb Hin1 Hin2.
  pose proof (StoreFacts.found_bound b Hb) as Hold.
  assert (∀ l, Store.flag_maps l → Store.found b l) as Hflags by (by left).
  assert (∀ l, Store.since_import (length b) l → Store.found b l) as Hsince
    by (by right).
  apply (StoreFacts.input_reads_weaken _ _ _ _ _ Hsince) in Hin1, Hin2.
  (* the first call *)
  pose proof (StoreFacts.generate_vitess_instance_config_refines ports (Store.found b) b
                i1 d1 Hb Hold Hflags Hin1 [] w) as H1.
  unfold Store.refines, Store.simulates in H1.
  assert (∃ r1 F1 w1,
    Store.generate_vitess_instance_config ports i1 (Store.fr b [] w)
    = (r1, Store.fr b F1 w1)) as (r1 & F1 & w1 & Hrun1).
  { destruct (generate_vitess_instance_config ports d1 w) as [[t|e] w1].
    - destruct H1 as (v & F1 & Hrun & _). eauto.
    - destruct H1 as (F1 & Hrun). eauto. }
  exists r1, F1, w1.
  assert (Store.fr b [] w = {| Store.heap := b; Store.env := w |}) as Hfr
    by (unfold Store.fr; by rewrite app_nil_r).
  rewrite Hfr in Hrun1. split; [exact Hrun1|].
  split; [by apply StoreFacts.intact_templates, StoreFacts.intact_app|].
  (* the second call, on the heap the first one left *)
  assert (Store.intact (b ++ F1)) as Hb1 by (by apply StoreFacts.intact_app).
  assert (∀ l, Store.found b l → l < length (b ++ F1)) as Hold1.
  { intros l Hl. apply Hold in Hl. rewrite length_app. lia. }
  pose proof (StoreFacts.generate_vitess_instance_config_refines ports (Store.found b)
                (b ++ F1) i2 d2 Hb1 Hold1 Hflags
                (StoreFacts.input_reads_app _ _ _ _ _ Hin2) [] w1) as H2.
  unfold Store.refines, Store.simulates in H2.
  rewrite (steady_generate_vitess_instance_config ports d2 w w1).
  assert (∀ F2 w2, Store.fr (b ++ F1) ([] ++ F2) w2
                   = Store.fr b (F1 ++ F2) w2) as Hfr2.
  { intros F2 w2. unfold Store.fr. cbn [app]. by rewrite <- app_assoc. }
  assert (Store.fr (b ++ F1) [] w1 = Store.fr b F1 w1) as Hfr1
    by (unfold Store.fr; by rewrite app_nil_r).
  rewrite Hfr1 in H2.
  destruct (generate_vitess_instance_config ports d2 w1) as [[t|e] w2];
    cbn [fst].
  - destruct H2 as (v & F2 & Hrun2 & Hreads). rewrite Hfr2 in Hrun2.
    cbn [app] in Hreads. rewrite <- app_assoc in Hreads.
    exists v, F2, w2. split; [exact Hrun2|]. split; [exact Hreads|]. split.
    + eapply StoreFacts.reads_in_weaken; [|exact Hreads].
      intros l. by apply StoreFacts.found_reachable.
    + rewrite app_assoc. by apply StoreFacts.intact_templates, StoreFacts.intact_app.
  - destruct H2 as (F2 & Hrun2). rewrite Hfr2 in Hrun2.
    exists F2, w2. split; [exact Hrun2|].
    rewrite app_assoc. by apply StoreFacts.intact_templates, StoreFacts.intact_app.
Qed.

Lemma template_isolation_witness :
  ∃ r1 F1 w1,
    Store.generate_vitess_instance_config Store.two_calls_ports
      (Store.two_calls_instance "uswest1-devc") Store.two_calls_store
    = (r1, Store.fr (Store.heap Store.two_calls_store) F1 w1)
    ∧ Store.templates_unchanged (Store.heap Store.two_calls_store ++ F1)
    ∧ ∃ v F2 w2,
        Store.generate_vitess_instance_config Store.two_calls_ports
          (Store.two_calls_instance "useast1-prod")
          (Store.fr (Store.heap Store.two_calls_store) F1 w1)
        = (Ok v, Store.fr (Store.heap Store.two_calls_store) (F1 ++ F2) w2)
        ∧ Store.reads_in Store.reachable
            (Store.heap Store.two_calls_store ++ F1 ++ F2) v
            (Store.two_calls_tree "useast1-prod")
        ∧ Store.templates_unchanged
            (Store.heap Store.two_calls_store ++ F1 ++ F2).
Proof.
  destruct (template_isolation Store.two_calls_ports Store.two_calls_store
    (Store.two_calls_instance "uswest1-devc")
    (Store.two_calls_instance "useast1-prod")
    (Store.two_calls_description "uswest1-devc")
    (Store.two_calls_description "useast1-prod"))
    as (r1 & F1 & w1 & H1 & H2 & H3).
  - exists [Store.OList [Store.SStr "cellA"]]. reflexivity.
  - split; try reflexivity; try (by constructor).
    eapply Store.reads_list with (items := [Store.SStr "cellA"]);
      [vm_compute; lia|reflexivity|repeat constructor].
  - split; try reflexivity; try (by constructor).
    eapply Store.reads_list with (items := [Store.SStr "cellA"]);
      [vm_compute; lia|reflexivity|repeat constructor].
  - exists r1, F1, w1. split; [exact H1|]. split; [exact H2|].
    rewrite (generate_vitess_instance_config_ok Store.two_calls_ports
               (Store.two_calls_description "useast1-prod") [VStr "cellA"]
               [{| ks_keyspace := "orders"; ks_cluster := "main1" |}])
      in H3.
    + destruct H3 as (v & F2 & w2 & H3 & _ & H4 & H5).
      exists v, F2, w2. split; [exact H3|]. split; [exact H4|exact H5].
    + reflexivity.
    + reflexivity.
    + repeat constructor. unfold mapped. cbn. eexists. reflexivity.
Defined.

Module StoreExtras.

Import Store.
Import StoreFacts.
Local Open Scope list_scope.
Local Open Scope nat_scope.

(** X2 -- The flag maps of the dashboard spec and of the admin spec are not
    copies: the [extraFlags] entry of the dict [build_vitess_dashboard_config]
    returns is the object of the constant [VTCTLD_EXTRA_FLAGS] itself, that
    of [build_vt_admin_config] the object of [VTADMIN_EXTRA_FLAGS]; and the
    [cells] entry of both is the list object they were called with. *)
Theorem flag_maps_are_shared (s : store) (cells pool pcluster : sval)
    (zk : option string) :
  intact (heap s) →
  wp (build_vitess_dashboard_config cells pool pcluster zk) s
    (λ v s', ∃ l entries,
       v = SRef l ∧ heap s' !! l = Some (ODict entries)
       ∧ dict_get entries "extraFlags" = Some VTCTLD_EXTRA_FLAGS
       ∧ dict_get entries "cells" = Some cells)
  ∧ wp (build_vt_admin_config cells pool pcluster) s
      (λ v s', ∃ l entries,
         v = SRef l ∧ heap s' !! l = Some (ODict entries)
         ∧ dict_get entries "extraFlags" = Some VTADMIN_EXTRA_FLAGS
         ∧ dict_get entries "cells" = Some cells).
Proof.
  destruct s as [b w]. cbn [heap]. intros Hb.
  rewrite (fr_nil {| heap := b; env := w |}). cbn [heap env]. split.
  - unfold build_vitess_dashboard_config. repeat wp_step.
    eexists _, _. split; [reflexivity|]. cbn [heap fr].
    split; [rewrite lookup_new; reflexivity|]. split; reflexivity.
  - unfold build_vt_admin_config. repeat wp_step.
    eexists _, _. split; [reflexivity|]. cbn [heap fr].
    split; [rewrite lookup_new; reflexivity|]. split; reflexivity.
Qed.

Lemma flag_maps_are_shared_witness :
  wp (build_vitess_dashboard_config (SRef (length module_heap))
        (SStr "default") (SStr "norcal-devc") (Some "zk:2181")) two_calls_store
    (λ v s', ∃ l entries,
       v = SRef l ∧ heap s' !! l = Some (ODict entries)
       ∧ dict_get entries "extraFlags" = Some VTCTLD_EXTRA_FLAGS
       ∧ dict_get entries "cells" = Some (SRef (length module_heap))).
Proof.
  apply (flag_maps_are_shared two_calls_store (SRef (length module_heap))
           (SStr "default") (SStr "norcal-devc") (Some "zk:2181")).
  exists [OList [SStr "cellA"]]. reflexivity.
Defined.

(** X3 -- Unlike them, the flags of a tablet pool are an object of the call: the
    [extraFlags] entry of its [vttablet] dict is a dict made by the call,
    not the object of [VTTABLET_EXTRA_FLAGS], and so is its [extraEnv]
    list. *)
Theorem tablet_flags_are_a_copy (s : store) (cell pool pcluster : sval)
    (db keyspace : string) (port : Z) (zk : option string)
    (table threshold tablet_type : string) (region : option string) :
  intact (heap s) →
  wp (build_tablet_pool_config cell db keyspace port pool pcluster zk table
        threshold tablet_type region) s
    (λ v s', ∃ l entries lt tentries lf le,
       v = SRef l ∧ heap s' !! l = Some (ODict entries)
       ∧ dict_get entries "vttablet" = Some (SRef lt)
       ∧ heap s' !! lt = Some (ODict tentries)
       ∧ dict_get tentries "extraFlags" = Some (SRef lf)
       ∧ dict_get entries "extraEnv" = Some (SRef le)
       ∧ length (heap s) ≤ lf ∧ length (heap s) ≤ le).
Proof.
  destruct s as [b w]. cbn [heap]. intros Hb.
  rewrite (fr_nil {| heap := b; env := w |}). cbn [heap env].
  unfold build_tablet_pool_config. repeat wp_step.
  eexists _, _, _, _, _, _. split; [reflexivity|]. cbn [heap fr].
  split; [rewrite lookup_new; reflexivity|].
  split; [reflexivity|].
  split; [rewrite lookup_new; reflexivity|].
  split; [reflexivity|]. split; [reflexivity|]. split; lia.
Qed.

Lemma tablet_flags_are_a_copy_witness :
  wp (build_tablet_pool_config (SStr "cellA") "orders" "orders" 3306
        (SStr "default") (SStr "norcal-devc") (Some "zk:2181")
        "read_replication_delay" "3" "primary" (Some "uswest1-devc"))
    two_calls_store
    (λ v s', ∃ l entries lt tentries lf le,
       v = SRef l ∧ heap s' !! l = Some (ODict entries)
       ∧ dict_get entries "vttablet" = Some (SRef lt)
       ∧ heap s' !! lt = Some (ODict tentries)
       ∧ dict_get tentries "extraFlags" = Some (SRef lf)
       ∧ dict_get entries "extraEnv" = Some (SRef le)
       ∧ length (heap two_calls_store) ≤ lf
       ∧ length (heap two_calls_store) ≤ le).
Proof.
  apply (tablet_flags_are_a_copy two_calls_store (SStr "cellA")
           (SStr "default") (SStr "norcal-devc") "orders" "orders" 3306
           (Some "zk:2181") "read_replication_delay" "3" "primary"
           (Some "uswest1-devc")).
  exists [OList [SStr "cellA"]]. reflexivity.
Defined.

End StoreExtras.

(** ** By value *)

(** X4 -- A keyspace whose source cluster has no entry in the port mappings makes
    the synthesis raise [KeyError] with the name of that cluster: the
    subscript [mysql_port_mappings[cluster]] of the first such keyspace
    raises, after one query of the mappings for each keyspace up to it. *)
Theorem unmapped_cluster_raises (ports : gmap string (gmap string Z))
    (d : InstanceDescription) (cs : list value)
    (pre post : list KeyspaceDescriptor) (ks : KeyspaceDescriptor) (w : world) :
  cells d = Some cs →
  keyspaces d = Some (pre ++ ks :: post)%list →
  Forall (mapped ports) pre →
  ports !! ks_cluster ks = None →
  generate_vitess_instance_config ports d w
  = (Raise (KeyError (ks_cluster ks)), World (queries w + length pre + 1)%nat).
Proof.
  intros Hc Hk Hpre Hks. unfold generate_vitess_instance_config.
  rewrite Hc, Hk. cbn [iter_opt list_field].
  unfold mbind at 1. unfold M_bind at 1. unfold lift at 1.
  unfold mbind at 1. unfold result_bind at 1.
  rewrite mapM_cell_config.
  unfold mbind at 1. unfold M_bind at 1. unfold lift at 1.
  rewrite build_vitess_dashboard_config_total.
  unfold mbind at 1. unfold M_bind at 1.
  unfold build_keyspaces_config. cbn [iter_opt].
  unfold mbind at 1. unfold M_bind at 1. cbn [lift].
  rewrite (build_keyspaces_config_loop_unmapped ports cs _ _ _ _ pre ks post
             [] w Hpre Hks).
  reflexivity.
Qed.

Lemma unmapped_cluster_raises_witness :
  generate_vitess_instance_config
    {[ "main1" := {[ "primary" := 3306%Z ]} ]}
    {| cpus := Some (VFloat 1 (-1)); mem := Some (VInt 256);
       deploy_group := Some (VStr "prod.everything");
       zk_address := Some "zk:2181"; paasta_pool := Some (VStr "default");
       paasta_cluster := Some (VStr "norcal-devc");
       cells := Some [VStr "cellA"];
       keyspaces := Some [{| ks_keyspace := "orders"; ks_cluster := "main1" |};
                          {| ks_keyspace := "billing"; ks_cluster := "main2" |};
                          {| ks_keyspace := "users"; ks_cluster := "main1" |}];
       region := Some "uswest1-devc" |} (World 0)
  = (Raise (KeyError "main2"), World 2).
Proof.
  apply (unmapped_cluster_raises
    {[ "main1" := {[ "primary" := 3306%Z ]} ]} _ [VStr "cellA"]
    [{| ks_keyspace := "orders"; ks_cluster := "main1" |}]
    [{| ks_keyspace := "users"; ks_cluster := "main1" |}]
    {| ks_keyspace := "billing"; ks_cluster := "main2" |} (World 0)).
  - reflexivity.
  - reflexivity.
  - repeat constructor. unfold mapped. cbn. eexists. reflexivity.
  - reflexivity.
Defined.

(** X5 -- With no cell, the synthesis still returns when the clusters are mapped:
    the tree has no cell spec, and every keyspace has its entry, with no
    tablet pool. *)
Theorem no_cells_no_pools (ports : gmap string (gmap string Z))
    (d : InstanceDescription) (kss : list KeyspaceDescriptor) (w : world) :
  cells d = Some [] →
  keyspaces d = Some kss →
  Forall (mapped ports) kss →
  ∃ tree w' entries,
    generate_vitess_instance_config ports d w = (Ok tree, w')
    ∧ field tree "cells" = Some (VList [])
    ∧ field tree "keyspaces" = Some (VList entries)
    ∧ map (λ entry, field entry "name") entries
      = map (λ ks, Some (VStr (ks_keyspace ks))) kss
    ∧ Forall (λ entry, tablet_pools_of entry = Some []) entries.
Proof.
  intros Hc Hk Hall. eexists _, _, _.
  split; [by apply generate_vitess_instance_config_ok|].
  split; [reflexivity|]. split; [reflexivity|]. split.
  - rewrite map_map. reflexivity.
  - apply List.Forall_map, Forall_forall. intros ks _.
    rewrite tablet_pools_of_keyspace_config.
    unfold keyspace_pools, role_pools, TABLET_TYPES. cbn [map concat].
    by repeat destruct (_ !! _).
Qed.

Lemma no_cells_no_pools_witness :
  ∃ tree w' entries,
    generate_vitess_instance_config
      {[ "main1" := {[ "primary" := 3306%Z ]} ]}
      {| cpus := Some (VFloat 1 (-1)); mem := Some (VInt 256);
         deploy_group := Some (VStr "prod.everything");
         zk_address := Some "zk:2181"; paasta_pool := Some (VStr "default");
         paasta_cluster := Some (VStr "norcal-devc");
         cells := Some [];
         keyspaces := Some [{| ks_keyspace := "orders"; ks_cluster := "main1" |}];
         region := Some "uswest1-devc" |} (World 0)
    = (Ok tree, w')
    ∧ field tree "keyspaces" = Some (VList entries)
    ∧ Forall (λ entry, tablet_pools_of entry = Some []) entries.
Proof.
  destruct (no_cells_no_pools
    {[ "main1" := {[ "primary" := 3306%Z ]} ]}
    {| cpus := Some (VFloat 1 (-1)); mem := Some (VInt 256);
       deploy_group := Some (VStr "prod.everything");
       zk_address := Some "zk:2181"; paasta_pool := Some (VStr "default");
       paasta_cluster := Some (VStr "norcal-devc");
       cells := Some [];
       keyspaces := Some [{| ks_keyspace := "orders"; ks_cluster := "main1" |}];
       region := Some "uswest1-devc" |}
    [{| ks_keyspace := "orders"; ks_cluster := "main1" |}] (World 0))
    as (tree & w' & entries & H1 & _ & H3 & _ & H5).
  - reflexivity.
  - reflexivity.
  - repeat constructor. unfold mapped. cbn. eexists. reflexivity.
  - exists tree, w', entries. split; [exact H1|]. split; [exact H3|exact H5].
Defined.

(** What a tablet pool says of its datastore: for every argument of
    [build_tablet_pool_config]. *)
Lemma tablet_pool_datastore cell db keyspace port pool pcluster zk table
    threshold tablet_type region :
  let p := tablet_pool cell db keyspace port pool pcluster zk table threshold
             tablet_type region in
  get_path p ["externalDatastore"; "port"] = Some (VInt port)
  ∧ get_path p ["externalDatastore"; "database"] = Some (VStr db)
  ∧ get_path p ["externalDatastore"; "host"] = Some (VStr SOURCE_DB_HOST)
  ∧ ∃ envs, field p "extraEnv" = Some (VList envs)
      ∧ env_lookup envs "DB" = Some (VStr db)
      ∧ env_lookup envs "KEYSPACE" = Some (VStr keyspace).
Proof.
  repeat split; try reflexivity.
  eexists. split; [reflexivity|]. split; reflexivity.
Qed.

(** A property of every pool a keyspace gets: it is enough that the pools
    built for the roles the cluster maps have it. *)
Lemma keyspace_pools_forall cs pool pcluster zk region ks m (P : value → Prop) :
  (∀ tablet_type port cell,
     tablet_type ∈ TABLET_TYPES →
     m !! tablet_type = Some port →
     P (tablet_pool cell (ks_keyspace ks) (ks_keyspace ks) port pool pcluster
          zk (throttle_policy tablet_type (ks_cluster ks)).1
          (throttle_policy tablet_type (ks_cluster ks)).2 tablet_type region)) →
  Forall P (keyspace_pools cs pool pcluster zk region ks m).
Proof.
  intros HP. unfold keyspace_pools, TABLET_TYPES in *. cbn [map concat].
  rewrite app_nil_r. apply Forall_app. split.
  - unfold role_pools. destruct (m !! "primary") as [port|] eqn:Hp; [|constructor].
    apply List.Forall_map, Forall_forall. intros cell _.
    apply HP; [|exact Hp]. apply elem_of_cons. by left.
  - unfold role_pools. destruct (m !! "migration") as [port|] eqn:Hp; [|constructor].
    apply List.Forall_map, Forall_forall. intros cell _.
    apply HP; [|exact Hp]. apply elem_of_cons. right. apply elem_of_cons. by left.
Qed.

(** The same for the entries of the keyspaces. *)
Lemma keyspace_configs_forall2 ports cs pool pcluster zk region kss
    (P : KeyspaceDescriptor → value → Prop) :
  (∀ ks, P ks (keyspace_config ports cs pool pcluster zk region ks)) →
  Forall2 P kss (map (keyspace_config ports cs pool pcluster zk region) kss).
Proof.
  intros HP. induction kss as [|ks kss IH]; cbn [map]; constructor; auto.
Qed.

(** X6 -- Every tablet pool of a keyspace connects to the port the mappings give,
    for the keyspace's cluster, to the pool's own role; its database, and its
    [DB] and [KEYSPACE] environment values, are the keyspace's name. *)
Theorem pools_follow_port_mappings (ports : gmap string (gmap string Z))
    (cs : list value) (kss : list KeyspaceDescriptor)
    (pool pcluster : value) (zk region : option string) (w : world) :
  Forall (mapped ports) kss →
  ∃ configs w',
    build_keyspaces_config ports (Some cs) (Some kss) pool pcluster zk region w
    = (Ok (VList configs), w')
    ∧ Forall2 (λ ks entry,
        ∃ pools,
          tablet_pools_of entry = Some pools
          ∧ Forall (λ p,
              ∃ tablet_type port envs,
                tablet_type ∈ TABLET_TYPES
                ∧ ports !! ks_cluster ks ≫= (.!! tablet_type) = Some port
                ∧ field p "name"
                  = Some (VStr (pool_name (ks_keyspace ks) tablet_type))
                ∧ get_path p ["externalDatastore"; "port"] = Some (VInt port)
                ∧ get_path p ["externalDatastore"; "database"]
                  = Some (VStr (ks_keyspace ks))
                ∧ get_path p ["externalDatastore"; "host"]
                  = Some (VStr SOURCE_DB_HOST)
                ∧ field p "extraEnv" = Some (VList envs)
                ∧ env_lookup envs "DB" = Some (VStr (ks_keyspace ks))
                ∧ env_lookup envs "KEYSPACE" = Some (VStr (ks_keyspace ks)))
              pools)
        kss configs.
Proof.
  intros Hall. eexists _, _. split; [by apply build_keyspaces_config_ok|].
  apply keyspace_configs_forall2. intros ks.
  eexists. split; [apply tablet_pools_of_keyspace_config|].
  apply keyspace_pools_forall. intros tablet_type port cell Hin Hport.
  destruct (ports !! ks_cluster ks) as [m|] eqn:Hm;
    cbn [default from_option id] in Hport;
    [|by rewrite lookup_empty in Hport].
  destruct (tablet_pool_datastore cell (ks_keyspace ks) (ks_keyspace ks) port
              pool pcluster zk (throttle_policy tablet_type (ks_cluster ks)).1
              (throttle_policy tablet_type (ks_cluster ks)).2 tablet_type region)
    as (H1 & H2 & H3 & envs & H4 & H5 & H6).
  exists tablet_type, port, envs.
  split; [exact Hin|]. split; [exact Hport|].
  split; [apply tablet_pool_name|].
  split; [exact H1|]. split; [exact H2|]. split; [exact H3|].
  split; [exact H4|]. split; [exact H5|exact H6].
Qed.

(** X7 -- Every tablet pool of a keyspace throttles as [throttle_policy] says for
    the pool's own role and the keyspace's cluster: its query reads the
    policy's table, its threshold is the policy's. *)
Theorem pools_follow_throttle_policy (ports : gmap string (gmap string Z))
    (cs : list value) (kss : list KeyspaceDescriptor)
    (pool pcluster : value) (zk region : option string) (w : world) :
  Forall (mapped ports) kss →
  ∃ configs w',
    build_keyspaces_config ports (Some cs) (Some kss) pool pcluster zk region w
    = (Ok (VList configs), w')
    ∧ Forall2 (λ ks entry,
        ∃ pools,
          tablet_pools_of entry = Some pools
          ∧ Forall (λ p,
              ∃ tablet_type,
                tablet_type ∈ TABLET_TYPES
                ∧ field p "name"
                  = Some (VStr (pool_name (ks_keyspace ks) tablet_type))
                ∧ get_path p ["vttablet"; "extraFlags"; "throttle_metrics_query"]
                  = Some (VStr (throttle_query
                       (throttle_policy tablet_type (ks_cluster ks)).1))
                ∧ get_path p
                    ["vttablet"; "extraFlags"; "throttle_metrics_threshold"]
                  = Some (VStr (throttle_policy tablet_type (ks_cluster ks)).2))
              pools)
        kss configs.
Proof.
  intros Hall. eexists _, _. split; [by apply build_keyspaces_config_ok|].
  apply keyspace_configs_forall2. intros ks.
  eexists. split; [apply tablet_pools_of_keyspace_config|].
  apply keyspace_pools_forall. intros tablet_type port cell Hin _.
  exists tablet_type. split; [exact Hin|]. split; [apply tablet_pool_name|].
  apply tablet_pool_throttle_flags.
Qed.

Lemma pools_follow_throttle_policy_witness :
  ∃ configs w',
    build_keyspaces_config
      {[ "refresh1" := {[ "primary" := 3306%Z; "migration" := 3307%Z ]} ]}
      (Some [VStr "cellA"])
      (Some [{| ks_keyspace := "orders"; ks_cluster := "refresh1" |}])
      (VStr "default") (VStr "norcal-devc") (Some "zk:2181")
      (Some "uswest1-devc") (World 0)
    = (Ok (VList configs), w')
    ∧ length configs = 1%nat.
Proof.
  destruct (pools_follow_throttle_policy
    {[ "refresh1" := {[ "primary" := 3306%Z; "migration" := 3307%Z ]} ]}
    [VStr "cellA"]
    [{| ks_keyspace := "orders"; ks_cluster := "refresh1" |}]
    (VStr "default") (VStr "norcal-devc") (Some "zk:2181")
    (Some "uswest1-devc") (World 0)) as (configs & w' & H1 & H2).
  - repeat constructor. unfold mapped. cbn. eexists. reflexivity.
  - exists configs, w'. split; [exact H1|].
    symmetry. exact (Forall2_length _ _ _ H2).
Defined.

Lemma pools_follow_port_mappings_witness :
  ∃ configs w',
    build_keyspaces_config {[ "main1" := {[ "primary" := 3306%Z ]} ]}
      (Some [VStr "cellA"; VStr "cellB"])
      (Some [{| ks_keyspace := "orders"; ks_cluster := "main1" |}])
      (VStr "default") (VStr "norcal-devc") (Some "zk:2181")
      (Some "uswest1-devc") (World 0)
    = (Ok (VList configs), w')
    ∧ length configs = 1%nat.
Proof.
  destruct (pools_follow_port_mappings
    {[ "main1" := {[ "primary" := 3306%Z ]} ]}
    [VStr "cellA"; VStr "cellB"]
    [{| ks_keyspace := "orders"; ks_cluster := "main1" |}]
    (VStr "default") (VStr "norcal-devc") (Some "zk:2181")
    (Some "uswest1-devc") (World 0)) as (configs & w' & H1 & H2).
  - repeat constructor. unfold mapped. cbn. eexists. reflexivity.
  - exists configs, w'. split; [exact H1|].
    symmetry. exact (Forall2_length _ _ _ H2).
Defined.

Ltac elem_go :=
  repeat first [by (apply elem_of_cons; left)|apply elem_of_cons; right].

(** X8 -- Templating keeps the entries of the blueprint: the environment list of a
    tablet pool is the two entries of [build_extra_env] followed by one entry
    for each entry of [VTTABLET_EXTRA_ENV], with the same names in the same
    order, and an entry whose name is none of the six the builder assigns is
    the blueprint's entry itself. *)
Theorem tablet_env_keeps_template (cell : value) (db keyspace : string)
    (port : Z) (pool pcluster : value) (zk : option string)
    (table threshold tablet_type : string) (region : option string) :
  ∃ config envs,
    build_tablet_pool_config cell db keyspace port pool pcluster zk table
      threshold tablet_type region = Ok config
    ∧ field config "extraEnv" = Some (VList envs)
    ∧ env_names envs
      = (env_names (entries_of (build_extra_env pcluster))
         ++ env_names (entries_of VTTABLET_EXTRA_ENV))%list
    ∧ ∀ env,
        env ∈ entries_of VTTABLET_EXTRA_ENV →
        field env "name" ∉ map (λ n, Some (VStr n))
          ["TOPOLOGY_FLAGS"; "CELL_TOPOLOGY_SERVERS"; "DB"; "KEYSPACE";
           "VAULT_ADDR"; "VAULT_CACERT"] →
        env ∈ envs.
Proof.
  eexists _, _. split; [apply build_tablet_pool_config_total|].
  split; [reflexivity|]. split; [reflexivity|].
  intros env Hin Hname. unfold entries_of, VTTABLET_EXTRA_ENV in Hin.
  cbn [as_list default from_option id] in Hin.
  repeat (apply elem_of_cons in Hin as [->|Hin]);
    try (by apply elem_of_nil in Hin);
    first [solve [elem_go]|exfalso; apply Hname; cbn; solve [elem_go]].
Qed.

(** X9 -- The same for the gateway of a cell: the entries of [build_extra_env], then
    those of [VTGATE_EXTRA_ENV], of which only [VAULT_ADDR] and
    [VAULT_CACERT] get a value of the call. *)
Theorem gateway_env_keeps_template (cell pool pcluster : value)
    (region : option string) :
  ∃ config envs,
    build_cell_config cell pool pcluster region = Ok config
    ∧ get_path config ["gateway"; "extraEnv"] = Some (VList envs)
    ∧ env_names envs
      = (env_names (entries_of (build_extra_env pcluster))
         ++ env_names (entries_of VTGATE_EXTRA_ENV))%list
    ∧ ∀ env,
        env ∈ entries_of VTGATE_EXTRA_ENV →
        field env "name" ∉ map (λ n, Some (VStr n))
          ["VAULT_ADDR"; "VAULT_CACERT"] →
        env ∈ envs.
Proof.
  eexists _, _. split; [apply build_cell_config_total|].
  split; [reflexivity|]. split; [reflexivity|].
  intros env Hin Hname. unfold entries_of, VTGATE_EXTRA_ENV in Hin.
  cbn [as_list default from_option id] in Hin.
  repeat (apply elem_of_cons in Hin as [->|Hin]);
    try (by apply elem_of_nil in Hin);
    first [solve [elem_go]|exfalso; apply Hname; cbn; solve [elem_go]].
Qed.

(** X10 -- The same for the dashboard: the entries of [build_extra_env], then those
    of [VTCTLD_EXTRA_ENV], of which only [TOPOLOGY_FLAGS] gets a value of
    the call. *)
Theorem dashboard_env_keeps_template (cells pool pcluster : value)
    (zk : option string) :
  ∃ config envs,
    build_vitess_dashboard_config cells pool pcluster zk = Ok config
    ∧ field config "extraEnv" = Some (VList envs)
    ∧ env_names envs
      = (env_names (entries_of (build_extra_env pcluster))
         ++ env_names (entries_of VTCTLD_EXTRA_ENV))%list
    ∧ ∀ env,
        env ∈ entries_of VTCTLD_EXTRA_ENV →
        field env "name" ≠ Some (VStr "TOPOLOGY_FLAGS") →
        env ∈ envs.
Proof.
  eexists _, _. split; [apply build_vitess_dashboard_config_total|].
  split; [reflexivity|]. split; [reflexivity|].
  intros env Hin Hname. unfold entries_of, VTCTLD_EXTRA_ENV in Hin.
  cbn [as_list default from_option id] in Hin.
  repeat (apply elem_of_cons in Hin as [->|Hin]);
    try (by apply elem_of_nil in Hin);
    first [solve [elem_go]|by exfalso; apply Hname].
Qed.

(** X11 -- The vault address and the certificate path of a call are derived from its
    region alone, never from the blueprint's own values: in a cell spec the
    gateway's flags and its [VAULT_ADDR] and [VAULT_CACERT] entries agree, in
    a tablet pool the credential flags and the same two entries agree.  With
    no region the text [None] stands in its place. *)
Theorem vault_settings_agree (cell pool pcluster : value) (db keyspace : string)
    (port : Z) (zk : option string) (table threshold tablet_type : string)
    (region : option string) :
  (∃ config envs,
     build_cell_config cell pool pcluster region = Ok config
     ∧ get_path config ["gateway"; "extraEnv"] = Some (VList envs)
     ∧ env_lookup envs "VAULT_ADDR" = Some (VStr (vault_addr region))
     ∧ get_path config ["gateway"; "extraFlags"; "mysql_auth_vault_addr"]
       = Some (VStr (vault_addr region))
     ∧ env_lookup envs "VAULT_CACERT" = Some (VStr (vault_cacert region))
     ∧ get_path config ["gateway"; "extraFlags"; "mysql_auth_vault_tls_ca"]
       = Some (VStr (vault_cacert region)))
  ∧ (∃ config envs,
       build_tablet_pool_config cell db keyspace port pool pcluster zk table
         threshold tablet_type region = Ok config
       ∧ field config "extraEnv" = Some (VList envs)
       ∧ env_lookup envs "VAULT_ADDR" = Some (VStr (vault_addr region))
       ∧ get_path config ["vttablet"; "extraFlags"; "db-credentials-vault-addr"]
         = Some (VStr (vault_addr region))
       ∧ env_lookup envs "VAULT_CACERT" = Some (VStr (vault_cacert region))
       ∧ get_path config
           ["vttablet"; "extraFlags"; "db-credentials-vault-tls-ca"]
         = Some (VStr (vault_cacert region)))
  ∧ vault_addr None = "https://vault-dre.None.yelpcorp.com:8200"
  ∧ vault_cacert None = "/etc/vault/all_cas/acm-privateca-None.crt".
Proof.
  split; [|split; [|split; reflexivity]].
  - eexists _, _. split; [apply build_cell_config_total|].
    repeat split; reflexivity.
  - eexists _, _. split; [apply build_tablet_pool_config_total|].
    repeat split; reflexivity.
Qed.

(** X12 -- The lock-server address of a call: the [TOPOLOGY_FLAGS] entry of a tablet
    pool and of the dashboard holds the three flags with the address spliced
    in after a dollar sign, and the [CELL_TOPOLOGY_SERVERS] entry of a tablet
    pool holds the address itself, [None] when there is none. *)
Theorem lock_server_address_templated (cell cells pool pcluster : value)
    (db keyspace : string) (port : Z) (zk : option string)
    (table threshold tablet_type : string) (region : option string) :
  let flags :=
    VStr ("--topo_implementation zk2 --topo_global_server_address $"
          +:+ fmt zk +:+ " --topo_global_root /vitess-paasta/global") in
  (∃ config envs,
     build_tablet_pool_config cell db keyspace port pool pcluster zk table
       threshold tablet_type region = Ok config
     ∧ field config "extraEnv" = Some (VList envs)
     ∧ env_lookup envs "TOPOLOGY_FLAGS" = Some flags
     ∧ env_lookup envs "CELL_TOPOLOGY_SERVERS" = Some (of_opt zk))
  ∧ (∃ config envs,
       build_vitess_dashboard_config cells pool pcluster zk = Ok config
       ∧ field config "extraEnv" = Some (VList envs)
       ∧ env_lookup envs "TOPOLOGY_FLAGS" = Some flags).
Proof.
  split.
  - eexists _, _. split; [apply build_tablet_pool_config_total|].
    repeat split; reflexivity.
  - eexists _, _. split; [apply build_vitess_dashboard_config_total|].
    repeat split; reflexivity.
Qed.

(** X13 -- The flags of a tablet pool: the keys of [VTTABLET_EXTRA_FLAGS] in their
    order, then the nine keys the builder adds; and every flag of the blueprint
    but the two throttling ones keeps the blueprint's value, whatever the
    arguments of the call. *)
Theorem tablet_flags_keep_template (cell : value) (db keyspace : string)
    (port : Z) (pool pcluster : value) (zk : option string)
    (table threshold tablet_type : string) (region : option string) :
  ∃ config flags template,
    build_tablet_pool_config cell db keyspace port pool pcluster zk table
      threshold tablet_type region = Ok config
    ∧ get_path config ["vttablet"; "extraFlags"] = Some (VDict flags)
    ∧ VTTABLET_EXTRA_FLAGS = VDict template
    ∧ map fst flags
      = (map fst template
         ++ ["enforce-tableacl-config"; "table-acl-config";
             "table-acl-config-reload-interval";
             "queryserver-config-strict-table-acl"; "db-credentials-server";
             "db-credentials-vault-addr"; "db-credentials-vault-path";
             "db-credentials-vault-tls-ca"; "db-credentials-vault-ttl"])%list
    ∧ ∀ k v,
        dict_get template k = Some v →
        k ≠ "throttle_metrics_query" →
        k ≠ "throttle_metrics_threshold" →
        dict_get flags k = Some v.
Proof.
  eexists _, _, _. split; [apply build_tablet_pool_config_total|].
  split; [reflexivity|]. split; [reflexivity|]. split; [reflexivity|].
  intros k v Hk Hq Ht.
  cbn [dict_get] in Hk |- *.
  repeat lazymatch type of Hk with
  | (if String.eqb ?key k then _ else _) = _ =>
      destruct (String.eqb_spec key k) as [<-|_];
      [first [exact Hk|by exfalso; apply Hq|by exfalso; apply Ht]|]
  end.
  discriminate.
Qed.

Lemma keyed_cells_fmap (a : option value) (cs : list value) :
  (cell ← cs; [(a, Some cell)]) = (λ cell, (a, Some cell)) <$> cs.
Proof. induction cs as [|c cs IH]; [done|]. cbn. by f_equal. Qed.

Lemma keyed_cells_NoDup (a : option value) (cs : list value) :
  NoDup cs → NoDup (cell ← cs; [(a, Some cell)]).
Proof.
  intros Hcs. rewrite keyed_cells_fmap. apply NoDup_fmap_2; [|done].
  intros x y Hxy. by injection Hxy.
Qed.

Lemma keyed_cells_elem (a : option value) (cs : list value) x :
  x ∈ (cell ← cs; [(a, Some cell)]) → x.1 = a.
Proof.
  rewrite keyed_cells_fmap. intros Hx.
  apply list_elem_of_fmap in Hx as (c & -> & _). reflexivity.
Qed.

(** X14 -- When the cells of the description are distinct, no two tablet pools of a
    keyspace have both the same name and the same cell. *)
Theorem distinct_cells_distinct_pools (ports : gmap string (gmap string Z))
    (cs : list value) (kss : list KeyspaceDescriptor)
    (pool pcluster : value) (zk region : option string) (w : world) :
  NoDup cs →
  Forall (mapped ports) kss →
  ∃ configs w',
    build_keyspaces_config ports (Some cs) (Some kss) pool pcluster zk region w
    = (Ok (VList configs), w')
    ∧ Forall (λ entry,
        ∃ pools,
          tablet_pools_of entry = Some pools
          ∧ NoDup (map pool_key pools)) configs.
Proof.
  intros Hcs Hall. eexists _, _. split; [by apply build_keyspaces_config_ok|].
  apply List.Forall_map, Forall_forall. intros ks _.
  eexists. split; [apply tablet_pools_of_keyspace_config|].
  unfold keyspace_pools, TABLET_TYPES. cbn [map concat].
  rewrite app_nil_r, map_app, !pool_key_role_pools.
  apply NoDup_app. split; [|split].
  - destruct (decide _); [by apply keyed_cells_NoDup|constructor].
  - intros x Hx Hx'.
    destruct (decide _); [|by apply elem_of_nil in Hx].
    destruct (decide _); [|by apply elem_of_nil in Hx'].
    apply keyed_cells_elem in Hx, Hx'. rewrite Hx in Hx'.
    injection Hx' as Hx'. by apply pool_name_inj in Hx'.
  - destruct (decide _); [by apply keyed_cells_NoDup|constructor].
Qed.

Lemma distinct_cells_distinct_pools_witness :
  ∃ configs w',
    build_keyspaces_config
      {[ "main1" := {[ "primary" := 3306%Z; "migration" := 3307%Z ]} ]}
      (Some [VStr "cellA"; VStr "cellB"])
      (Some [{| ks_keyspace := "orders"; ks_cluster := "main1" |}])
      (VStr "default") (VStr "norcal-devc") (Some "zk:2181")
      (Some "uswest1-devc") (World 0)
    = (Ok (VList configs), w')
    ∧ Forall (λ entry,
        ∃ pools,
          tablet_pools_of entry = Some pools
          ∧ NoDup (map pool_key pools)) configs.
Proof.
  apply (distinct_cells_distinct_pools
    {[ "main1" := {[ "primary" := 3306%Z; "migration" := 3307%Z ]} ]}
    [VStr "cellA"; VStr "cellB"]
    [{| ks_keyspace := "orders"; ks_cluster := "main1" |}]
    (VStr "default") (VStr "norcal-devc") (Some "zk:2181")
    (Some "uswest1-devc") (World 0)).
  - apply NoDup_cons. split.
    + intros H. apply elem_of_cons in H as [H|H]; [discriminate|].
      by apply elem_of_nil in H.
    + apply NoDup_cons. split; [apply not_elem_of_nil|apply NoDup_nil_2].
  - repeat constructor. unfold mapped. cbn. eexists. reflexivity.
Defined.

(** X15 -- A tree the synthesis returns has no [replicas] entry, so that
    [get_instances] answers its default, 1, on it. *)
Theorem generated_tree_instances (ports : gmap string (gmap string Z))
    (d : InstanceDescription) (w w' : world) (tree : value) :
  generate_vitess_instance_config ports d w = (Ok tree, w') →
  field tree "replicas" = None ∧ get_instances tree = Ok (VInt 1).
Proof.
  intros Hrun.
  destruct (generate_vitess_instance_config_inv _ _ _ _ _ Hrun)
    as (cs & kss & Hc & Hk & Hall).
  rewrite (generate_vitess_instance_config_ok ports d cs kss w Hc Hk Hall)
    in Hrun.
  injection Hrun as <- _. split; reflexivity.
Qed.

Lemma generated_tree_instances_witness :
  ∃ tree w',
    generate_vitess_instance_config
      {[ "main1" := {[ "primary" := 3306%Z ]} ]}
      {| cpus := Some (VFloat 1 (-1)); mem := Some (VInt 256);
         deploy_group := Some (VStr "prod.everything");
         zk_address := Some "zk:2181"; paasta_pool := Some (VStr "default");
         paasta_cluster := Some (VStr "norcal-devc");
         cells := Some [VStr "cellA"];
         keyspaces := Some [{| ks_keyspace := "orders"; ks_cluster := "main1" |}];
         region := Some "uswest1-devc" |} (World 0)
    = (Ok tree, w')
    ∧ get_instances tree = Ok (VInt 1).
Proof.
  assert (Forall (mapped {[ "main1" := {[ "primary" := 3306%Z ]} ]})
            [{| ks_keyspace := "orders"; ks_cluster := "main1" |}]) as Hall.
  { repeat constructor. unfold mapped. cbn. eexists. reflexivity. }
  pose proof (generate_vitess_instance_config_ok
    {[ "main1" := {[ "primary" := 3306%Z ]} ]}
    {| cpus := Some (VFloat 1 (-1)); mem := Some (VInt 256);
       deploy_group := Some (VStr "prod.everything");
       zk_address := Some "zk:2181"; paasta_pool := Some (VStr "default");
       paasta_cluster := Some (VStr "norcal-devc");
       cells := Some [VStr "cellA"];
       keyspaces := Some [{| ks_keyspace := "orders"; ks_cluster := "main1" |}];
       region := Some "uswest1-devc" |}
    [VStr "cellA"]
    [{| ks_keyspace := "orders"; ks_cluster := "main1" |}] (World 0)
    eq_refl eq_refl Hall) as Hrun.
  destruct (generated_tree_instances _ _ _ _ _ Hrun) as [_ Hone].
  eexists _, _. split; [exact Hrun|exact Hone].
Defined.

(** X16 -- The cells of the description reach the tree in their order: one cell spec
    for each, named after it, and the list itself as the [cells] of the
    dashboard and of the admin spec. *)
Theorem cells_carried_through (ports : gmap string (gmap string Z))
    (d : InstanceDescription) (w w' : world) (tree : value) :
  generate_vitess_instance_config ports d w = (Ok tree, w') →
  ∃ cs specs,
    cells d = Some cs
    ∧ field tree "cells" = Some (VList specs)
    ∧ map (λ spec, field spec "name") specs = map Some cs
    ∧ get_path tree ["vitessDashboard"; "cells"] = Some (VList cs)
    ∧ get_path tree ["vtadmin"; "cells"] = Some (VList cs).
Proof.
  intros Hrun.
  destruct (generate_vitess_instance_config_inv _ _ _ _ _ Hrun)
    as (cs & kss & Hc & Hk & Hall).
  rewrite (generate_vitess_instance_config_ok ports d cs kss w Hc Hk Hall)
    in Hrun.
  injection Hrun as <- _. exists cs. eexists.
  split; [exact Hc|]. split; [reflexivity|].
  split; [|split; reflexivity].
  rewrite map_map. reflexivity.
Qed.

Lemma cells_carried_through_witness :
  ∃ tree w',
    generate_vitess_instance_config
      {[ "main1" := {[ "primary" := 3306%Z ]} ]}
      {| cpus := Some (VFloat 1 (-1)); mem := Some (VInt 256);
         deploy_group := Some (VStr "prod.everything");
         zk_address := Some "zk:2181"; paasta_pool := Some (VStr "default");
         paasta_cluster := Some (VStr "norcal-devc");
         cells := Some [VStr "cellB"; VStr "cellA"];
         keyspaces := Some [{| ks_keyspace := "orders"; ks_cluster := "main1" |}];
         region := Some "uswest1-devc" |} (World 0)
    = (Ok tree, w')
    ∧ get_path tree ["vtadmin"; "cells"]
      = Some (VList [VStr "cellB"; VStr "cellA"]).
Proof.
  assert (Forall (mapped {[ "main1" := {[ "primary" := 3306%Z ]} ]})
            [{| ks_keyspace := "orders"; ks_cluster := "main1" |}]) as Hall.
  { repeat constructor. unfold mapped. cbn. eexists. reflexivity. }
  pose proof (generate_vitess_instance_config_ok
    {[ "main1" := {[ "primary" := 3306%Z ]} ]}
    {| cpus := Some (VFloat 1 (-1)); mem := Some (VInt 256);
       deploy_group := Some (VStr "prod.everything");
       zk_address := Some "zk:2181"; paasta_pool := Some (VStr "default");
       paasta_cluster := Some (VStr "norcal-devc");
       cells := Some [VStr "cellB"; VStr "cellA"];
       keyspaces := Some [{| ks_keyspace := "orders"; ks_cluster := "main1" |}];
       region := Some "uswest1-devc" |}
    [VStr "cellB"; VStr "cellA"]
    [{| ks_keyspace := "orders"; ks_cluster := "main1" |}] (World 0)
    eq_refl eq_refl Hall) as Hrun.
  destruct (cells_carried_through _ _ _ _ _ Hrun)
    as (cs & specs & Hc & _ & _ & _ & Hadm).
  cbn [cells] in Hc. injection Hc as <-.
  eexists _, _. split; [exact Hrun|exact Hadm].
Defined.

(** X17 -- Every role is given the same pool and cluster: the gateway of a cell
    spec, the dashboard spec, the admin spec and a tablet pool, built with
    one pool and one cluster, all carry them. *)
Theorem roles_carry_pool_and_cluster (cell cells pool pcluster : value)
    (db keyspace : string) (port : Z) (zk : option string)
    (table threshold tablet_type : string) (region : option string) :
  ∃ cell_spec gateway dashboard tablets,
    build_cell_config cell pool pcluster region = Ok cell_spec
    ∧ field cell_spec "gateway" = Some gateway
    ∧ build_vitess_dashboard_config cells pool pcluster zk = Ok dashboard
    ∧ build_tablet_pool_config cell db keyspace port pool pcluster zk table
        threshold tablet_type region = Ok tablets
    ∧ carries_contract pool pcluster gateway
    ∧ carries_contract pool pcluster dashboard
    ∧ carries_contract pool pcluster (build_vt_admin_config cells pool pcluster)
    ∧ carries_contract pool pcluster tablets.
Proof.
  eexists _, _, _, _.
  split; [apply build_cell_config_total|]. split; [reflexivity|].
  split; [apply build_vitess_dashboard_config_total|].
  split; [apply build_tablet_pool_config_total|].
  unfold carries_contract.
  repeat split; try reflexivity; eexists; split; reflexivity.
Qed.
